(** * Configuration resolution of yoga: [normalizeConfig] and its helpers

    A shallow embedding of the two revisions of [yogaDefaults.ts] that the
    repository carries, and of [findPrismaConfigFile] from [config.ts]:

    - the helpers [inputOrDefaultValue], [inputOrDefaultPath], [optional],
      [requiredPath], [contextPath], [resolversPath], [ejectFilePath] and
      [output] are textually the same in both revisions and are embedded
      once;
    - [Module YogaDefaults] embeds [prisma] and [normalizeConfig] of
      [packages/yoga/src/yogaDefaults.ts] (the revision with
      [prismaClientPath], [nexusPrismaSchema], [contextClientName]);
    - [Module Part000] embeds [importDatamodelInfoAndClient], [prisma] and
      [normalizeConfig] of [unnamed/part_000], the revision with
      [datamodelInfo] and [client] (the one [config.ts] imports
      [DEFAULT_META_SCHEMA_PATH] from).

    JavaScript [undefined] is [None]; a thrown [Error(message)] is
    [Throw message]; the file system and the working directory are an
    explicit [World]; the module loaders of [./helpers] are parameters. *)

From Stdlib Require Import String Ascii List Bool Arith Lia.
Import ListNotations.
Local Open Scope list_scope.
Local Open Scope string_scope.

(* ------------------------------------------------------------------ *)
(** ** Results of code that may throw *)

Inductive result (A : Type) : Type :=
| Ok (value : A)
| Throw (message : string).

Arguments Ok {A} value.
Arguments Throw {A} message.

Definition bind {A B : Type} (r : result A) (k : A -> result B) : result B :=
  match r with
  | Ok a => k a
  | Throw m => Throw m
  end.

Notation "'let*' x ':=' r 'in' k" := (bind r (fun x => k))
  (at level 10, x name, r at level 100, k at level 200).

Definition succeeded {A : Type} (r : result A) : bool :=
  match r with Ok _ => true | Throw _ => false end.

(* ------------------------------------------------------------------ *)
(** ** Node's [path.join] on POSIX paths

    [join] is Node's, not the repository's.  It is modelled on segments:
    the non-empty arguments are glued with ["/"], the result is cut at
    every ["/"], empty and ["."] segments are dropped, [".."] removes the
    segment before it (and is kept in front of a relative path, dropped at
    the root of an absolute one), and a leading or trailing ["/"] of the
    glued string is kept. *)

Definition slash : ascii := "/"%char.

Fixpoint splitSegments (s : string) : list string :=
  match s with
  | EmptyString => [EmptyString]
  | String c rest =>
      if Ascii.eqb c slash then EmptyString :: splitSegments rest
      else match splitSegments rest with
           | seg :: segs => String c seg :: segs
           | [] => [String c EmptyString]
           end
  end.

Definition pushSegment (allowAboveRoot : bool) (acc : list string)
    (seg : string) : list string :=
  if String.eqb seg "" || String.eqb seg "." then acc
  else if String.eqb seg ".." then
    match acc with
    | last :: before =>
        if String.eqb last ".." then
          if allowAboveRoot then ".." :: acc else acc
        else before
    | [] => if allowAboveRoot then [".."] else []
    end
  else seg :: acc.

(** the segments that survive, in order ([fold_left] keeps them reversed) *)
Definition normalizeSegments (allowAboveRoot : bool) (segs : list string)
    : list string :=
  rev (fold_left (pushSegment allowAboveRoot) segs []).

Fixpoint joinWith (sep : string) (parts : list string) : string :=
  match parts with
  | [] => ""
  | [p] => p
  | p :: rest => p ++ sep ++ joinWith sep rest
  end.

Definition isAbsolute (path : string) : bool :=
  match path with
  | String c _ => Ascii.eqb c slash
  | EmptyString => false
  end.

Fixpoint endsWithSlash (path : string) : bool :=
  match path with
  | EmptyString => false
  | String c EmptyString => Ascii.eqb c slash
  | String _ rest => endsWithSlash rest
  end.

Definition normalize (path : string) : string :=
  if String.eqb path "" then "."
  else
    let absolute := isAbsolute path in
    let trailing := endsWithSlash path in
    let body := joinWith "/" (normalizeSegments (negb absolute)
                                                (splitSegments path)) in
    if String.eqb body "" then
      if absolute then "/" else if trailing then "./" else "."
    else
      let body := if trailing then body ++ "/" else body in
      if absolute then "/" ++ body else body.

Definition nonEmpty (s : string) : bool := negb (String.eqb s "").

Definition joinAll (args : list string) : string :=
  match filter nonEmpty args with
  | [] => "."
  | parts => normalize (joinWith "/" parts)
  end.

Definition join (a b : string) : string := joinAll [a; b].

(* ------------------------------------------------------------------ *)
(** ** The world outside the resolver *)

(** [existsSync] answers for the path string it is handed (a relative one
    is the file system's business, resolved against the working
    directory); [cwd] is [process.cwd()]. *)
Record World : Type := {
  existsSync : string -> bool;
  cwd : string
}.

(* ------------------------------------------------------------------ *)
(** ** Helpers shared by both revisions of yogaDefaults.ts *)

(** [input ? input : defaultValue]: [undefined] and [''] are falsy. *)
Definition truthy (input : option string) : bool :=
  match input with
  | Some s => nonEmpty s
  | None => false
  end.

Definition inputOrDefaultValue (input : option string) (defaultValue : string)
    : string :=
  match input with
  | Some s => if nonEmpty s then s else defaultValue
  | None => defaultValue
  end.

Definition inputOrDefaultPath (projectDir : string) (input : option string)
    (defaultValue : string) : string :=
  let path := inputOrDefaultValue input defaultValue in
  join projectDir path.

Definition optional (w : World) (path : string) (input : option string)
    (errorMessage : string) : result (option string) :=
  if negb (existsSync w path) then
    if truthy input then Throw errorMessage
    else Ok None
  else Ok (Some path).

Definition requiredPath (w : World) (path : string) (errorMessage : string)
    : result string :=
  if negb (existsSync w path) then Throw errorMessage
  else Ok path.

(** The string fields of [DEFAULTS] that the code reads. *)
Module DEFAULTS.
Definition contextPath : string := "./src/context.ts".
Definition resolversPath : string := "./src/graphql/".
Definition ejectFilePath : string := "./src/index.ts".
Definition output_typegenPath : string := "./yoga/nexus.ts".
Definition output_schemaPath : string := "./src/schema.graphql".
Definition output_buildPath : string := "./dist".
(** only in yogaDefaults.ts *)
Definition prisma_prismaClientPath : string :=
  "./yoga/prisma-client/index.ts".
Definition prisma_contextClientName : string := "prisma".
End DEFAULTS.

(** [InputOutputFilesConfig] and the resolved [output] of [Config]; the type
    declarations of [./types] are not among the sources, the fields are the
    ones the code reads and builds. *)
Module InputOutputFilesConfig.
Record t : Type := {
  typegenPath : option string;
  schemaPath : option string;
  buildPath : option string
}.
(** the literal [{}] *)
Definition empty : t :=
  {| typegenPath := None; schemaPath := None; buildPath := None |}.
End InputOutputFilesConfig.

Module OutputFilesConfig.
Record t : Type := {
  typegenPath : string;
  schemaPath : string;
  buildPath : string
}.
End OutputFilesConfig.

(** [InputConfig] and [Config], over the revision's type of the [prisma]
    field. *)
Module InputConfig.
Record t (P : Type) : Type := {
  contextPath : option string;
  resolversPath : option string;
  ejectFilePath : option string;
  output : option InputOutputFilesConfig.t;
  prisma : option P
}.
Arguments contextPath {P} _.
Arguments resolversPath {P} _.
Arguments ejectFilePath {P} _.
Arguments output {P} _.
Arguments prisma {P} _.
(** the literal [{}] *)
Definition empty (P : Type) : t P :=
  {| contextPath := None; resolversPath := None; ejectFilePath := None;
     output := None; prisma := None |}.
End InputConfig.

Module Config.
Record t (P : Type) : Type := {
  contextPath : option string;
  resolversPath : string;
  ejectFilePath : option string;
  output : OutputFilesConfig.t;
  prisma : option P
}.
Arguments contextPath {P} _.
Arguments resolversPath {P} _.
Arguments ejectFilePath {P} _.
Arguments output {P} _.
Arguments prisma {P} _.
End Config.

Definition contextPathMessage (path : string) : string :=
  "Could not find a valid `contextPath` at " ++ path.

Definition contextPath (w : World) (projectDir : string)
    (input : option string) : result (option string) :=
  let path := inputOrDefaultPath projectDir input DEFAULTS.contextPath in
  optional w path input (contextPathMessage path).

Definition resolversPathMessage (path : string) : string :=
  "Could not find a valid `resolversPath` at " ++ path.

Definition resolversPath (w : World) (projectDir : string)
    (input : option string) : result string :=
  let path := inputOrDefaultPath projectDir input DEFAULTS.resolversPath in
  requiredPath w path (resolversPathMessage path).

Definition ejectFilePathMessage (path : string) : string :=
  "Could not find a valid `ejectFilePath` at " ++ path.

Definition ejectFilePath (w : World) (projectDir : string)
    (input : option string) : result (option string) :=
  let path := inputOrDefaultPath projectDir input DEFAULTS.ejectFilePath in
  optional w path input (ejectFilePathMessage path).

Definition output (projectDir : string)
    (input : option InputOutputFilesConfig.t) (outDir : option string)
    : OutputFilesConfig.t :=
  let input := match input with
               | Some given => given
               | None => InputOutputFilesConfig.empty
               end in
  let typegenPath :=
    inputOrDefaultPath projectDir (InputOutputFilesConfig.typegenPath input)
                       DEFAULTS.output_typegenPath in
  let schemaPath :=
    inputOrDefaultPath projectDir (InputOutputFilesConfig.schemaPath input)
                       DEFAULTS.output_schemaPath in
  let buildPath :=
    inputOrDefaultValue outDir (join projectDir DEFAULTS.output_buildPath) in
  {| OutputFilesConfig.typegenPath := typegenPath;
     OutputFilesConfig.schemaPath := schemaPath;
     OutputFilesConfig.buildPath := buildPath |}.

(** config.ts: [findPrismaConfigFile]; [null] is [None]. *)
Definition findPrismaConfigFile (w : World) (projectDir : string)
    : option string :=
  let definitionPath := joinAll [projectDir; "prisma.yml"] in
  if existsSync w definitionPath then Some definitionPath
  else
    let definitionPath := joinAll [cwd w; "prisma"; "prisma.yml"] in
    if existsSync w definitionPath then Some definitionPath
    else None.

(** [!!findPrismaConfigFile(projectDir)]: a path string is never empty here
    ([joinAll] returns at least ["."]), so it is truthy exactly when it is not
    [null]. *)
Definition hasPrismaConfigFile (w : World) (projectDir : string) : bool :=
  truthy (findPrismaConfigFile w projectDir).

(* ------------------------------------------------------------------ *)
(** ** packages/yoga/src/yogaDefaults.ts *)

Module YogaDefaults.

Definition DEFAULT_NEXUS_PRISMA_SCHEMA_PATH : string :=
  "./yoga/nexus-prisma/nexus-prisma.ts".

(** [InputPrismaConfig] is [true] or an object of overrides; [Schema] is
    the type of a [NexusPrismaSchema] object. *)
Module InputPrisma.
Record t (Schema : Type) : Type := {
  prismaClientPath : option string;
  nexusPrismaSchema : option Schema;
  contextClientName : option string
}.
Arguments prismaClientPath {Schema} _.
Arguments nexusPrismaSchema {Schema} _.
Arguments contextClientName {Schema} _.
(** the literal [{}] *)
Definition empty (Schema : Type) : t Schema :=
  {| prismaClientPath := None; nexusPrismaSchema := None;
     contextClientName := None |}.
End InputPrisma.

Inductive InputPrismaConfig (Schema : Type) : Type :=
| PrismaTrue
| PrismaObject (overrides : InputPrisma.t Schema).
Arguments PrismaTrue {Schema}.
Arguments PrismaObject {Schema} overrides.

Module Prisma.
Record t (Schema : Type) : Type := {
  prismaClientPath : string;
  nexusPrismaSchema : Schema;
  contextClientName : string
}.
Arguments prismaClientPath {Schema} _.
Arguments nexusPrismaSchema {Schema} _.
Arguments contextClientName {Schema} _.
End Prisma.

Definition nexusPrismaSchemaMessage : string :=
  "Could not find a valid `prisma.nexusPrismaSchema` at "
  ++ DEFAULT_NEXUS_PRISMA_SCHEMA_PATH.

Definition prismaClientPathMessage (path : string) : string :=
  "Could not find a valid `prisma.prismaClientPath` at " ++ path.

Section Resolver.
Variable Schema : Type.
(** [transpileAndImportDefault(projectDir, path)] of ./helpers, awaited *)
Variable transpileAndImportDefault : string -> string -> result Schema.
Variable w : World.

Definition prisma (projectDir : string)
    (input : option (InputPrismaConfig Schema))
    : result (option (Prisma.t Schema)) :=
  let hasPrisma := hasPrismaConfigFile w projectDir in
  match input, hasPrisma with
  | None, false => Ok None
  | _, _ =>
      let input := match input with
                   | Some (PrismaObject overrides) => overrides
                   | Some PrismaTrue | None => InputPrisma.empty Schema
                   end in
      let prismaClientPath :=
        inputOrDefaultPath projectDir (InputPrisma.prismaClientPath input)
                           DEFAULTS.prisma_prismaClientPath in
      let* nexusPrismaSchemaInput :=
        match InputPrisma.nexusPrismaSchema input with
        | Some schema => Ok (inr schema)
        | None =>
            let* path := requiredPath w DEFAULT_NEXUS_PRISMA_SCHEMA_PATH
                                      nexusPrismaSchemaMessage in
            Ok (inl path)
        end in
      let* nexusPrismaSchema :=
        match nexusPrismaSchemaInput with
        | inl path => transpileAndImportDefault projectDir path
        | inr schema => Ok schema
        end in
      let contextClientName :=
        inputOrDefaultValue (InputPrisma.contextClientName input)
                            DEFAULTS.prisma_contextClientName in
      let* checkedClientPath :=
        requiredPath w prismaClientPath
                     (prismaClientPathMessage prismaClientPath) in
      Ok (Some {| Prisma.prismaClientPath := checkedClientPath;
                  Prisma.nexusPrismaSchema := nexusPrismaSchema;
                  Prisma.contextClientName := contextClientName |})
  end.

Definition normalizeConfig (config : InputConfig.t (InputPrismaConfig Schema))
    (projectDir : string) (outDir : option string)
    : result (Config.t (Prisma.t Schema)) :=
  let* resolvedContextPath :=
    contextPath w projectDir (InputConfig.contextPath config) in
  let* resolvedResolversPath :=
    resolversPath w projectDir (InputConfig.resolversPath config) in
  let* resolvedEjectFilePath :=
    ejectFilePath w projectDir (InputConfig.ejectFilePath config) in
  let resolvedOutput :=
    output projectDir (InputConfig.output config) outDir in
  let* resolvedPrisma := prisma projectDir (InputConfig.prisma config) in
  Ok {| Config.contextPath := resolvedContextPath;
        Config.resolversPath := resolvedResolversPath;
        Config.ejectFilePath := resolvedEjectFilePath;
        Config.output := resolvedOutput;
        Config.prisma := resolvedPrisma |}.
End Resolver.

Arguments prisma {Schema} _ _ _ _.
Arguments normalizeConfig {Schema} _ _ _ _ _.
End YogaDefaults.

(* ------------------------------------------------------------------ *)
(** ** unnamed/part_000: the revision of yogaDefaults.ts with an inline
       client and a [datamodelInfoPath] *)

Module Part000.

Definition DEFAULT_META_SCHEMA_PATH : string :=
  "./yoga/nexus-prisma/datamodel-info.ts".
Definition DEFAULT_PRISMA_CLIENT_PATH : string :=
  "./yoga/prisma-client/index.ts".

(** [Export] is the type of the values a module exports: a
    [PrismaClientInput], a [DatamodelInfo]. *)
Module InputPrisma.
Record t (Export : Type) : Type := {
  datamodelInfoPath : option string;
  client : option Export
}.
Arguments datamodelInfoPath {Export} _.
Arguments client {Export} _.
(** the literal [{}] *)
Definition empty (Export : Type) : t Export :=
  {| datamodelInfoPath := None; client := None |}.
End InputPrisma.

Inductive InputPrismaConfig (Export : Type) : Type :=
| PrismaTrue
| PrismaObject (overrides : InputPrisma.t Export).
Arguments PrismaTrue {Export}.
Arguments PrismaObject {Export} overrides.

(** the resolved [prisma]; a component is [None] when the array that
    [importDatamodelInfoAndClient] returns is too short to destructure *)
Module Prisma.
Record t (Export : Type) : Type := {
  datamodelInfo : option Export;
  client : option Export
}.
Arguments datamodelInfo {Export} _.
Arguments client {Export} _.
End Prisma.

Record FileToTranspile : Type := {
  filePath : string;
  exportName : string
}.

Definition datamodelInfoMessage (path : string) : string :=
  "Could not find a valid `prisma.datamodelInfo` at " ++ path.

Section Resolver.
Variable Export : Type.
(** [transpileAndImport(files, projectDir, outDir)] of ./helpers, awaited *)
Variable transpileAndImport :
  list FileToTranspile -> string -> string -> result (list Export).
Variable w : World.

Definition importDatamodelInfoAndClient (projectDir outDir : string)
    (client : option Export) (datamodelInfo : option string)
    : result (list Export) :=
  let* pushed :=
    match client with
    | None =>
        let* path := requiredPath w DEFAULT_PRISMA_CLIENT_PATH "" in
        Ok ([{| filePath := path; exportName := "prisma" |}], [])
    | Some given => Ok ([], [given])
    end in
  let filesToTranspile : list FileToTranspile := fst pushed in
  let output : list Export := snd pushed in
  let datamodelInfoPath :=
    inputOrDefaultPath projectDir datamodelInfo DEFAULT_META_SCHEMA_PATH in
  let* path := requiredPath w datamodelInfoPath
                            (datamodelInfoMessage datamodelInfoPath) in
  let filesToTranspile :=
    (filesToTranspile
       ++ [{| filePath := path; exportName := "default" |}])%list in
  let* importedFiles :=
    transpileAndImport filesToTranspile projectDir outDir in
  Ok (output ++ importedFiles)%list.

Definition prisma (projectDir : string)
    (input : option (InputPrismaConfig Export)) (outDir : string)
    : result (option (Prisma.t Export)) :=
  let hasPrisma := hasPrismaConfigFile w projectDir in
  match input, hasPrisma with
  | None, false => Ok None
  | _, _ =>
      let input := match input with
                   | Some (PrismaObject overrides) => overrides
                   | Some PrismaTrue | None => InputPrisma.empty Export
                   end in
      let* imported :=
        importDatamodelInfoAndClient
          projectDir outDir
          (InputPrisma.client input)
          (InputPrisma.datamodelInfoPath input) in
      Ok (Some {| Prisma.datamodelInfo := nth_error imported 1;
                  Prisma.client := nth_error imported 0 |})
  end.

Definition normalizeConfig (config : InputConfig.t (InputPrismaConfig Export))
    (projectDir : string) (outDir : option string)
    : result (Config.t (Prisma.t Export)) :=
  let outputProperty :=
    output projectDir (InputConfig.output config) outDir in
  let* resolvedContextPath :=
    contextPath w projectDir (InputConfig.contextPath config) in
  let* resolvedResolversPath :=
    resolversPath w projectDir (InputConfig.resolversPath config) in
  let* resolvedEjectFilePath :=
    ejectFilePath w projectDir (InputConfig.ejectFilePath config) in
  let* resolvedPrisma :=
    prisma projectDir (InputConfig.prisma config)
           (OutputFilesConfig.buildPath outputProperty) in
  Ok {| Config.contextPath := resolvedContextPath;
        Config.resolversPath := resolvedResolversPath;
        Config.ejectFilePath := resolvedEjectFilePath;
        Config.output := outputProperty;
        Config.prisma := resolvedPrisma |}.
End Resolver.

Arguments importDatamodelInfoAndClient {Export} _ _ _ _ _ _.
Arguments prisma {Export} _ _ _ _ _.
Arguments normalizeConfig {Export} _ _ _ _ _.
End Part000.

(* ------------------------------------------------------------------ *)
(** ** Worlds for the scenarios *)

(** a disk on which exactly the listed paths exist, seen from [workingDir] *)
Definition diskOf (paths : list string) (workingDir : string) : World :=
  {| existsSync := fun path => existsb (String.eqb path) paths;
     cwd := workingDir |}.

(** loaders for the scenarios: an export is named after the file it comes
    from and the export's name *)
Definition loadNamed (files : list Part000.FileToTranspile)
    (projectDir outDir : string) : result (list string) :=
  Ok (map (fun file => Part000.filePath file ++ "#"
                       ++ Part000.exportName file) files).

Definition loadDefaultNamed (projectDir path : string) : result string :=
  Ok (join projectDir path ++ "#default").

(* ------------------------------------------------------------------ *)
(** ** Vocabulary of the statements *)

(** what the user wrote for a field of [output], [None] without [output] *)
Definition outputInput (field : InputOutputFilesConfig.t -> option string)
    (input : option InputOutputFilesConfig.t) : option string :=
  match input with
  | Some given => field given
  | None => None
  end.

(** the overrides [prisma] works with once the integration is enabled:
    the user's object, or [{}] for [true] and for an auto-detected one *)
Definition yogaDefaultsOverrides {Schema : Type}
    (input : option (YogaDefaults.InputPrismaConfig Schema))
    : YogaDefaults.InputPrisma.t Schema :=
  match input with
  | Some (YogaDefaults.PrismaObject overrides) => overrides
  | Some YogaDefaults.PrismaTrue | None => YogaDefaults.InputPrisma.empty Schema
  end.

Definition part000Overrides {Export : Type}
    (input : option (Part000.InputPrismaConfig Export))
    : Part000.InputPrisma.t Export :=
  match input with
  | Some (Part000.PrismaObject overrides) => overrides
  | Some Part000.PrismaTrue | None => Part000.InputPrisma.empty Export
  end.

(** the steps of yogaDefaults.ts's [prisma] that follow the short-circuit,
    as a function of the overrides (the lines from [prismaClientPath] to the
    returned object) *)
Definition yogaDefaultsEnabled {Schema : Type}
    (transpileAndImportDefault : string -> string -> result Schema)
    (w : World) (projectDir : string)
    (overrides : YogaDefaults.InputPrisma.t Schema)
    : result (option (YogaDefaults.Prisma.t Schema)) :=
  let prismaClientPath :=
    inputOrDefaultPath projectDir
      (YogaDefaults.InputPrisma.prismaClientPath overrides)
      DEFAULTS.prisma_prismaClientPath in
  let* nexusPrismaSchemaInput :=
    match YogaDefaults.InputPrisma.nexusPrismaSchema overrides with
    | Some schema => Ok (inr schema)
    | None =>
        let* path :=
          requiredPath w YogaDefaults.DEFAULT_NEXUS_PRISMA_SCHEMA_PATH
                       YogaDefaults.nexusPrismaSchemaMessage in
        Ok (inl path)
    end in
  let* nexusPrismaSchema :=
    match nexusPrismaSchemaInput with
    | inl path => transpileAndImportDefault projectDir path
    | inr schema => Ok schema
    end in
  let contextClientName :=
    inputOrDefaultValue (YogaDefaults.InputPrisma.contextClientName overrides)
                        DEFAULTS.prisma_contextClientName in
  let* checkedClientPath :=
    requiredPath w prismaClientPath
                 (YogaDefaults.prismaClientPathMessage prismaClientPath) in
  Ok (Some {| YogaDefaults.Prisma.prismaClientPath := checkedClientPath;
              YogaDefaults.Prisma.nexusPrismaSchema := nexusPrismaSchema;
              YogaDefaults.Prisma.contextClientName := contextClientName |}).

(** [path] is absolute and is the project root joined with the user's
    non-empty value or with the default *)
Definition joinedFromRoot (projectDir : string) (input : option string)
    (defaultValue : string) (path : string) : Prop :=
  isAbsolute path = true
  /\ ((exists s, input = Some s /\ s <> "" /\ path = join projectDir s)
      \/ path = join projectDir defaultValue).

(** segments as [normalize] leaves them in an absolute path: no ["/"]
    inside, and none of [""], ["."], [".."] *)
Fixpoint noSlash (s : string) : bool :=
  match s with
  | EmptyString => true
  | String c rest => negb (Ascii.eqb c slash) && noSlash rest
  end.

Definition normalSegment (s : string) : bool :=
  noSlash s && negb (String.eqb s "") && negb (String.eqb s ".")
  && negb (String.eqb s "..").

(** an absolute normalized path, from its segments *)
Definition renderAbsolute (segs : list string) (trailing : bool) : string :=
  match segs with
  | [] => "/"
  | _ => "/" ++ joinWith "/" segs ++ (if trailing then "/" else "")
  end.

(** *** The raw form of a resolved configuration

    The source has no function that goes back from a [Config] to an
    [InputConfig]; the following definitions follow the words of the
    specification's idempotence property: each resolved absolute path,
    minus the project root, becomes the raw value of its field, and the
    other fields are carried over where the input has a field for them. *)

Fixpoint stripPrefix (prefix s : string) : option string :=
  match prefix with
  | EmptyString => Some s
  | String c prefix' =>
      match s with
      | String d s' => if Ascii.eqb c d then stripPrefix prefix' s' else None
      | EmptyString => None
      end
  end.

(** [path] minus the project root; a path that does not start with the
    project root has nothing taken off *)
Definition minusRoot (projectDir path : string) : string :=
  match stripPrefix projectDir path with
  | Some rest => rest
  | None => path
  end.

(** [path] is the project root followed by a non-empty remainder that
    starts at a ["/"] *)
Definition belowRoot (projectDir path : string) : bool :=
  match stripPrefix projectDir path with
  | Some rest => nonEmpty rest && (isAbsolute rest || endsWithSlash projectDir)
  | None => false
  end.

Definition optionBelowRoot (projectDir : string) (path : option string)
    : bool :=
  match path with
  | Some p => belowRoot projectDir p
  | None => true
  end.

(** the paths of a resolved configuration that come from a join with the
    project root are all below it *)
Definition pathsBelowRoot {P : Type} (projectDir : string) (c : Config.t P)
    : bool :=
  optionBelowRoot projectDir (Config.contextPath c)
  && belowRoot projectDir (Config.resolversPath c)
  && optionBelowRoot projectDir (Config.ejectFilePath c)
  && belowRoot projectDir (OutputFilesConfig.typegenPath (Config.output c))
  && belowRoot projectDir (OutputFilesConfig.schemaPath (Config.output c)).

Definition rawOutput (projectDir : string) (out : OutputFilesConfig.t)
    : InputOutputFilesConfig.t :=
  {| InputOutputFilesConfig.typegenPath :=
       Some (minusRoot projectDir (OutputFilesConfig.typegenPath out));
     InputOutputFilesConfig.schemaPath :=
       Some (minusRoot projectDir (OutputFilesConfig.schemaPath out));
     InputOutputFilesConfig.buildPath :=
       Some (minusRoot projectDir (OutputFilesConfig.buildPath out)) |}.

(** unnamed/part_000: the resolved [prisma] has the client, which the input
    can carry, and the loaded datamodel info, for which the input only has
    a path *)
Definition part000RawForm {Export : Type} (projectDir : string)
    (c : Config.t (Part000.Prisma.t Export))
    : InputConfig.t (Part000.InputPrismaConfig Export) :=
  {| InputConfig.contextPath :=
       option_map (minusRoot projectDir) (Config.contextPath c);
     InputConfig.resolversPath :=
       Some (minusRoot projectDir (Config.resolversPath c));
     InputConfig.ejectFilePath :=
       option_map (minusRoot projectDir) (Config.ejectFilePath c);
     InputConfig.output := Some (rawOutput projectDir (Config.output c));
     InputConfig.prisma :=
       option_map
         (fun pr => Part000.PrismaObject
                      {| Part000.InputPrisma.datamodelInfoPath := None;
                         Part000.InputPrisma.client :=
                           Part000.Prisma.client pr |})
         (Config.prisma c) |}.

Definition yogaDefaultsRawForm {Schema : Type} (projectDir : string)
    (c : Config.t (YogaDefaults.Prisma.t Schema))
    : InputConfig.t (YogaDefaults.InputPrismaConfig Schema) :=
  {| InputConfig.contextPath :=
       option_map (minusRoot projectDir) (Config.contextPath c);
     InputConfig.resolversPath :=
       Some (minusRoot projectDir (Config.resolversPath c));
     InputConfig.ejectFilePath :=
       option_map (minusRoot projectDir) (Config.ejectFilePath c);
     InputConfig.output := Some (rawOutput projectDir (Config.output c));
     InputConfig.prisma :=
       option_map
         (fun pr => YogaDefaults.PrismaObject
                      {| YogaDefaults.InputPrisma.prismaClientPath :=
                           Some (minusRoot projectDir
                                   (YogaDefaults.Prisma.prismaClientPath pr));
                         YogaDefaults.InputPrisma.nexusPrismaSchema :=
                           Some (YogaDefaults.Prisma.nexusPrismaSchema pr);
                         YogaDefaults.InputPrisma.contextClientName :=
                           Some (YogaDefaults.Prisma.contextClientName pr) |})
         (Config.prisma c) |}.

(* ------------------------------------------------------------------ *)
(** ** packages/yoga/src/config.ts

    [findPrismaConfigFile] is above.  The TypeScript compiler's
    [ts.findConfigFile] and [ts.parseJsonConfigFileContent], Node's
    [path.dirname] and [importFile] of ./helpers are parameters.
    [normalizeConfig] is that of unnamed/part_000, the revision that
    exports [DEFAULT_META_SCHEMA_PATH].  It is an async function and
    [importYogaConfig] does not await it: the call never throws, and what
    [importYogaConfig] holds and returns as [yogaConfig] is the promise,
    embedded as what it settles to. *)

Module ConfigTs.

(** [prismaConfig] is an [InputPrismaConfig] of the revision with
    [datamodelInfoPath] *)
Definition getDatamodelInfoPath {Export : Type}
    (prismaConfig : option (Part000.InputPrismaConfig Export)) : string :=
  match prismaConfig with
  | None => Part000.DEFAULT_META_SCHEMA_PATH
  | Some Part000.PrismaTrue => Part000.DEFAULT_META_SCHEMA_PATH
  | Some (Part000.PrismaObject overrides) =>
      match Part000.InputPrisma.datamodelInfoPath overrides with
      | Some path =>
          if negb (nonEmpty path) then Part000.DEFAULT_META_SCHEMA_PATH
          else path
      | None => Part000.DEFAULT_META_SCHEMA_PATH
      end
  end.

(** what [importYogaConfig] returns; [tsConfig] is the parsed command
    line, [yogaConfig] what [normalizeConfig] returned *)
Module Imported.
Record t (ParsedCommandLine Input Resolved : Type) : Type := {
  yogaConfigPath : option string;
  yogaConfig : Resolved;
  inputConfig : Input;
  projectDir : string;
  tsConfigPath : string;
  tsConfig : ParsedCommandLine;
  datamodelInfoPath : option string;
  rootDir : option string
}.
Arguments yogaConfigPath {ParsedCommandLine Input Resolved} _.
Arguments yogaConfig {ParsedCommandLine Input Resolved} _.
Arguments inputConfig {ParsedCommandLine Input Resolved} _.
Arguments projectDir {ParsedCommandLine Input Resolved} _.
Arguments tsConfigPath {ParsedCommandLine Input Resolved} _.
Arguments tsConfig {ParsedCommandLine Input Resolved} _.
Arguments datamodelInfoPath {ParsedCommandLine Input Resolved} _.
Arguments rootDir {ParsedCommandLine Input Resolved} _.
End Imported.

Definition tsConfigNotFound : string :=
  "Could not find a valid 'tsconfig.json'.".

Definition rootDirOutDirRequired : string :=
  "You must define a `rootDir` and `outDir` property in your 'tsconfig.json' file".

(** a promise, as the result it settles to: fulfilled with a value or
    rejected with an error *)
Definition Promise (A : Type) : Type := result A.

(** [promise.prisma]: a Promise object has no such property *)
Definition promisePrisma {A : Type} (promise : Promise A) : option unit := None.

Section Importer.
Variable Export : Type.
Variable ParsedCommandLine : Type.
(** [tsConfig.options.rootDir] and [tsConfig.options.outDir] *)
Variable optionsRootDir : ParsedCommandLine -> option string.
Variable optionsOutDir : ParsedCommandLine -> option string.
(** [ts.findConfigFile(searchPath, ts.sys.fileExists, configName)] *)
Variable findConfigFile : string -> string -> option string.
(** [ts.parseJsonConfigFileContent(require(tsConfigPath), ts.sys,
    projectDir)]; the [require] may throw *)
Variable parseJsonConfigFileContent :
  string -> string -> result ParsedCommandLine.
Variable dirname : string -> string.
(** [importFile<InputConfig>(path, exportName)] *)
Variable importFile :
  string -> string -> result (InputConfig.t (Part000.InputPrismaConfig Export)).
(** [transpileAndImport] of ./helpers, which [normalizeConfig] calls *)
Variable transpileAndImport :
  list Part000.FileToTranspile -> string -> string -> result (list Export).
Variable w : World.

Definition findTsConfigPath : result string :=
  let tsConfigPath := findConfigFile (cwd w) "tsconfig.json" in
  match tsConfigPath with
  | Some found => if nonEmpty found then Ok found else Throw tsConfigNotFound
  | None => Throw tsConfigNotFound
  end.

Definition parseTsConfig (tsConfigPath : string) : result ParsedCommandLine :=
  let projectDir := dirname tsConfigPath in
  let* tsConfig := parseJsonConfigFileContent tsConfigPath projectDir in
  if negb (truthy (optionsRootDir tsConfig))
     || negb (truthy (optionsOutDir tsConfig))
  then Throw rootDirOutDirRequired
  else Ok tsConfig.

Definition importYogaConfig
    : result (Imported.t ParsedCommandLine
                (InputConfig.t (Part000.InputPrismaConfig Export))
                (Promise (Config.t (Part000.Prisma.t Export)))) :=
  let* tsConfigPath := findTsConfigPath in
  let* tsConfig := parseTsConfig tsConfigPath in
  let projectDir := dirname tsConfigPath in
  let rootDir := optionsRootDir tsConfig in
  let yogaConfigPath := findConfigFile (cwd w) "yoga.config.ts" in
  (* If no config file, just use all defaults *)
  let withoutConfigFile :=
    let yogaConfig : Promise (Config.t (Part000.Prisma.t Export)) :=
      Part000.normalizeConfig transpileAndImport w (InputConfig.empty _)
                              projectDir (optionsOutDir tsConfig) in
    Ok {| Imported.yogaConfigPath := None;
          Imported.yogaConfig := yogaConfig;
          Imported.inputConfig := InputConfig.empty _;
          Imported.projectDir := projectDir;
          Imported.tsConfigPath := tsConfigPath;
          Imported.tsConfig := tsConfig;
          Imported.datamodelInfoPath :=
            match promisePrisma yogaConfig with
            | Some _ => Some Part000.DEFAULT_META_SCHEMA_PATH
            | None => None
            end;
          Imported.rootDir := rootDir |} in
  let withConfigFile (found : string) :=
    let* inputConfig := importFile found "default" in
    let yogaConfig : Promise (Config.t (Part000.Prisma.t Export)) :=
      Part000.normalizeConfig transpileAndImport w inputConfig projectDir
                              (optionsOutDir tsConfig) in
    Ok {| Imported.yogaConfigPath := Some found;
          Imported.yogaConfig := yogaConfig;
          Imported.inputConfig := inputConfig;
          Imported.projectDir := projectDir;
          Imported.tsConfigPath := tsConfigPath;
          Imported.tsConfig := tsConfig;
          Imported.datamodelInfoPath :=
            Some (getDatamodelInfoPath (InputConfig.prisma inputConfig));
          Imported.rootDir := rootDir |} in
  match yogaConfigPath with
  | Some found =>
      if negb (nonEmpty found) then withoutConfigFile
      else withConfigFile found
  | None => withoutConfigFile
  end.
End Importer.

Arguments findTsConfigPath _ _ : clear implicits.
Arguments parseTsConfig {ParsedCommandLine} _ _ _ _ _.
Arguments importYogaConfig {Export ParsedCommandLine} _ _ _ _ _ _ _ _.
End ConfigTs.

(** a parsed [tsconfig.json] for the scenarios, and a project at [/proj]
    whose [tsconfig.json] is found from any working directory *)
Record TsOptions : Type := {
  tsRootDir : option string;
  tsOutDir : option string
}.

Definition findInProj (names : list string) (searchPath configName : string)
    : option string :=
  if existsb (String.eqb configName) names
  then Some ("/proj/" ++ configName) else None.

Definition dirnameInProj (path : string) : string := "/proj".




(** the loader returns for the datamodel info alone, as its first value,
    what it returns for it as second value when the client is loaded in the
    same call; a loader that loads file by file does *)
Definition loadsDatamodelInfoAlike {Export : Type}
    (loader : list Part000.FileToTranspile -> string -> string
              -> result (list Export))
    (projectDir buildPath datamodelInfoPath : string) : Prop :=
  forall values,
    loader [{| Part000.filePath := Part000.DEFAULT_PRISMA_CLIENT_PATH;
               Part000.exportName := "prisma" |};
            {| Part000.filePath := datamodelInfoPath;
               Part000.exportName := "default" |}]
           projectDir buildPath = Ok values ->
    exists imported,
      loader [{| Part000.filePath := datamodelInfoPath;
                 Part000.exportName := "default" |}]
             projectDir buildPath = Ok imported
      /\ nth_error imported 0 = nth_error values 1.

(** a loader that loads file by file, each file by [load] *)
Fixpoint loadEach {Export : Type}
    (load : Part000.FileToTranspile -> string -> string -> result Export)
    (files : list Part000.FileToTranspile) (projectDir outDir : string)
    : result (list Export) :=
  match files with
  | [] => Ok []
  | file :: rest =>
      let* value := load file projectDir outDir in
      let* values := loadEach load rest projectDir outDir in
      Ok (value :: values)
  end.

(** a loader for the scenarios whose exports depend on what else is loaded
    in the same call: each is named after its file and marked when it is
    loaded alone *)
Definition loadMarkingSingles (files : list Part000.FileToTranspile)
    (projectDir outDir : string) : result (list string) :=
  Ok (map (fun file =>
             Part000.filePath file
             ++ (match files with [_] => "#alone" | _ => "#together" end))
          files).

(* ================================================================== *)
(** * Properties *)

(** ** Results *)

Lemma bind_Ok_inv {A B : Type} (r : result A) (k : A -> result B) (b : B) :
  bind r k = Ok b -> exists a, r = Ok a /\ k a = Ok b.
Proof.
  destruct r as [a | m]; simpl; intros H.
  - exists a; split; [reflexivity | exact H].
  - discriminate H.
Qed.


(** ** Truthiness of an optional string *)

Lemma nonEmpty_true_iff (s : string) : nonEmpty s = true <-> s <> "".
Proof.
  unfold nonEmpty; destruct (String.eqb_spec s ""); simpl; split;
    intros H; try congruence; try discriminate.
Qed.

Lemma truthy_true_iff (input : option string) :
  truthy input = true <-> exists s, input = Some s /\ s <> "".
Proof.
  destruct input as [s |]; simpl.
  - rewrite nonEmpty_true_iff; split.
    + intros H; exists s; auto.
    + intros [s' [E H]]; congruence.
  - split; [discriminate | intros [s [E _]]; discriminate E].
Qed.

Lemma truthy_false_iff (input : option string) :
  truthy input = false <-> input = None \/ input = Some "".
Proof.
  destruct input as [s |]; simpl.
  - unfold nonEmpty; destruct (String.eqb_spec s ""); simpl; split; intros H;
      try discriminate; try reflexivity.
    + right; congruence.
    + destruct H as [H | H]; congruence.
  - split; auto.
Qed.

Lemma inputOrDefaultValue_truthy (input : option string) (d s : string) :
  input = Some s -> s <> "" -> inputOrDefaultValue input d = s.
Proof.
  intros -> H; simpl. apply nonEmpty_true_iff in H. rewrite H; reflexivity.
Qed.

Lemma inputOrDefaultValue_falsy (input : option string) (d : string) :
  input = None \/ input = Some "" -> inputOrDefaultValue input d = d.
Proof. intros [-> | ->]; reflexivity. Qed.

Lemma inputOrDefaultValue_cases (input : option string) (d : string) :
  (exists s, input = Some s /\ s <> "" /\ inputOrDefaultValue input d = s)
  \/ ((input = None \/ input = Some "") /\ inputOrDefaultValue input d = d).
Proof.
  destruct (truthy input) eqn:T.
  - apply truthy_true_iff in T; destruct T as [s [E H]]; left; exists s.
    repeat split; auto using inputOrDefaultValue_truthy.
  - apply truthy_false_iff in T; right; split;
      auto using inputOrDefaultValue_falsy.
Qed.

(** ** The two existence policies *)

Lemma requiredPath_missing (w : World) (path msg : string) :
  existsSync w path = false -> requiredPath w path msg = Throw msg.
Proof. unfold requiredPath; intros ->; reflexivity. Qed.

Lemma requiredPath_present (w : World) (path msg : string) :
  existsSync w path = true -> requiredPath w path msg = Ok path.
Proof. unfold requiredPath; intros ->; reflexivity. Qed.

Lemma requiredPath_Ok_inv (w : World) (path msg p : string) :
  requiredPath w path msg = Ok p -> p = path /\ existsSync w path = true.
Proof.
  unfold requiredPath; destruct (existsSync w path); simpl; intros H;
    [injection H as <-; auto | discriminate H].
Qed.

Lemma optional_present (w : World) (path : string) (input : option string)
    (msg : string) :
  existsSync w path = true -> optional w path input msg = Ok (Some path).
Proof. unfold optional; intros ->; reflexivity. Qed.

Lemma optional_missing_supplied (w : World) (path : string)
    (input : option string) (msg : string) :
  existsSync w path = false -> truthy input = true ->
  optional w path input msg = Throw msg.
Proof. unfold optional; intros -> ->; reflexivity. Qed.

Lemma optional_missing_default (w : World) (path : string)
    (input : option string) (msg : string) :
  existsSync w path = false -> truthy input = false ->
  optional w path input msg = Ok None.
Proof. unfold optional; intros -> ->; reflexivity. Qed.

Lemma optional_Ok_inv (w : World) (path : string) (input : option string)
    (msg : string) (r : option string) :
  optional w path input msg = Ok r ->
  (r = Some path /\ existsSync w path = true)
  \/ (r = None /\ existsSync w path = false /\ truthy input = false).
Proof.
  unfold optional; destruct (existsSync w path); simpl.
  - intros H; injection H as <-; auto.
  - destruct (truthy input); intros H; [discriminate H |].
    injection H as <-; auto.
Qed.

(** ** What a successful [normalizeConfig] went through, field by field *)

Lemma YogaDefaults_normalizeConfig_Ok_inv {Schema : Type}
    (loader : string -> string -> result Schema) (w : World)
    (config : InputConfig.t (YogaDefaults.InputPrismaConfig Schema))
    (projectDir : string) (outDir : option string)
    (c : Config.t (YogaDefaults.Prisma.t Schema)) :
  YogaDefaults.normalizeConfig loader w config projectDir outDir = Ok c ->
  contextPath w projectDir (InputConfig.contextPath config)
    = Ok (Config.contextPath c)
  /\ resolversPath w projectDir (InputConfig.resolversPath config)
    = Ok (Config.resolversPath c)
  /\ ejectFilePath w projectDir (InputConfig.ejectFilePath config)
    = Ok (Config.ejectFilePath c)
  /\ output projectDir (InputConfig.output config) outDir = Config.output c
  /\ YogaDefaults.prisma loader w projectDir (InputConfig.prisma config)
    = Ok (Config.prisma c).
Proof.
  unfold YogaDefaults.normalizeConfig; intros H.
  apply bind_Ok_inv in H; destruct H as [cp [Hcp H]].
  apply bind_Ok_inv in H; destruct H as [rp [Hrp H]].
  apply bind_Ok_inv in H; destruct H as [ep [Hep H]].
  apply bind_Ok_inv in H; destruct H as [pr [Hpr H]].
  injection H as <-; simpl; auto.
Qed.

Lemma Part000_normalizeConfig_Ok_inv {Export : Type}
    (loader : list Part000.FileToTranspile -> string -> string
              -> result (list Export)) (w : World)
    (config : InputConfig.t (Part000.InputPrismaConfig Export))
    (projectDir : string) (outDir : option string)
    (c : Config.t (Part000.Prisma.t Export)) :
  Part000.normalizeConfig loader w config projectDir outDir = Ok c ->
  contextPath w projectDir (InputConfig.contextPath config)
    = Ok (Config.contextPath c)
  /\ resolversPath w projectDir (InputConfig.resolversPath config)
    = Ok (Config.resolversPath c)
  /\ ejectFilePath w projectDir (InputConfig.ejectFilePath config)
    = Ok (Config.ejectFilePath c)
  /\ output projectDir (InputConfig.output config) outDir = Config.output c
  /\ Part000.prisma loader w projectDir (InputConfig.prisma config)
       (OutputFilesConfig.buildPath
          (output projectDir (InputConfig.output config) outDir))
    = Ok (Config.prisma c).
Proof.
  unfold Part000.normalizeConfig; intros H.
  apply bind_Ok_inv in H; destruct H as [cp [Hcp H]].
  apply bind_Ok_inv in H; destruct H as [rp [Hrp H]].
  apply bind_Ok_inv in H; destruct H as [ep [Hep H]].
  apply bind_Ok_inv in H; destruct H as [pr [Hpr H]].
  injection H as <-; simpl; auto.
Qed.

(** ** Defaulting *)

(** C9: [inputOrDefaultValue] returns the user's input when that is a
    non-empty string, and the default value otherwise: when the input is
    [undefined], and also when it is the empty string, which is treated as
    absent. *)
Theorem inputOrDefaultValue_input_or_default
    (input : option string) (defaultValue : string) :
  (forall s, input = Some s -> s <> "" ->
     inputOrDefaultValue input defaultValue = s)
  /\ (input = None \/ input = Some "" ->
     inputOrDefaultValue input defaultValue = defaultValue).
Proof.
  split.
  - intros s E H; exact (inputOrDefaultValue_truthy input defaultValue s E H).
  - exact (inputOrDefaultValue_falsy input defaultValue).
Qed.

Lemma inputOrDefaultValue_input_or_default_witness :
  inputOrDefaultValue (Some "./lib/context.ts") DEFAULTS.contextPath
    = "./lib/context.ts"
  /\ inputOrDefaultValue (Some "") DEFAULTS.contextPath = "./src/context.ts"
  /\ inputOrDefaultValue None DEFAULTS.contextPath = "./src/context.ts".
Proof.
  split; [| split].
  - apply (proj1 (inputOrDefaultValue_input_or_default
                    (Some "./lib/context.ts") DEFAULTS.contextPath)
                 "./lib/context.ts"); [reflexivity | discriminate].
  - apply (proj2 (inputOrDefaultValue_input_or_default
                    (Some "") DEFAULTS.contextPath)); right; reflexivity.
  - apply (proj2 (inputOrDefaultValue_input_or_default
                    None DEFAULTS.contextPath)); left; reflexivity.
Defined.

(** ** Optional fields *)

Section OptionalField.
Variable defaultValue : string.
Variable message : string -> string.

(** the shape shared by [contextPath] and [ejectFilePath]: the path is
    [inputOrDefaultPath] of the input, checked by [optional] *)

Lemma optional_field_present w projectDir input :
  existsSync w (join projectDir (inputOrDefaultValue input defaultValue))
    = true ->
  optional w (inputOrDefaultPath projectDir input defaultValue) input
           (message (inputOrDefaultPath projectDir input defaultValue))
  = Ok (Some (join projectDir (inputOrDefaultValue input defaultValue))).
Proof. intros H; apply optional_present; exact H. Qed.

Lemma optional_field_missing_supplied w projectDir input s :
  input = Some s -> s <> "" ->
  existsSync w (join projectDir s) = false ->
  optional w (inputOrDefaultPath projectDir input defaultValue) input
           (message (inputOrDefaultPath projectDir input defaultValue))
  = Throw (message (join projectDir s)).
Proof.
  intros E H X; unfold inputOrDefaultPath.
  rewrite (inputOrDefaultValue_truthy input defaultValue s E H).
  apply optional_missing_supplied; [exact X |].
  apply truthy_true_iff; exists s; auto.
Qed.

Lemma optional_field_missing_default w projectDir input :
  input = None \/ input = Some "" ->
  existsSync w (join projectDir defaultValue) = false ->
  optional w (inputOrDefaultPath projectDir input defaultValue) input
           (message (inputOrDefaultPath projectDir input defaultValue))
  = Ok None.
Proof.
  intros E X; unfold inputOrDefaultPath.
  rewrite (inputOrDefaultValue_falsy input defaultValue E).
  apply optional_missing_default; [exact X |].
  apply truthy_false_iff; exact E.
Qed.
End OptionalField.

(** C3: for both optional fields, [contextPath] and [ejectFilePath]: when
    the resolved path exists it is returned; when it does not exist and the
    value is the user's (a non-empty input), the field resolver throws the
    field's message and resolution as a whole fails; when it does not exist
    and the value is the default (no input, or the empty one), the field
    resolver succeeds with the field absent. *)
Theorem optional_fields_policy (w : World) (projectDir : string)
    (input : option string) :
  (* the path exists *)
  (existsSync w (join projectDir (inputOrDefaultValue input DEFAULTS.contextPath))
     = true ->
   contextPath w projectDir input
     = Ok (Some (join projectDir
                      (inputOrDefaultValue input DEFAULTS.contextPath))))
  /\ (existsSync w (join projectDir
                         (inputOrDefaultValue input DEFAULTS.ejectFilePath))
        = true ->
      ejectFilePath w projectDir input
        = Ok (Some (join projectDir
                         (inputOrDefaultValue input DEFAULTS.ejectFilePath))))
  (* it does not exist and the user supplied it *)
  /\ (forall s, input = Some s -> s <> "" ->
      existsSync w (join projectDir s) = false ->
      contextPath w projectDir input
        = Throw (contextPathMessage (join projectDir s))
      /\ ejectFilePath w projectDir input
        = Throw (ejectFilePathMessage (join projectDir s))
      /\ (forall Schema loader rp ep out pr outDir,
            @YogaDefaults.normalizeConfig Schema loader w
              {| InputConfig.contextPath := input;
                 InputConfig.resolversPath := rp;
                 InputConfig.ejectFilePath := ep;
                 InputConfig.output := out;
                 InputConfig.prisma := pr |} projectDir outDir
            = Throw (contextPathMessage (join projectDir s)))
      /\ (forall Export loader rp ep out pr outDir,
            @Part000.normalizeConfig Export loader w
              {| InputConfig.contextPath := input;
                 InputConfig.resolversPath := rp;
                 InputConfig.ejectFilePath := ep;
                 InputConfig.output := out;
                 InputConfig.prisma := pr |} projectDir outDir
            = Throw (contextPathMessage (join projectDir s)))
      /\ (forall Schema loader cp rp out pr outDir,
            succeeded (@YogaDefaults.normalizeConfig Schema loader w
              {| InputConfig.contextPath := cp;
                 InputConfig.resolversPath := rp;
                 InputConfig.ejectFilePath := input;
                 InputConfig.output := out;
                 InputConfig.prisma := pr |} projectDir outDir) = false)
      /\ (forall Export loader cp rp out pr outDir,
            succeeded (@Part000.normalizeConfig Export loader w
              {| InputConfig.contextPath := cp;
                 InputConfig.resolversPath := rp;
                 InputConfig.ejectFilePath := input;
                 InputConfig.output := out;
                 InputConfig.prisma := pr |} projectDir outDir) = false))
  (* it does not exist and the value is the default *)
  /\ (input = None \/ input = Some "" ->
      (existsSync w (join projectDir DEFAULTS.contextPath) = false ->
       contextPath w projectDir input = Ok None)
      /\ (existsSync w (join projectDir DEFAULTS.ejectFilePath) = false ->
          ejectFilePath w projectDir input = Ok None)).
Proof.
  split; [| split; [| split]].
  - apply (optional_field_present DEFAULTS.contextPath contextPathMessage).
  - apply (optional_field_present DEFAULTS.ejectFilePath ejectFilePathMessage).
  - intros s E H X.
    assert (C : contextPath w projectDir input
                = Throw (contextPathMessage (join projectDir s)))
      by exact (optional_field_missing_supplied
                  DEFAULTS.contextPath contextPathMessage w projectDir input s
                  E H X).
    assert (J : ejectFilePath w projectDir input
                = Throw (ejectFilePathMessage (join projectDir s)))
      by exact (optional_field_missing_supplied
                  DEFAULTS.ejectFilePath ejectFilePathMessage w projectDir
                  input s E H X).
    repeat split; auto.
    + intros; unfold YogaDefaults.normalizeConfig; simpl InputConfig.contextPath.
      rewrite C; reflexivity.
    + intros; unfold Part000.normalizeConfig; simpl InputConfig.contextPath.
      rewrite C; reflexivity.
    + intros; unfold YogaDefaults.normalizeConfig; cbn [InputConfig.contextPath
        InputConfig.resolversPath InputConfig.ejectFilePath].
      rewrite J.
      destruct (contextPath w projectDir cp); [| reflexivity].
      destruct (resolversPath w projectDir rp); reflexivity.
    + intros; unfold Part000.normalizeConfig; cbn [InputConfig.contextPath
        InputConfig.resolversPath InputConfig.ejectFilePath].
      rewrite J.
      destruct (contextPath w projectDir cp); [| reflexivity].
      destruct (resolversPath w projectDir rp); reflexivity.
  - intros E; split; intros X.
    + exact (optional_field_missing_default
               DEFAULTS.contextPath contextPathMessage w projectDir input E X).
    + exact (optional_field_missing_default
               DEFAULTS.ejectFilePath ejectFilePathMessage w projectDir input
               E X).
Qed.

Lemma optional_fields_policy_witness :
  contextPath (diskOf [] "/proj") "/proj" (Some "./nope.ts")
    = Throw "Could not find a valid `contextPath` at /proj/nope.ts"
  /\ contextPath (diskOf [] "/proj") "/proj" None = Ok None
  /\ contextPath (diskOf ["/proj/src/context.ts"] "/proj") "/proj" None
    = Ok (Some "/proj/src/context.ts").
Proof.
  split; [| split].
  - apply (proj1 (proj2 (proj2 (optional_fields_policy
                                  (diskOf [] "/proj") "/proj"
                                  (Some "./nope.ts")))) "./nope.ts");
      [reflexivity | discriminate | reflexivity].
  - apply (proj2 (proj2 (proj2 (optional_fields_policy
                                  (diskOf [] "/proj") "/proj" None))));
      [left; reflexivity | reflexivity].
  - apply (proj1 (optional_fields_policy
                    (diskOf ["/proj/src/context.ts"] "/proj") "/proj" None));
      reflexivity.
Defined.

Lemma contextPath_empty_input (w : World) (projectDir : string) :
  contextPath w projectDir (Some "") = contextPath w projectDir None.
Proof. reflexivity. Qed.

Lemma ejectFilePath_empty_input (w : World) (projectDir : string) :
  ejectFilePath w projectDir (Some "") = ejectFilePath w projectDir None.
Proof. reflexivity. Qed.

(** C10: the empty string given for an optional field is treated exactly as
    an absent field: the field resolvers, and with them both revisions of
    [normalizeConfig], return the same result for [''] as for [undefined];
    the default path is the one checked, and when it does not exist the
    field is absent and nothing is thrown. *)
Theorem optional_field_empty_string_is_absent (w : World)
    (projectDir : string) :
  contextPath w projectDir (Some "") = contextPath w projectDir None
  /\ ejectFilePath w projectDir (Some "") = ejectFilePath w projectDir None
  /\ (existsSync w (join projectDir DEFAULTS.contextPath) = false ->
      contextPath w projectDir (Some "") = Ok None)
  /\ (existsSync w (join projectDir DEFAULTS.contextPath) = true ->
      contextPath w projectDir (Some "")
        = Ok (Some (join projectDir DEFAULTS.contextPath)))
  /\ (existsSync w (join projectDir DEFAULTS.ejectFilePath) = false ->
      ejectFilePath w projectDir (Some "") = Ok None)
  /\ (existsSync w (join projectDir DEFAULTS.ejectFilePath) = true ->
      ejectFilePath w projectDir (Some "")
        = Ok (Some (join projectDir DEFAULTS.ejectFilePath)))
  /\ (forall Schema loader rp out pr outDir,
        @YogaDefaults.normalizeConfig Schema loader w
          {| InputConfig.contextPath := Some "";
             InputConfig.resolversPath := rp;
             InputConfig.ejectFilePath := Some "";
             InputConfig.output := out;
             InputConfig.prisma := pr |} projectDir outDir
        = YogaDefaults.normalizeConfig loader w
          {| InputConfig.contextPath := None;
             InputConfig.resolversPath := rp;
             InputConfig.ejectFilePath := None;
             InputConfig.output := out;
             InputConfig.prisma := pr |} projectDir outDir)
  /\ (forall Export loader rp out pr outDir,
        @Part000.normalizeConfig Export loader w
          {| InputConfig.contextPath := Some "";
             InputConfig.resolversPath := rp;
             InputConfig.ejectFilePath := Some "";
             InputConfig.output := out;
             InputConfig.prisma := pr |} projectDir outDir
        = Part000.normalizeConfig loader w
          {| InputConfig.contextPath := None;
             InputConfig.resolversPath := rp;
             InputConfig.ejectFilePath := None;
             InputConfig.output := out;
             InputConfig.prisma := pr |} projectDir outDir).
Proof.
  repeat split.
  - intros X; rewrite contextPath_empty_input.
    apply (optional_field_missing_default DEFAULTS.contextPath
             contextPathMessage); auto.
  - intros X; rewrite contextPath_empty_input.
    apply (optional_field_present DEFAULTS.contextPath contextPathMessage
             w projectDir None); exact X.
  - intros X; rewrite ejectFilePath_empty_input.
    apply (optional_field_missing_default DEFAULTS.ejectFilePath
             ejectFilePathMessage); auto.
  - intros X; rewrite ejectFilePath_empty_input.
    apply (optional_field_present DEFAULTS.ejectFilePath ejectFilePathMessage
             w projectDir None); exact X.
Qed.

Lemma optional_field_empty_string_is_absent_witness :
  contextPath (diskOf ["/proj/src/graphql/"] "/proj") "/proj" (Some "")
    = Ok None
  /\ ejectFilePath (diskOf ["/proj/src/index.ts"] "/proj") "/proj" (Some "")
    = Ok (Some "/proj/src/index.ts").
Proof.
  split.
  - apply (proj1 (proj2 (proj2 (optional_field_empty_string_is_absent
                                  (diskOf ["/proj/src/graphql/"] "/proj")
                                  "/proj"))));
      reflexivity.
  - apply (proj1 (proj2 (proj2 (proj2 (proj2 (proj2
             (optional_field_empty_string_is_absent
                (diskOf ["/proj/src/index.ts"] "/proj") "/proj")))))));
      reflexivity.
Defined.

(** ** Required fields *)

Lemma contextPath_default_never_throws (w : World) (projectDir : string) :
  exists r, contextPath w projectDir None = Ok r.
Proof.
  unfold contextPath, optional.
  destruct (existsSync w _); simpl; eauto.
Qed.

Lemma resolversPath_missing (w : World) (projectDir : string)
    (input : option string) :
  existsSync w (join projectDir
                     (inputOrDefaultValue input DEFAULTS.resolversPath))
    = false ->
  resolversPath w projectDir input
    = Throw (resolversPathMessage
               (join projectDir
                     (inputOrDefaultValue input DEFAULTS.resolversPath))).
Proof. intros X; apply requiredPath_missing; exact X. Qed.

(** C4: [requiredPath] throws its message whenever the path does not exist,
    whatever the path and wherever it came from; so [resolversPath] throws
    for a missing directory both on an explicit input and on the default,
    and resolution fails; and for the empty configuration with project root
    [/proj] and no [/proj/src/graphql/] on disk, both revisions of
    [normalizeConfig] throw the [resolversPath] message that ends in
    [/proj/src/graphql/]. *)
Theorem required_path_policy (w : World) :
  (forall path errorMessage,
     existsSync w path = false ->
     requiredPath w path errorMessage = Throw errorMessage)
  /\ (forall projectDir input,
        existsSync w (join projectDir
                           (inputOrDefaultValue input DEFAULTS.resolversPath))
          = false ->
        resolversPath w projectDir input
          = Throw (resolversPathMessage
                     (join projectDir
                           (inputOrDefaultValue input DEFAULTS.resolversPath)))
        /\ (forall Schema loader cp ep out pr outDir,
              succeeded (@YogaDefaults.normalizeConfig Schema loader w
                {| InputConfig.contextPath := cp;
                   InputConfig.resolversPath := input;
                   InputConfig.ejectFilePath := ep;
                   InputConfig.output := out;
                   InputConfig.prisma := pr |} projectDir outDir) = false)
        /\ (forall Export loader cp ep out pr outDir,
              succeeded (@Part000.normalizeConfig Export loader w
                {| InputConfig.contextPath := cp;
                   InputConfig.resolversPath := input;
                   InputConfig.ejectFilePath := ep;
                   InputConfig.output := out;
                   InputConfig.prisma := pr |} projectDir outDir) = false))
  /\ (existsSync w "/proj/src/graphql/" = false ->
      (forall Schema loader outDir,
         @YogaDefaults.normalizeConfig Schema loader w (InputConfig.empty _)
           "/proj" outDir
         = Throw "Could not find a valid `resolversPath` at /proj/src/graphql/")
      /\ (forall Export loader outDir,
            @Part000.normalizeConfig Export loader w (InputConfig.empty _)
              "/proj" outDir
            = Throw
                "Could not find a valid `resolversPath` at /proj/src/graphql/")).
Proof.
  split; [| split].
  - intros path msg X; exact (requiredPath_missing w path msg X).
  - intros projectDir input X.
    pose proof (resolversPath_missing w projectDir input X) as R.
    split; [exact R | split].
    + intros; unfold YogaDefaults.normalizeConfig;
        cbn [InputConfig.contextPath InputConfig.resolversPath].
      rewrite R; destruct (contextPath w projectDir cp); reflexivity.
    + intros; unfold Part000.normalizeConfig;
        cbn [InputConfig.contextPath InputConfig.resolversPath].
      rewrite R; destruct (contextPath w projectDir cp); reflexivity.
  - intros X.
    assert (R : resolversPath w "/proj" None
                = Throw "Could not find a valid `resolversPath` at /proj/src/graphql/")
      by exact (resolversPath_missing w "/proj" None X).
    destruct (contextPath_default_never_throws w "/proj") as [r C].
    split; intros.
    + unfold YogaDefaults.normalizeConfig, InputConfig.empty;
        cbn [InputConfig.contextPath InputConfig.resolversPath].
      rewrite C, R; reflexivity.
    + unfold Part000.normalizeConfig, InputConfig.empty;
        cbn [InputConfig.contextPath InputConfig.resolversPath].
      rewrite C, R; reflexivity.
Qed.

Lemma required_path_policy_witness :
  requiredPath (diskOf ["/proj/src/context.ts"] "/proj")
               "/proj/src/graphql/" "missing" = Throw "missing"
  /\ resolversPath (diskOf ["/proj/src/context.ts"] "/proj") "/proj"
                   (Some "./resolvers")
     = Throw "Could not find a valid `resolversPath` at /proj/resolvers"
  /\ Part000.normalizeConfig
       (fun _ _ _ => Ok ([] : list string))
       (diskOf ["/proj/src/context.ts"] "/proj") (InputConfig.empty _)
       "/proj" None
     = Throw "Could not find a valid `resolversPath` at /proj/src/graphql/".
Proof.
  pose proof (required_path_policy (diskOf ["/proj/src/context.ts"] "/proj"))
    as [P1 [P2 P3]].
  split; [| split].
  - apply P1; reflexivity.
  - apply (proj1 (P2 "/proj" (Some "./resolvers") eq_refl)).
  - apply (proj2 (P3 eq_refl)).
Defined.

(** ** The presence of the database integration *)

Lemma normalize_nonEmpty (path : string) : nonEmpty (normalize path) = true.
Proof.
  unfold normalize.
  destruct (String.eqb path ""); [reflexivity |].
  destruct (String.eqb_spec
              (joinWith "/" (normalizeSegments (negb (isAbsolute path))
                                               (splitSegments path))) "")
    as [E | N].
  - destruct (isAbsolute path); [reflexivity |].
    destruct (endsWithSlash path); reflexivity.
  - destruct (isAbsolute path); [reflexivity |].
    apply nonEmpty_true_iff.
    destruct (endsWithSlash path); [| exact N].
    destruct (joinWith "/" _); [congruence | discriminate].
Qed.

Lemma joinAll_nonEmpty (args : list string) : nonEmpty (joinAll args) = true.
Proof.
  unfold joinAll; destruct (filter nonEmpty args);
    [reflexivity | apply normalize_nonEmpty].
Qed.

(** what the presence probe looks at *)
Lemma hasPrismaConfigFile_true_iff (w : World) (projectDir : string) :
  hasPrismaConfigFile w projectDir = true
  <-> existsSync w (joinAll [projectDir; "prisma.yml"]) = true
      \/ existsSync w (joinAll [cwd w; "prisma"; "prisma.yml"]) = true.
Proof.
  unfold hasPrismaConfigFile, findPrismaConfigFile.
  destruct (existsSync w (joinAll [projectDir; "prisma.yml"])) eqn:A.
  - simpl truthy; rewrite joinAll_nonEmpty; split; auto.
  - destruct (existsSync w (joinAll [cwd w; "prisma"; "prisma.yml"])) eqn:B.
    + simpl truthy; rewrite joinAll_nonEmpty; split; auto.
    + simpl; split; [discriminate | intros [H | H]; discriminate H].
Qed.

Lemma YogaDefaults_prisma_Ok_presence {Schema : Type}
    (loader : string -> string -> result Schema) (w : World)
    (projectDir : string)
    (input : option (YogaDefaults.InputPrismaConfig Schema))
    (r : option (YogaDefaults.Prisma.t Schema)) :
  YogaDefaults.prisma loader w projectDir input = Ok r ->
  (r <> None <-> input <> None \/ hasPrismaConfigFile w projectDir = true).
Proof.
  unfold YogaDefaults.prisma.
  destruct input as [given |]; [| destruct (hasPrismaConfigFile w projectDir)];
    intros H.
  1, 2:
    apply bind_Ok_inv in H; destruct H as [a [_ H]];
    apply bind_Ok_inv in H; destruct H as [b [_ H]];
    apply bind_Ok_inv in H; destruct H as [p [_ H]];
    injection H as <-; split; intros _; [| discriminate]; auto;
    left; discriminate.
  injection H as <-; split; [congruence |].
  intros [N | N]; [congruence | discriminate N].
Qed.

Lemma Part000_prisma_Ok_presence {Export : Type}
    (loader : list Part000.FileToTranspile -> string -> string
              -> result (list Export)) (w : World)
    (projectDir : string)
    (input : option (Part000.InputPrismaConfig Export)) (outDir : string)
    (r : option (Part000.Prisma.t Export)) :
  Part000.prisma loader w projectDir input outDir = Ok r ->
  (r <> None <-> input <> None \/ hasPrismaConfigFile w projectDir = true).
Proof.
  unfold Part000.prisma.
  destruct input as [given |]; [| destruct (hasPrismaConfigFile w projectDir)];
    intros H.
  1, 2:
    apply bind_Ok_inv in H; destruct H as [a [_ H]];
    injection H as <-; split; intros _; [| discriminate]; auto;
    left; discriminate.
  injection H as <-; split; [congruence |].
  intros [N | N]; [congruence | discriminate N].
Qed.

Lemma input_prisma_given {P : Type} (input : option P) :
  input <> None <-> exists given, input = Some given.
Proof.
  destruct input as [given |]; split; intros H;
    [eauto | discriminate | congruence | destruct H as [g H]; discriminate H].
Qed.

(** C1: in a successfully resolved configuration, of either revision, the
    [prisma] field is present if and only if the input's [prisma] is [true]
    or an object of overrides, or a [prisma.yml] exists at the project root
    or at [prisma/prisma.yml] under the working directory; and when the
    input has no [prisma] and neither file exists, [prisma] returns
    [undefined] at once, whatever else is on disk and whatever the loader
    would do. *)
Theorem database_integration_presence (w : World) (projectDir : string) :
  let probed :=
    existsSync w (join projectDir "prisma.yml") = true
    \/ existsSync w (joinAll [cwd w; "prisma"; "prisma.yml"]) = true in
  (forall Schema loader config outDir c,
     @YogaDefaults.normalizeConfig Schema loader w config projectDir outDir
       = Ok c ->
     (Config.prisma c <> None
      <-> (InputConfig.prisma config = Some YogaDefaults.PrismaTrue
           \/ (exists overrides,
                 InputConfig.prisma config
                   = Some (YogaDefaults.PrismaObject overrides)))
          \/ probed))
  /\ (forall Export loader config outDir c,
        @Part000.normalizeConfig Export loader w config projectDir outDir
          = Ok c ->
        (Config.prisma c <> None
         <-> (InputConfig.prisma config = Some Part000.PrismaTrue
              \/ (exists overrides,
                    InputConfig.prisma config
                      = Some (Part000.PrismaObject overrides)))
             \/ probed))
  /\ (~ probed ->
      (forall Schema loader,
         @YogaDefaults.prisma Schema loader w projectDir None = Ok None)
      /\ (forall Export loader outDir,
            @Part000.prisma Export loader w projectDir None outDir = Ok None)).
Proof.
  intros probed.
  assert (P : hasPrismaConfigFile w projectDir = true <-> probed)
    by apply hasPrismaConfigFile_true_iff.
  split; [| split].
  - intros Schema loader config outDir c H.
    apply YogaDefaults_normalizeConfig_Ok_inv in H.
    destruct H as (_ & _ & _ & _ & H).
    apply YogaDefaults_prisma_Ok_presence in H.
    rewrite H, P, input_prisma_given.
    split; (intros [G | G]; [left | right; exact G]).
    + destruct G as [[| o] G]; [left; exact G | right; exists o; exact G].
    + destruct G as [G | [o G]]; eauto.
  - intros Export loader config outDir c H.
    apply Part000_normalizeConfig_Ok_inv in H.
    destruct H as (_ & _ & _ & _ & H).
    apply Part000_prisma_Ok_presence in H.
    rewrite H, P, input_prisma_given.
    split; (intros [G | G]; [left | right; exact G]).
    + destruct G as [[| o] G]; [left; exact G | right; exists o; exact G].
    + destruct G as [G | [o G]]; eauto.
  - intros N.
    assert (F : hasPrismaConfigFile w projectDir = false).
    { destruct (hasPrismaConfigFile w projectDir); [| reflexivity].
      exfalso; apply N, P; reflexivity. }
    split; intros.
    + unfold YogaDefaults.prisma; rewrite F; reflexivity.
    + unfold Part000.prisma; rewrite F; reflexivity.
Qed.

Lemma database_integration_presence_witness :
  (exists c,
     Part000.normalizeConfig loadNamed
       (diskOf ["/proj/src/graphql/"; "/proj/prisma.yml";
                "./yoga/prisma-client/index.ts";
                "/proj/yoga/nexus-prisma/datamodel-info.ts"] "/proj")
       (InputConfig.empty _) "/proj" None = Ok c
     /\ Config.prisma c <> None)
  /\ Part000.prisma loadNamed (diskOf ["/proj/src/graphql/"] "/proj")
       "/proj" None "/proj/dist" = Ok None.
Proof.
  split.
  - eexists; split; [vm_compute; reflexivity |].
    apply (proj1 (proj2 (database_integration_presence
                           (diskOf ["/proj/src/graphql/"; "/proj/prisma.yml";
                                    "./yoga/prisma-client/index.ts";
                                    "/proj/yoga/nexus-prisma/datamodel-info.ts"]
                                   "/proj") "/proj"))
                 string loadNamed (InputConfig.empty _) None _ eq_refl).
    right; left; reflexivity.
  - apply (proj2 (proj2 (database_integration_presence
                           (diskOf ["/proj/src/graphql/"] "/proj") "/proj"))).
    intros [H | H]; discriminate H.
Defined.

(** ** Resolved paths are absolute joins with the project root *)

Lemma normalize_absolute (path : string) :
  isAbsolute path = true -> isAbsolute (normalize path) = true.
Proof.
  intros A; unfold normalize; rewrite A.
  destruct path as [| c rest]; [discriminate A |].
  simpl String.eqb.
  destruct (String.eqb _ ""); reflexivity.
Qed.

Lemma join_absolute (projectDir path : string) :
  isAbsolute projectDir = true -> isAbsolute (join projectDir path) = true.
Proof.
  intros A; destruct projectDir as [| c rest]; [discriminate A |].
  unfold join, joinAll.
  change (filter nonEmpty [String c rest; path])
    with (String c rest :: filter nonEmpty [path]).
  apply normalize_absolute.
  destruct (filter nonEmpty [path]); exact A.
Qed.

Lemma inputOrDefaultPath_joinedFromRoot (projectDir : string)
    (input : option string) (defaultValue : string) :
  isAbsolute projectDir = true ->
  joinedFromRoot projectDir input defaultValue
                 (inputOrDefaultPath projectDir input defaultValue).
Proof.
  intros A; unfold inputOrDefaultPath; split; [apply join_absolute, A |].
  destruct (inputOrDefaultValue_cases input defaultValue)
    as [[s (E & N & V)] | [_ V]]; rewrite V; [left; exists s |]; auto.
Qed.

Lemma YogaDefaults_prisma_unfold {Schema : Type}
    (loader : string -> string -> result Schema) (w : World)
    (projectDir : string)
    (input : option (YogaDefaults.InputPrismaConfig Schema)) :
  YogaDefaults.prisma loader w projectDir input
  = match input, hasPrismaConfigFile w projectDir with
    | None, false => Ok None
    | _, _ => yogaDefaultsEnabled loader w projectDir
                                  (yogaDefaultsOverrides input)
    end.
Proof.
  unfold YogaDefaults.prisma.
  destruct input as [[| overrides] |];
    [| | destruct (hasPrismaConfigFile w projectDir)]; reflexivity.
Qed.

Lemma yogaDefaultsEnabled_Ok_inv {Schema : Type}
    (loader : string -> string -> result Schema) (w : World)
    (projectDir : string) (overrides : YogaDefaults.InputPrisma.t Schema)
    (r : option (YogaDefaults.Prisma.t Schema)) :
  yogaDefaultsEnabled loader w projectDir overrides = Ok r ->
  exists pr,
    r = Some pr
    /\ YogaDefaults.Prisma.prismaClientPath pr
       = inputOrDefaultPath projectDir
           (YogaDefaults.InputPrisma.prismaClientPath overrides)
           DEFAULTS.prisma_prismaClientPath
    /\ existsSync w (YogaDefaults.Prisma.prismaClientPath pr) = true
    /\ YogaDefaults.Prisma.contextClientName pr
       = inputOrDefaultValue
           (YogaDefaults.InputPrisma.contextClientName overrides)
           DEFAULTS.prisma_contextClientName
    /\ match YogaDefaults.InputPrisma.nexusPrismaSchema overrides with
       | Some schema => YogaDefaults.Prisma.nexusPrismaSchema pr = schema
       | None =>
           existsSync w YogaDefaults.DEFAULT_NEXUS_PRISMA_SCHEMA_PATH = true
           /\ loader projectDir YogaDefaults.DEFAULT_NEXUS_PRISMA_SCHEMA_PATH
              = Ok (YogaDefaults.Prisma.nexusPrismaSchema pr)
       end.
Proof.
  unfold yogaDefaultsEnabled; intros H.
  apply bind_Ok_inv in H; destruct H as [a [Ha H]].
  apply bind_Ok_inv in H; destruct H as [b [Hb H]].
  apply bind_Ok_inv in H; destruct H as [p [Hp H]].
  apply requiredPath_Ok_inv in Hp; destruct Hp as [-> X].
  injection H as <-; eexists; split; [reflexivity |].
  cbn [YogaDefaults.Prisma.prismaClientPath
       YogaDefaults.Prisma.contextClientName
       YogaDefaults.Prisma.nexusPrismaSchema].
  repeat split; auto.
  destruct (YogaDefaults.InputPrisma.nexusPrismaSchema overrides)
    as [schema |].
  - injection Ha as <-; injection Hb as <-; reflexivity.
  - apply bind_Ok_inv in Ha; destruct Ha as [path [Hpath Ha]].
    apply requiredPath_Ok_inv in Hpath; destruct Hpath as [-> Y].
    injection Ha as <-; auto.
Qed.

Lemma YogaDefaults_prisma_Some_inv {Schema : Type}
    (loader : string -> string -> result Schema) (w : World)
    (projectDir : string)
    (input : option (YogaDefaults.InputPrismaConfig Schema))
    (pr : YogaDefaults.Prisma.t Schema) :
  YogaDefaults.prisma loader w projectDir input = Ok (Some pr) ->
  yogaDefaultsEnabled loader w projectDir (yogaDefaultsOverrides input)
  = Ok (Some pr).
Proof.
  rewrite YogaDefaults_prisma_unfold.
  destruct input as [given |]; [auto |].
  destruct (hasPrismaConfigFile w projectDir); [auto | discriminate].
Qed.

Lemma optional_field_joinedFromRoot (w : World) (projectDir : string)
    (input : option string) (defaultValue msg path : string) :
  isAbsolute projectDir = true ->
  optional w (inputOrDefaultPath projectDir input defaultValue) input msg
    = Ok (Some path) ->
  joinedFromRoot projectDir input defaultValue path.
Proof.
  intros A H; apply optional_Ok_inv in H.
  destruct H as [[E _] | [E _]]; [| discriminate E].
  injection E as ->; apply inputOrDefaultPath_joinedFromRoot, A.
Qed.

Lemma output_joinedFromRoot (projectDir : string)
    (input : option InputOutputFilesConfig.t) (outDir : option string) :
  isAbsolute projectDir = true ->
  joinedFromRoot projectDir
    (outputInput InputOutputFilesConfig.typegenPath input)
    DEFAULTS.output_typegenPath
    (OutputFilesConfig.typegenPath (output projectDir input outDir))
  /\ joinedFromRoot projectDir
       (outputInput InputOutputFilesConfig.schemaPath input)
       DEFAULTS.output_schemaPath
       (OutputFilesConfig.schemaPath (output projectDir input outDir))
  /\ ((exists dir, outDir = Some dir /\ dir <> ""
                   /\ OutputFilesConfig.buildPath
                        (output projectDir input outDir) = dir)
      \/ joinedFromRoot projectDir None DEFAULTS.output_buildPath
           (OutputFilesConfig.buildPath (output projectDir input outDir))).
Proof.
  intros A; unfold output; cbn [OutputFilesConfig.typegenPath
    OutputFilesConfig.schemaPath OutputFilesConfig.buildPath].
  split; [| split].
  - destruct input; apply inputOrDefaultPath_joinedFromRoot, A.
  - destruct input; apply inputOrDefaultPath_joinedFromRoot, A.
  - destruct (inputOrDefaultValue_cases
                outDir (join projectDir DEFAULTS.output_buildPath))
      as [[dir (E & N & V)] | [_ V]]; rewrite V.
    + left; exists dir; auto.
    + right; split; [apply join_absolute, A | right; reflexivity].
Qed.

(** C5: for an absolute project root, every path of a successfully resolved
    configuration, of either revision, is absolute and is the project root
    joined with the user's (non-empty) value for the field or with the
    field's default: [contextPath] and [ejectFilePath] when present,
    [resolversPath], [output.typegenPath], [output.schemaPath], and
    [prisma.prismaClientPath] of yogaDefaults.ts; [output.buildPath] is the
    given [outDir] itself when one is given, and otherwise the project root
    joined with [./dist]. *)
Theorem resolved_paths_are_absolute_joins (w : World) (projectDir : string)
    (outDir : option string) :
  isAbsolute projectDir = true ->
  (forall Schema loader config c,
     @YogaDefaults.normalizeConfig Schema loader w config projectDir outDir
       = Ok c ->
     (forall path, Config.contextPath c = Some path ->
        joinedFromRoot projectDir (InputConfig.contextPath config)
                       DEFAULTS.contextPath path)
     /\ joinedFromRoot projectDir (InputConfig.resolversPath config)
                       DEFAULTS.resolversPath (Config.resolversPath c)
     /\ (forall path, Config.ejectFilePath c = Some path ->
           joinedFromRoot projectDir (InputConfig.ejectFilePath config)
                          DEFAULTS.ejectFilePath path)
     /\ joinedFromRoot projectDir
          (outputInput InputOutputFilesConfig.typegenPath
                       (InputConfig.output config))
          DEFAULTS.output_typegenPath
          (OutputFilesConfig.typegenPath (Config.output c))
     /\ joinedFromRoot projectDir
          (outputInput InputOutputFilesConfig.schemaPath
                       (InputConfig.output config))
          DEFAULTS.output_schemaPath
          (OutputFilesConfig.schemaPath (Config.output c))
     /\ ((exists dir, outDir = Some dir /\ dir <> ""
                      /\ OutputFilesConfig.buildPath (Config.output c) = dir)
         \/ joinedFromRoot projectDir None DEFAULTS.output_buildPath
              (OutputFilesConfig.buildPath (Config.output c)))
     /\ (forall pr, Config.prisma c = Some pr ->
           joinedFromRoot projectDir
             (YogaDefaults.InputPrisma.prismaClientPath
                (yogaDefaultsOverrides (InputConfig.prisma config)))
             DEFAULTS.prisma_prismaClientPath
             (YogaDefaults.Prisma.prismaClientPath pr)))
  /\ (forall Export loader config c,
        @Part000.normalizeConfig Export loader w config projectDir outDir
          = Ok c ->
        (forall path, Config.contextPath c = Some path ->
           joinedFromRoot projectDir (InputConfig.contextPath config)
                          DEFAULTS.contextPath path)
        /\ joinedFromRoot projectDir (InputConfig.resolversPath config)
                          DEFAULTS.resolversPath (Config.resolversPath c)
        /\ (forall path, Config.ejectFilePath c = Some path ->
              joinedFromRoot projectDir (InputConfig.ejectFilePath config)
                             DEFAULTS.ejectFilePath path)
        /\ joinedFromRoot projectDir
             (outputInput InputOutputFilesConfig.typegenPath
                          (InputConfig.output config))
             DEFAULTS.output_typegenPath
             (OutputFilesConfig.typegenPath (Config.output c))
        /\ joinedFromRoot projectDir
             (outputInput InputOutputFilesConfig.schemaPath
                          (InputConfig.output config))
             DEFAULTS.output_schemaPath
             (OutputFilesConfig.schemaPath (Config.output c))
        /\ ((exists dir, outDir = Some dir /\ dir <> ""
                         /\ OutputFilesConfig.buildPath (Config.output c) = dir)
            \/ joinedFromRoot projectDir None DEFAULTS.output_buildPath
                 (OutputFilesConfig.buildPath (Config.output c)))).
Proof.
  intros A.
  assert (Shared : forall P (c : Config.t P) cpIn rpIn epIn outIn,
    contextPath w projectDir cpIn = Ok (Config.contextPath c) ->
    resolversPath w projectDir rpIn = Ok (Config.resolversPath c) ->
    ejectFilePath w projectDir epIn = Ok (Config.ejectFilePath c) ->
    output projectDir outIn outDir = Config.output c ->
    (forall path, Config.contextPath c = Some path ->
       joinedFromRoot projectDir cpIn DEFAULTS.contextPath path)
    /\ joinedFromRoot projectDir rpIn DEFAULTS.resolversPath
                      (Config.resolversPath c)
    /\ (forall path, Config.ejectFilePath c = Some path ->
          joinedFromRoot projectDir epIn DEFAULTS.ejectFilePath path)
    /\ joinedFromRoot projectDir
         (outputInput InputOutputFilesConfig.typegenPath outIn)
         DEFAULTS.output_typegenPath
         (OutputFilesConfig.typegenPath (Config.output c))
    /\ joinedFromRoot projectDir
         (outputInput InputOutputFilesConfig.schemaPath outIn)
         DEFAULTS.output_schemaPath
         (OutputFilesConfig.schemaPath (Config.output c))
    /\ ((exists dir, outDir = Some dir /\ dir <> ""
                     /\ OutputFilesConfig.buildPath (Config.output c) = dir)
        \/ joinedFromRoot projectDir None DEFAULTS.output_buildPath
             (OutputFilesConfig.buildPath (Config.output c)))).
  { intros P c cpIn rpIn epIn outIn Hc Hr He Ho.
    split; [| split; [| split]].
    - intros path E; rewrite E in Hc.
      exact (optional_field_joinedFromRoot _ _ _ _ _ _ A Hc).
    - apply requiredPath_Ok_inv in Hr; destruct Hr as [-> _].
      apply inputOrDefaultPath_joinedFromRoot, A.
    - intros path E; rewrite E in He.
      exact (optional_field_joinedFromRoot _ _ _ _ _ _ A He).
    - rewrite <- Ho; apply output_joinedFromRoot, A. }
  split.
  - intros Schema loader config c H.
    apply YogaDefaults_normalizeConfig_Ok_inv in H.
    destruct H as (Hc & Hr & He & Ho & Hp).
    destruct (Shared _ c _ _ _ _ Hc Hr He Ho) as (S1 & S2 & S3 & S4 & S5 & S6).
    repeat (split; [assumption |]).
    intros pr E; rewrite E in Hp.
    apply YogaDefaults_prisma_Some_inv, yogaDefaultsEnabled_Ok_inv in Hp.
    destruct Hp as (pr' & Epr & Q & _); injection Epr as <-.
    rewrite Q; apply inputOrDefaultPath_joinedFromRoot, A.
  - intros Export loader config c H.
    apply Part000_normalizeConfig_Ok_inv in H.
    destruct H as (Hc & Hr & He & Ho & _).
    exact (Shared _ c _ _ _ _ Hc Hr He Ho).
Qed.

Lemma resolved_paths_are_absolute_joins_witness :
  isAbsolute "/proj" = true
  /\ joinedFromRoot "/proj" None DEFAULTS.resolversPath "/proj/src/graphql/"
  /\ joinedFromRoot "/proj" (Some "./lib/schema.graphql")
       DEFAULTS.output_schemaPath "/proj/lib/schema.graphql".
Proof.
  pose proof (proj2 (resolved_paths_are_absolute_joins
                       (diskOf ["/proj/src/graphql/"] "/proj") "/proj" None
                       eq_refl)
                    string loadNamed
                    {| InputConfig.contextPath := None;
                       InputConfig.resolversPath := None;
                       InputConfig.ejectFilePath := None;
                       InputConfig.output :=
                         Some {| InputOutputFilesConfig.typegenPath := None;
                                 InputOutputFilesConfig.schemaPath :=
                                   Some "./lib/schema.graphql";
                                 InputOutputFilesConfig.buildPath := None |};
                       InputConfig.prisma := None |}
                    _ eq_refl) as (_ & R & _ & _ & S & _).
  split; [reflexivity | split; [exact R | exact S]].
Defined.

(** ** The build output path *)

(** C6 as stated fails: with no [outDir], a configured [output.buildPath]
    of [./build] does not take effect, the resolved build path is
    [/proj/dist]. *)
Lemma configured_buildPath_is_not_used :
  exists c,
    Part000.normalizeConfig loadNamed (diskOf ["/proj/src/graphql/"] "/proj")
      {| InputConfig.contextPath := None;
         InputConfig.resolversPath := None;
         InputConfig.ejectFilePath := None;
         InputConfig.output :=
           Some {| InputOutputFilesConfig.typegenPath := None;
                   InputOutputFilesConfig.schemaPath := None;
                   InputOutputFilesConfig.buildPath := Some "./build" |};
         InputConfig.prisma := None |} "/proj" None = Ok c
    /\ OutputFilesConfig.buildPath (Config.output c) = "/proj/dist"
    /\ OutputFilesConfig.buildPath (Config.output c) <> join "/proj" "./build".
Proof.
  eexists; split; [vm_compute; reflexivity |].
  split; [reflexivity | discriminate].
Qed.

(** C6, amended: the resolved build output path is the given [outDir]
    itself, not joined with the project root, whenever a (non-empty)
    [outDir] is given, and otherwise the project root joined with [./dist];
    the user's [output.buildPath] is never read: resolving with any other
    [output] input gives the same build path.  This is so for [output] and
    for the configuration either revision of [normalizeConfig] returns. *)
Theorem build_path_is_outDir_or_default (projectDir : string)
    (outDir : option string) :
  (forall input input',
     OutputFilesConfig.buildPath (output projectDir input outDir)
     = OutputFilesConfig.buildPath (output projectDir input' outDir))
  /\ (forall input dir, outDir = Some dir -> dir <> "" ->
        OutputFilesConfig.buildPath (output projectDir input outDir) = dir)
  /\ (forall input, outDir = None \/ outDir = Some "" ->
        OutputFilesConfig.buildPath (output projectDir input outDir)
        = join projectDir "./dist")
  /\ (forall Schema loader w config c,
        @YogaDefaults.normalizeConfig Schema loader w config projectDir outDir
          = Ok c ->
        OutputFilesConfig.buildPath (Config.output c)
        = OutputFilesConfig.buildPath (output projectDir None outDir))
  /\ (forall Export loader w config c,
        @Part000.normalizeConfig Export loader w config projectDir outDir
          = Ok c ->
        OutputFilesConfig.buildPath (Config.output c)
        = OutputFilesConfig.buildPath (output projectDir None outDir)).
Proof.
  split; [reflexivity | split; [| split; [| split]]].
  - intros input dir E N; unfold output; cbn [OutputFilesConfig.buildPath].
    exact (inputOrDefaultValue_truthy outDir _ dir E N).
  - intros input E; unfold output; cbn [OutputFilesConfig.buildPath].
    exact (inputOrDefaultValue_falsy outDir _ E).
  - intros Schema loader w config c H.
    apply YogaDefaults_normalizeConfig_Ok_inv in H.
    destruct H as (_ & _ & _ & <- & _); reflexivity.
  - intros Export loader w config c H.
    apply Part000_normalizeConfig_Ok_inv in H.
    destruct H as (_ & _ & _ & <- & _); reflexivity.
Qed.

Lemma build_path_is_outDir_or_default_witness :
  OutputFilesConfig.buildPath
    (output "/proj"
       (Some {| InputOutputFilesConfig.typegenPath := None;
                InputOutputFilesConfig.schemaPath := None;
                InputOutputFilesConfig.buildPath := Some "./build" |})
       (Some "/abs/out")) = "/abs/out"
  /\ OutputFilesConfig.buildPath
       (output "/proj"
          (Some {| InputOutputFilesConfig.typegenPath := None;
                   InputOutputFilesConfig.schemaPath := None;
                   InputOutputFilesConfig.buildPath := Some "./build" |})
          None) = "/proj/dist".
Proof.
  split.
  - apply (proj1 (proj2 (build_path_is_outDir_or_default
                           "/proj" (Some "/abs/out"))));
      [reflexivity | discriminate].
  - apply (proj1 (proj2 (proj2 (build_path_is_outDir_or_default
                                  "/proj" None)))).
    left; reflexivity.
Defined.

(** ** The client path of the database integration *)

(** unnamed/part_000: without an inline client, the only check of the
    client is of the constant [./yoga/prisma-client/index.ts] as it stands,
    and its message is empty *)
Lemma Part000_import_client_missing {Export : Type}
    (loader : list Part000.FileToTranspile -> string -> string
              -> result (list Export)) (w : World)
    (projectDir outDir : string) (datamodelInfo : option string) :
  existsSync w Part000.DEFAULT_PRISMA_CLIENT_PATH = false ->
  Part000.importDatamodelInfoAndClient loader w projectDir outDir None
                                       datamodelInfo
  = Throw "".
Proof.
  intros X; unfold Part000.importDatamodelInfoAndClient.
  rewrite (requiredPath_missing w _ "" X); reflexivity.
Qed.

(** yogaDefaults.ts: once the schema step has passed, a missing client path
    under the project root is reported under its full name *)
Lemma YogaDefaults_client_path_required {Schema : Type}
    (loader : string -> string -> result Schema) (w : World)
    (projectDir : string) (overrides : YogaDefaults.InputPrisma.t Schema)
    (schema : Schema) :
  YogaDefaults.InputPrisma.nexusPrismaSchema overrides = Some schema
  \/ (YogaDefaults.InputPrisma.nexusPrismaSchema overrides = None
      /\ existsSync w YogaDefaults.DEFAULT_NEXUS_PRISMA_SCHEMA_PATH = true
      /\ loader projectDir YogaDefaults.DEFAULT_NEXUS_PRISMA_SCHEMA_PATH
         = Ok schema) ->
  existsSync w (join projectDir
                  (inputOrDefaultValue
                     (YogaDefaults.InputPrisma.prismaClientPath overrides)
                     DEFAULTS.prisma_prismaClientPath)) = false ->
  yogaDefaultsEnabled loader w projectDir overrides
  = Throw (YogaDefaults.prismaClientPathMessage
             (join projectDir
                (inputOrDefaultValue
                   (YogaDefaults.InputPrisma.prismaClientPath overrides)
                   DEFAULTS.prisma_prismaClientPath))).
Proof.
  intros S X; unfold yogaDefaultsEnabled, inputOrDefaultPath.
  rewrite (requiredPath_missing w _ _ X).
  destruct S as [-> | (-> & Y & L)]; [reflexivity |].
  rewrite (requiredPath_present w _ _ Y); simpl; rewrite L; reflexivity.
Qed.

(** C2, on unnamed/part_000 with [{ prisma: true }] and project root
    [/proj]: with the resolvers directory and the datamodel info on disk
    and no client at [/proj/yoga/prisma-client/index.ts] (run from [/proj],
    so [./yoga/prisma-client/index.ts] is missing too), resolution throws
    an error whose message is the empty string; and run from [/proj/src],
    where [./yoga/prisma-client/index.ts] exists, the missing
    [/proj/yoga/prisma-client/index.ts] is not noticed and resolution
    succeeds. *)
Theorem part000_missing_client_path_evaluation :
  Part000.normalizeConfig loadNamed
    (diskOf ["/proj/src/graphql/";
             "/proj/yoga/nexus-prisma/datamodel-info.ts"] "/proj")
    {| InputConfig.contextPath := None;
       InputConfig.resolversPath := None;
       InputConfig.ejectFilePath := None;
       InputConfig.output := None;
       InputConfig.prisma := Some Part000.PrismaTrue |} "/proj" None
  = Throw ""
  /\ existsSync
       (diskOf ["/proj/src/graphql/"; "./yoga/prisma-client/index.ts";
                "/proj/yoga/nexus-prisma/datamodel-info.ts"] "/proj/src")
       "/proj/yoga/prisma-client/index.ts" = false
  /\ Part000.normalizeConfig loadNamed
       (diskOf ["/proj/src/graphql/"; "./yoga/prisma-client/index.ts";
                "/proj/yoga/nexus-prisma/datamodel-info.ts"] "/proj/src")
       {| InputConfig.contextPath := None;
          InputConfig.resolversPath := None;
          InputConfig.ejectFilePath := None;
          InputConfig.output := None;
          InputConfig.prisma := Some Part000.PrismaTrue |} "/proj" None
     = Ok {| Config.contextPath := None;
             Config.resolversPath := "/proj/src/graphql/";
             Config.ejectFilePath := None;
             Config.output :=
               {| OutputFilesConfig.typegenPath := "/proj/yoga/nexus.ts";
                  OutputFilesConfig.schemaPath := "/proj/src/schema.graphql";
                  OutputFilesConfig.buildPath := "/proj/dist" |};
             Config.prisma :=
               Some {| Part000.Prisma.datamodelInfo :=
                         Some "/proj/yoga/nexus-prisma/datamodel-info.ts#default";
                       Part000.Prisma.client :=
                         Some "./yoga/prisma-client/index.ts#prisma" |} |}.
Proof. repeat split. Qed.

(** ** The schema descriptor of the database integration *)

(** yogaDefaults.ts: an inline [nexusPrismaSchema] is used as it is; neither
    the file system nor the loader is asked about a descriptor *)
Lemma YogaDefaults_inline_schema_used_as_is {Schema : Type}
    (loader loader' : string -> string -> result Schema) (w : World)
    (projectDir : string) (overrides : YogaDefaults.InputPrisma.t Schema)
    (schema : Schema) :
  YogaDefaults.InputPrisma.nexusPrismaSchema overrides = Some schema ->
  yogaDefaultsEnabled loader w projectDir overrides
  = yogaDefaultsEnabled loader' w projectDir overrides
  /\ (existsSync w (inputOrDefaultPath projectDir
                      (YogaDefaults.InputPrisma.prismaClientPath overrides)
                      DEFAULTS.prisma_prismaClientPath) = true ->
      exists pr,
        yogaDefaultsEnabled loader w projectDir overrides = Ok (Some pr)
        /\ YogaDefaults.Prisma.nexusPrismaSchema pr = schema).
Proof.
  intros E; unfold yogaDefaultsEnabled; rewrite E; split; [reflexivity |].
  intros X; rewrite (requiredPath_present w _ _ X).
  eexists; split; reflexivity.
Qed.

(** unnamed/part_000: the datamodel info path is joined with the project
    root, required, reported under its full name, and loaded as the
    [default] export after the client *)
Lemma Part000_datamodelInfo_required {Export : Type}
    (loader : list Part000.FileToTranspile -> string -> string
              -> result (list Export)) (w : World)
    (projectDir outDir : string) (client : option Export)
    (datamodelInfo : option string) :
  client <> None \/ existsSync w Part000.DEFAULT_PRISMA_CLIENT_PATH = true ->
  let path := join projectDir
                (inputOrDefaultValue datamodelInfo
                                     Part000.DEFAULT_META_SCHEMA_PATH) in
  (existsSync w path = false ->
   Part000.importDatamodelInfoAndClient loader w projectDir outDir client
                                        datamodelInfo
   = Throw (Part000.datamodelInfoMessage path))
  /\ (existsSync w path = true ->
      Part000.importDatamodelInfoAndClient loader w projectDir outDir client
                                           datamodelInfo
      = match client with
        | Some given =>
            let* imported :=
              loader [{| Part000.filePath := path;
                         Part000.exportName := "default" |}]
                     projectDir outDir in
            Ok (given :: imported)
        | None =>
            loader [{| Part000.filePath := Part000.DEFAULT_PRISMA_CLIENT_PATH;
                       Part000.exportName := "prisma" |};
                    {| Part000.filePath := path;
                       Part000.exportName := "default" |}]
                   projectDir outDir
        end).
Proof.
  intros C path; unfold Part000.importDatamodelInfoAndClient,
    inputOrDefaultPath; fold path.
  split; intros X.
  - rewrite (requiredPath_missing w _ _ X).
    destruct client as [given |]; [reflexivity |].
    destruct C as [C | C]; [congruence |].
    rewrite (requiredPath_present w _ _ C); reflexivity.
  - rewrite (requiredPath_present w _ _ X).
    destruct client as [given |]; [reflexivity |].
    destruct C as [C | C]; [congruence |].
    rewrite (requiredPath_present w _ _ C); simpl.
    destruct (loader _ projectDir outDir); reflexivity.
Qed.

(** C7, on yogaDefaults.ts with [{ prisma: true }] and project root
    [/proj]: run from [/proj/src] with the descriptor at
    [/proj/yoga/nexus-prisma/nexus-prisma.ts] on disk, resolution throws
    that [./yoga/nexus-prisma/nexus-prisma.ts] could not be found, for the
    constant is checked as it stands, not joined with the project root; and
    with a descriptor only at [./yoga/nexus-prisma/nexus-prisma.ts] and
    none under [/proj], the check passes. *)
Theorem yogaDefaults_descriptor_path_evaluation :
  existsSync
    (diskOf ["/proj/src/graphql/"; "/proj/yoga/prisma-client/index.ts";
             "/proj/yoga/nexus-prisma/nexus-prisma.ts"] "/proj/src")
    (join "/proj" YogaDefaults.DEFAULT_NEXUS_PRISMA_SCHEMA_PATH) = true
  /\ YogaDefaults.normalizeConfig loadDefaultNamed
       (diskOf ["/proj/src/graphql/"; "/proj/yoga/prisma-client/index.ts";
                "/proj/yoga/nexus-prisma/nexus-prisma.ts"] "/proj/src")
       {| InputConfig.contextPath := None;
          InputConfig.resolversPath := None;
          InputConfig.ejectFilePath := None;
          InputConfig.output := None;
          InputConfig.prisma := Some YogaDefaults.PrismaTrue |} "/proj" None
     = Throw "Could not find a valid `prisma.nexusPrismaSchema` at ./yoga/nexus-prisma/nexus-prisma.ts"
  /\ existsSync
       (diskOf ["/proj/src/graphql/"; "/proj/yoga/prisma-client/index.ts";
                "./yoga/nexus-prisma/nexus-prisma.ts"] "/proj/src")
       (join "/proj" YogaDefaults.DEFAULT_NEXUS_PRISMA_SCHEMA_PATH) = false
  /\ succeeded
       (YogaDefaults.normalizeConfig loadDefaultNamed
          (diskOf ["/proj/src/graphql/"; "/proj/yoga/prisma-client/index.ts";
                   "./yoga/nexus-prisma/nexus-prisma.ts"] "/proj/src")
          {| InputConfig.contextPath := None;
             InputConfig.resolversPath := None;
             InputConfig.ejectFilePath := None;
             InputConfig.output := None;
             InputConfig.prisma := Some YogaDefaults.PrismaTrue |} "/proj" None)
     = true.
Proof. repeat split. Qed.

(** ** [normalize] on absolute paths *)

Lemma string_app_assoc (a b c : string) : (a ++ b) ++ c = a ++ (b ++ c).
Proof. induction a as [| x a IH]; simpl; [reflexivity | now rewrite IH]. Qed.

Lemma string_app_empty_r (a : string) : a ++ "" = a.
Proof. induction a as [| x a IH]; simpl; [reflexivity | now rewrite IH]. Qed.

Lemma string_app_cons_not_empty (a : string) (c : ascii) (b : string) :
  String.eqb (a ++ String c b) "" = false.
Proof. destruct a; reflexivity. Qed.

Lemma splitSegments_not_nil (s : string) : splitSegments s <> [].
Proof.
  destruct s as [| c rest]; simpl; [discriminate |].
  destruct (Ascii.eqb c slash); [discriminate |].
  destruct (splitSegments rest); discriminate.
Qed.

Lemma splitSegments_app_slash (x y : string) :
  splitSegments (x ++ String slash y)
  = (splitSegments x ++ splitSegments y)%list.
Proof.
  induction x as [| c x IH]; simpl.
  - reflexivity.
  - destruct (Ascii.eqb c slash); [now rewrite IH |].
    rewrite IH.
    pose proof (splitSegments_not_nil x) as N.
    destruct (splitSegments x); [congruence | reflexivity].
Qed.

Lemma splitSegments_noSlash_id (s : string) :
  noSlash s = true -> splitSegments s = [s].
Proof.
  induction s as [| c s IH]; simpl; [reflexivity |].
  intros H; apply andb_true_iff in H; destruct H as [C H].
  apply negb_true_iff in C; rewrite C, (IH H); reflexivity.
Qed.

Lemma splitSegments_noSlash (s : string) :
  Forall (fun seg => noSlash seg = true) (splitSegments s).
Proof.
  induction s as [| c s IH]; simpl; [repeat constructor |].
  destruct (Ascii.eqb c slash) eqn:C; [constructor; [reflexivity | exact IH] |].
  destruct (splitSegments s) as [| seg segs]; [repeat constructor; simpl;
    now rewrite C |].
  inversion IH as [| ? ? Hseg Hsegs]; subst.
  constructor; [simpl; now rewrite C, Hseg | exact Hsegs].
Qed.

Lemma normalSegment_noSlash (s : string) :
  normalSegment s = true -> noSlash s = true.
Proof.
  unfold normalSegment; intros H.
  repeat (apply andb_true_iff in H; destruct H as [H _]); exact H.
Qed.

Lemma normalSegment_not_empty (s : string) :
  normalSegment s = true -> s <> "".
Proof.
  unfold normalSegment; intros H ->; discriminate H.
Qed.

Lemma splitSegments_joinWith (segs : list string) :
  Forall (fun seg => normalSegment seg = true) segs -> segs <> [] ->
  splitSegments (joinWith "/" segs) = segs.
Proof.
  induction segs as [| s rest IH]; intros F N; [congruence |].
  inversion F as [| ? ? Hs Hrest]; subst.
  destruct rest as [| s' rest].
  - simpl; apply splitSegments_noSlash_id, normalSegment_noSlash, Hs.
  - change (joinWith "/" (s :: s' :: rest))
      with (s ++ String slash (joinWith "/" (s' :: rest))).
    rewrite splitSegments_app_slash, (IH Hrest); [| discriminate].
    rewrite (splitSegments_noSlash_id s (normalSegment_noSlash s Hs)).
    reflexivity.
Qed.

Lemma pushSegment_normal (allow : bool) (acc : list string) (seg : string) :
  normalSegment seg = true -> pushSegment allow acc seg = seg :: acc.
Proof.
  unfold normalSegment, pushSegment; intros H.
  apply andb_true_iff in H; destruct H as [H D2].
  apply andb_true_iff in H; destruct H as [H D1].
  apply andb_true_iff in H; destruct H as [_ E].
  apply negb_true_iff in E, D1, D2; rewrite E, D1, D2; reflexivity.
Qed.

Lemma fold_pushSegment_normal (allow : bool) (segs acc : list string) :
  Forall (fun seg => normalSegment seg = true) segs ->
  fold_left (pushSegment allow) segs acc = (rev segs ++ acc)%list.
Proof.
  revert acc; induction segs as [| s rest IH]; intros acc F; [reflexivity |].
  inversion F as [| ? ? Hs Hrest]; subst; simpl.
  rewrite (pushSegment_normal allow acc s Hs), (IH _ Hrest).
  rewrite <- app_assoc; reflexivity.
Qed.

Lemma pushSegment_keeps_normal (acc : list string) (seg : string) :
  noSlash seg = true ->
  Forall (fun s => normalSegment s = true) acc ->
  Forall (fun s => normalSegment s = true) (pushSegment false acc seg).
Proof.
  intros S F; unfold pushSegment.
  destruct (String.eqb seg "") eqn:E; [exact F |].
  destruct (String.eqb seg ".") eqn:D1; [exact F |]; simpl.
  destruct (String.eqb seg "..") eqn:D2.
  - destruct acc as [| last before]; [constructor |].
    inversion F as [| ? ? Hlast Hbefore]; subst.
    destruct (String.eqb last "..") eqn:L; [| exact Hbefore].
    unfold normalSegment in Hlast; rewrite L in Hlast.
    rewrite andb_false_r in Hlast; discriminate Hlast.
  - constructor; [| exact F].
    unfold normalSegment; rewrite S, E, D1, D2; reflexivity.
Qed.

Lemma fold_pushSegment_keeps_normal (segs acc : list string) :
  Forall (fun s => noSlash s = true) segs ->
  Forall (fun s => normalSegment s = true) acc ->
  Forall (fun s => normalSegment s = true)
         (fold_left (pushSegment false) segs acc).
Proof.
  revert acc; induction segs as [| s rest IH]; intros acc S F; [exact F |].
  inversion S as [| ? ? Hs Hrest]; subst; simpl.
  apply IH; [exact Hrest | apply pushSegment_keeps_normal; assumption].
Qed.

Lemma normalizeSegments_normal (path : string) :
  Forall (fun s => normalSegment s = true)
         (normalizeSegments false (splitSegments path)).
Proof.
  unfold normalizeSegments; apply Forall_rev.
  apply fold_pushSegment_keeps_normal;
    [apply splitSegments_noSlash | constructor].
Qed.

Lemma joinWith_empty_iff (segs : list string) :
  Forall (fun s => normalSegment s = true) segs ->
  String.eqb (joinWith "/" segs) "" = match segs with [] => true | _ => false end.
Proof.
  intros F; destruct segs as [| s rest]; [reflexivity |].
  inversion F as [| ? ? Hs _]; subst.
  apply normalSegment_not_empty in Hs.
  destruct s as [| c s]; [congruence |].
  destruct rest; reflexivity.
Qed.

Lemma normalize_absolute_shape (path : string) :
  isAbsolute path = true ->
  exists segs trailing,
    Forall (fun s => normalSegment s = true) segs
    /\ normalize path = renderAbsolute segs trailing.
Proof.
  intros A.
  exists (normalizeSegments false (splitSegments path)), (endsWithSlash path).
  pose proof (normalizeSegments_normal path) as F.
  split; [exact F |].
  unfold normalize; rewrite A; simpl negb.
  destruct path as [| c rest]; [discriminate A |].
  simpl String.eqb at 1.
  rewrite (joinWith_empty_iff _ F); unfold renderAbsolute.
  destruct (normalizeSegments false (splitSegments (String c rest)));
    [reflexivity |].
  destruct (endsWithSlash (String c rest));
    [reflexivity | now rewrite string_app_empty_r].
Qed.

Lemma endsWithSlash_app_cons (a : string) (c : ascii) (b : string) :
  endsWithSlash (a ++ String c b) = endsWithSlash (String c b).
Proof.
  induction a as [| x a IH]; [reflexivity |].
  change ((String x a) ++ String c b) with (String x (a ++ String c b)).
  destruct (a ++ String c b) as [| y rest] eqn:E.
  - destruct a; discriminate E.
  - exact IH.
Qed.

Lemma endsWithSlash_noSlash (s : string) :
  noSlash s = true -> endsWithSlash s = false.
Proof.
  induction s as [| c s IH]; [reflexivity |]; simpl.
  intros H; apply andb_true_iff in H; destruct H as [C H].
  apply negb_true_iff in C.
  destruct s; [exact C | exact (IH H)].
Qed.

Lemma endsWithSlash_joinWith (segs : list string) :
  Forall (fun s => normalSegment s = true) segs ->
  endsWithSlash (joinWith "/" segs) = false.
Proof.
  induction segs as [| s rest IH]; intros F; [reflexivity |].
  inversion F as [| ? ? Hs Hrest]; subst.
  destruct rest as [| s' rest].
  - simpl; apply endsWithSlash_noSlash, normalSegment_noSlash, Hs.
  - change (joinWith "/" (s :: s' :: rest))
      with (s ++ String slash (joinWith "/" (s' :: rest))).
    rewrite endsWithSlash_app_cons.
    specialize (IH Hrest).
    destruct (joinWith "/" (s' :: rest)) as [| c body] eqn:E; [| exact IH].
    pose proof (joinWith_empty_iff (s' :: rest) Hrest) as J.
    rewrite E in J; discriminate J.
Qed.

Lemma normalizeSegments_of_normal (segs : list string) (trailing : bool) :
  Forall (fun s => normalSegment s = true) segs ->
  normalizeSegments false
    (("" :: segs) ++ (if trailing then [""] else []))%list = segs.
Proof.
  intros F; unfold normalizeSegments.
  rewrite fold_left_app.
  change (fold_left (pushSegment false) ("" :: segs) [])
    with (fold_left (pushSegment false) segs []).
  rewrite (fold_pushSegment_normal false segs [] F), app_nil_r.
  destruct trailing; simpl; apply rev_involutive.
Qed.

Lemma normalize_renderAbsolute (segs : list string) (trailing : bool) :
  Forall (fun s => normalSegment s = true) segs ->
  normalize (renderAbsolute segs trailing) = renderAbsolute segs trailing.
Proof.
  intros F; destruct segs as [| s rest]; [reflexivity |].
  unfold renderAbsolute.
  set (segs := s :: rest) in *.
  assert (N : segs <> []) by discriminate.
  assert (B : String.eqb (joinWith "/" segs) "" = false)
    by (rewrite (joinWith_empty_iff segs F); reflexivity).
  assert (T : endsWithSlash
                ("/" ++ joinWith "/" segs ++ (if trailing then "/" else ""))
              = trailing).
  { destruct trailing.
    - change ("/" ++ joinWith "/" segs ++ "/")
        with (String slash (joinWith "/" segs ++ String slash "")).
      change (String slash (joinWith "/" segs ++ String slash ""))
        with ((String slash (joinWith "/" segs)) ++ String slash "").
      rewrite endsWithSlash_app_cons; reflexivity.
    - rewrite string_app_empty_r.
      change ("/" ++ joinWith "/" segs)
        with (String slash (joinWith "/" segs)).
      pose proof (endsWithSlash_joinWith segs F) as E.
      destruct (joinWith "/" segs); [discriminate B | exact E]. }
  assert (S : splitSegments
                ("/" ++ joinWith "/" segs ++ (if trailing then "/" else ""))
              = (("" :: segs) ++ (if trailing then [""] else []))%list).
  { change ("/" ++ joinWith "/" segs ++ (if trailing then "/" else ""))
      with (String slash
              (joinWith "/" segs ++ (if trailing then "/" else ""))).
    change (splitSegments
              (String slash
                 (joinWith "/" segs ++ (if trailing then "/" else ""))))
      with ("" :: splitSegments
                    (joinWith "/" segs ++ (if trailing then "/" else ""))).
    destruct trailing.
    - change (joinWith "/" segs ++ "/")
        with (joinWith "/" segs ++ String slash "").
      rewrite splitSegments_app_slash, (splitSegments_joinWith segs F N).
      reflexivity.
    - rewrite string_app_empty_r, (splitSegments_joinWith segs F N).
      now rewrite app_nil_r. }
  unfold normalize.
  rewrite T, S.
  change (isAbsolute
            ("/" ++ joinWith "/" segs ++ (if trailing then "/" else "")))
    with true.
  change (String.eqb
            ("/" ++ joinWith "/" segs ++ (if trailing then "/" else "")) "")
    with false.
  cbv iota; simpl negb.
  rewrite (normalizeSegments_of_normal segs trailing F), B.
  destruct trailing; [reflexivity | now rewrite string_app_empty_r].
Qed.

(** [normalize] leaves an absolute path it has produced as it is *)
Lemma normalize_idempotent_absolute (path : string) :
  isAbsolute path = true -> normalize (normalize path) = normalize path.
Proof.
  intros A.
  destruct (normalize_absolute_shape path A) as (segs & trailing & F & ->).
  apply normalize_renderAbsolute, F.
Qed.

Lemma normalizeSegments_skip_empty (allow : bool) (before after : list string) :
  normalizeSegments allow (before ++ "" :: after)%list
  = normalizeSegments allow (before ++ after)%list.
Proof.
  unfold normalizeSegments; rewrite !fold_left_app; reflexivity.
Qed.

(** a doubled ["/"] is read as one *)
Lemma normalize_double_slash (x y : string) :
  normalize (x ++ String slash (String slash y))
  = normalize (x ++ String slash y).
Proof.
  unfold normalize.
  rewrite !string_app_cons_not_empty.
  assert (A : isAbsolute (x ++ String slash (String slash y))
              = isAbsolute (x ++ String slash y))
    by (destruct x; reflexivity).
  assert (T : endsWithSlash (x ++ String slash (String slash y))
              = endsWithSlash (x ++ String slash y)).
  { rewrite !endsWithSlash_app_cons; destruct y; reflexivity. }
  assert (S : forall allow,
            normalizeSegments allow
              (splitSegments (x ++ String slash (String slash y)))
            = normalizeSegments allow (splitSegments (x ++ String slash y))).
  { intros allow; rewrite !splitSegments_app_slash.
    change (splitSegments (String slash y)) with ("" :: splitSegments y).
    apply normalizeSegments_skip_empty. }
  rewrite A, T, S; reflexivity.
Qed.

Lemma endsWithSlash_split (s : string) :
  endsWithSlash s = true -> exists d, s = d ++ String slash "".
Proof.
  induction s as [| c s IH]; [discriminate |].
  destruct s as [| c' s'].
  - simpl; intros H; apply Ascii.eqb_eq in H; subst c.
    exists ""; reflexivity.
  - intros H; destruct (IH H) as [d E].
    exists (String c d); simpl; now rewrite <- E.
Qed.

Lemma join_two_nonEmpty (a b : string) :
  a <> "" -> b <> "" -> join a b = normalize (a ++ String slash b).
Proof.
  intros Ha Hb; unfold join, joinAll; simpl filter.
  apply nonEmpty_true_iff in Ha, Hb; rewrite Ha, Hb; reflexivity.
Qed.

Lemma isAbsolute_not_empty (s : string) : isAbsolute s = true -> s <> "".
Proof. destruct s; [discriminate | discriminate]. Qed.

Lemma join_is_normalized (projectDir path : string) :
  isAbsolute projectDir = true ->
  normalize (join projectDir path) = join projectDir path.
Proof.
  intros A; destruct projectDir as [| c rest]; [discriminate A |].
  unfold join, joinAll.
  change (filter nonEmpty [String c rest; path])
    with (String c rest :: filter nonEmpty [path]).
  apply normalize_idempotent_absolute.
  destruct (filter nonEmpty [path]); exact A.
Qed.

(** ** Resolving the raw form of a resolved configuration *)

Lemma stripPrefix_Some (prefix s rest : string) :
  stripPrefix prefix s = Some rest -> s = prefix ++ rest.
Proof.
  revert s; induction prefix as [| c prefix IH]; intros s; simpl.
  - intros H; injection H as ->; reflexivity.
  - destruct s as [| d s]; [discriminate |].
    destruct (Ascii.eqb_spec c d) as [-> |]; [| discriminate].
    intros H; now rewrite (IH s H).
Qed.

Lemma belowRoot_inv (projectDir path : string) :
  belowRoot projectDir path = true ->
  path = projectDir ++ minusRoot projectDir path
  /\ minusRoot projectDir path <> ""
  /\ (isAbsolute (minusRoot projectDir path) = true
      \/ endsWithSlash projectDir = true).
Proof.
  unfold belowRoot, minusRoot.
  destruct (stripPrefix projectDir path) as [rest |] eqn:E; [| discriminate].
  intros H; apply andb_true_iff in H; destruct H as [N S].
  apply nonEmpty_true_iff in N; apply orb_true_iff in S.
  split; [exact (stripPrefix_Some _ _ _ E) | auto].
Qed.

(** joining the project root with what is left of a normalized path below
    it gives the path back *)
Lemma join_minusRoot (projectDir path : string) :
  isAbsolute projectDir = true ->
  belowRoot projectDir path = true ->
  normalize path = path ->
  join projectDir (minusRoot projectDir path) = path.
Proof.
  intros A B N; destruct (belowRoot_inv _ _ B) as (E & R & S).
  rewrite (join_two_nonEmpty _ _ (isAbsolute_not_empty _ A) R).
  remember (minusRoot projectDir path) as rest eqn:Erest.
  clear Erest B; subst path.
  destruct S as [S | S].
  - destruct rest as [| c rest]; [congruence |].
    simpl in S; apply Ascii.eqb_eq in S; subst c.
    rewrite normalize_double_slash; exact N.
  - destruct (endsWithSlash_split _ S) as [d D]; subst projectDir.
    rewrite string_app_assoc in N |- *.
    rewrite string_app_assoc.
    change (String slash "" ++ String slash rest)
      with (String slash (String slash rest)).
    change (String slash "" ++ rest) with (String slash rest) in N |- *.
    rewrite normalize_double_slash; exact N.
Qed.

Lemma inputOrDefaultPath_minusRoot (projectDir path defaultValue : string) :
  isAbsolute projectDir = true ->
  belowRoot projectDir path = true ->
  normalize path = path ->
  inputOrDefaultPath projectDir (Some (minusRoot projectDir path))
                     defaultValue = path.
Proof.
  intros A B N; unfold inputOrDefaultPath.
  destruct (belowRoot_inv _ _ B) as (_ & R & _).
  rewrite (inputOrDefaultValue_truthy _ defaultValue _ eq_refl R).
  apply join_minusRoot; assumption.
Qed.

Lemma inputOrDefaultPath_normalized (projectDir : string)
    (input : option string) (defaultValue : string) :
  isAbsolute projectDir = true ->
  normalize (inputOrDefaultPath projectDir input defaultValue)
  = inputOrDefaultPath projectDir input defaultValue.
Proof. intros A; apply join_is_normalized, A. Qed.

Section RawFormOfField.
Variable w : World.
Variable projectDir : string.
Hypothesis projectDir_absolute : isAbsolute projectDir = true.
Variable defaultValue : string.
Variable message : string -> string.

Lemma optional_field_raw_form (input r : option string) :
  optional w (inputOrDefaultPath projectDir input defaultValue) input
           (message (inputOrDefaultPath projectDir input defaultValue))
    = Ok r ->
  optionBelowRoot projectDir r = true ->
  optional w
    (inputOrDefaultPath projectDir (option_map (minusRoot projectDir) r)
                        defaultValue)
    (option_map (minusRoot projectDir) r)
    (message (inputOrDefaultPath projectDir
                (option_map (minusRoot projectDir) r) defaultValue))
  = Ok r.
Proof.
  intros H B; apply optional_Ok_inv in H.
  destruct H as [[-> X] | (-> & X & T)].
  - simpl in B; simpl option_map.
    rewrite (inputOrDefaultPath_minusRoot _ _ defaultValue
               projectDir_absolute B
               (inputOrDefaultPath_normalized _ _ _ projectDir_absolute)).
    apply optional_present, X.
  - simpl option_map.
    apply truthy_false_iff in T.
    unfold inputOrDefaultPath in *.
    rewrite (inputOrDefaultValue_falsy input defaultValue T) in X.
    apply optional_missing_default; [exact X | reflexivity].
Qed.

Lemma required_field_raw_form (input : option string) (r : string) :
  requiredPath w (inputOrDefaultPath projectDir input defaultValue)
               (message (inputOrDefaultPath projectDir input defaultValue))
    = Ok r ->
  belowRoot projectDir r = true ->
  requiredPath w
    (inputOrDefaultPath projectDir (Some (minusRoot projectDir r))
                        defaultValue)
    (message (inputOrDefaultPath projectDir (Some (minusRoot projectDir r))
                                 defaultValue))
  = Ok r.
Proof.
  intros H B; apply requiredPath_Ok_inv in H; destruct H as [-> X].
  rewrite (inputOrDefaultPath_minusRoot _ _ defaultValue
             projectDir_absolute B
             (inputOrDefaultPath_normalized _ _ _ projectDir_absolute)).
  apply requiredPath_present, X.
Qed.
End RawFormOfField.

Lemma output_raw_form (projectDir : string)
    (input : option InputOutputFilesConfig.t) (outDir : option string) :
  isAbsolute projectDir = true ->
  belowRoot projectDir
    (OutputFilesConfig.typegenPath (output projectDir input outDir)) = true ->
  belowRoot projectDir
    (OutputFilesConfig.schemaPath (output projectDir input outDir)) = true ->
  output projectDir
         (Some (rawOutput projectDir (output projectDir input outDir))) outDir
  = output projectDir input outDir.
Proof.
  intros A T S; unfold output at 1, rawOutput.
  cbn [InputOutputFilesConfig.typegenPath InputOutputFilesConfig.schemaPath].
  unfold output in T, S |- *;
    cbn [OutputFilesConfig.typegenPath OutputFilesConfig.schemaPath
         OutputFilesConfig.buildPath] in T, S |- *.
  rewrite (inputOrDefaultPath_minusRoot _ _ DEFAULTS.output_typegenPath A T
             (inputOrDefaultPath_normalized _ _ _ A)).
  rewrite (inputOrDefaultPath_minusRoot _ _ DEFAULTS.output_schemaPath A S
             (inputOrDefaultPath_normalized _ _ _ A)).
  reflexivity.
Qed.

Lemma contextPath_raw_form (w : World) (projectDir : string)
    (input r : option string) :
  isAbsolute projectDir = true ->
  contextPath w projectDir input = Ok r ->
  optionBelowRoot projectDir r = true ->
  contextPath w projectDir (option_map (minusRoot projectDir) r) = Ok r.
Proof.
  intros A H B.
  exact (optional_field_raw_form w projectDir A DEFAULTS.contextPath
           contextPathMessage input r H B).
Qed.

Lemma ejectFilePath_raw_form (w : World) (projectDir : string)
    (input r : option string) :
  isAbsolute projectDir = true ->
  ejectFilePath w projectDir input = Ok r ->
  optionBelowRoot projectDir r = true ->
  ejectFilePath w projectDir (option_map (minusRoot projectDir) r) = Ok r.
Proof.
  intros A H B.
  exact (optional_field_raw_form w projectDir A DEFAULTS.ejectFilePath
           ejectFilePathMessage input r H B).
Qed.

Lemma resolversPath_raw_form (w : World) (projectDir : string)
    (input : option string) (r : string) :
  isAbsolute projectDir = true ->
  resolversPath w projectDir input = Ok r ->
  belowRoot projectDir r = true ->
  resolversPath w projectDir (Some (minusRoot projectDir r)) = Ok r.
Proof.
  intros A H B.
  exact (required_field_raw_form w projectDir A DEFAULTS.resolversPath
           resolversPathMessage input r H B).
Qed.

Lemma pathsBelowRoot_inv {P : Type} (projectDir : string) (c : Config.t P) :
  pathsBelowRoot projectDir c = true ->
  optionBelowRoot projectDir (Config.contextPath c) = true
  /\ belowRoot projectDir (Config.resolversPath c) = true
  /\ optionBelowRoot projectDir (Config.ejectFilePath c) = true
  /\ belowRoot projectDir (OutputFilesConfig.typegenPath (Config.output c))
     = true
  /\ belowRoot projectDir (OutputFilesConfig.schemaPath (Config.output c))
     = true.
Proof.
  unfold pathsBelowRoot; intros H.
  repeat (apply andb_true_iff in H; destruct H as [H ?]); auto.
Qed.

Lemma inputOrDefaultValue_not_empty (input : option string) (d : string) :
  d <> "" -> inputOrDefaultValue input d <> "".
Proof.
  intros D.
  destruct (inputOrDefaultValue_cases input d) as [[s (_ & N & ->)] | [_ ->]];
    assumption.
Qed.

Lemma Part000_import_Ok_inv {Export : Type}
    (loader : list Part000.FileToTranspile -> string -> string
              -> result (list Export)) (w : World)
    (projectDir outDir : string) (client : option Export)
    (datamodelInfo : option string) (values : list Export) :
  Part000.importDatamodelInfoAndClient loader w projectDir outDir client
                                       datamodelInfo = Ok values ->
  existsSync w (inputOrDefaultPath projectDir datamodelInfo
                                   Part000.DEFAULT_META_SCHEMA_PATH) = true
  /\ match client with
     | Some given =>
         exists imported,
           loader [{| Part000.filePath :=
                        inputOrDefaultPath projectDir datamodelInfo
                                           Part000.DEFAULT_META_SCHEMA_PATH;
                      Part000.exportName := "default" |}]
                  projectDir outDir = Ok imported
           /\ values = given :: imported
     | None =>
         existsSync w Part000.DEFAULT_PRISMA_CLIENT_PATH = true
         /\ loader [{| Part000.filePath := Part000.DEFAULT_PRISMA_CLIENT_PATH;
                       Part000.exportName := "prisma" |};
                    {| Part000.filePath :=
                         inputOrDefaultPath projectDir datamodelInfo
                                            Part000.DEFAULT_META_SCHEMA_PATH;
                       Part000.exportName := "default" |}]
                   projectDir outDir = Ok values
     end.
Proof.
  unfold Part000.importDatamodelInfoAndClient; intros H.
  apply bind_Ok_inv in H; destruct H as [pushed [Hpushed H]].
  apply bind_Ok_inv in H; destruct H as [path [Hpath H]].
  apply requiredPath_Ok_inv in Hpath; destruct Hpath as [-> X].
  apply bind_Ok_inv in H; destruct H as [imported [Himported H]].
  injection H as <-; split; [exact X |].
  destruct client as [given |].
  - injection Hpushed as <-; exists imported; split; [exact Himported |].
    reflexivity.
  - apply bind_Ok_inv in Hpushed; destruct Hpushed as [cpath [Hc Hpushed]].
    apply requiredPath_Ok_inv in Hc; destruct Hc as [-> Y].
    injection Hpushed as <-; split; [exact Y | exact Himported].
Qed.

Lemma Part000_prisma_unfold {Export : Type}
    (loader : list Part000.FileToTranspile -> string -> string
              -> result (list Export)) (w : World)
    (projectDir : string)
    (input : option (Part000.InputPrismaConfig Export)) (outDir : string) :
  Part000.prisma loader w projectDir input outDir
  = match input, hasPrismaConfigFile w projectDir with
    | None, false => Ok None
    | _, _ =>
        let* imported :=
          Part000.importDatamodelInfoAndClient
            loader w projectDir outDir
            (Part000.InputPrisma.client (part000Overrides input))
            (Part000.InputPrisma.datamodelInfoPath (part000Overrides input)) in
        Ok (Some {| Part000.Prisma.datamodelInfo := nth_error imported 1;
                    Part000.Prisma.client := nth_error imported 0 |})
    end.
Proof.
  unfold Part000.prisma.
  destruct input as [[| overrides] |];
    [| | destruct (hasPrismaConfigFile w projectDir)]; reflexivity.
Qed.

Lemma Part000_prisma_Some_inv {Export : Type}
    (loader : list Part000.FileToTranspile -> string -> string
              -> result (list Export)) (w : World)
    (projectDir : string)
    (input : option (Part000.InputPrismaConfig Export)) (outDir : string)
    (pr : Part000.Prisma.t Export) :
  Part000.prisma loader w projectDir input outDir = Ok (Some pr) ->
  exists values,
    Part000.importDatamodelInfoAndClient
      loader w projectDir outDir
      (Part000.InputPrisma.client (part000Overrides input))
      (Part000.InputPrisma.datamodelInfoPath (part000Overrides input))
    = Ok values
    /\ Part000.Prisma.datamodelInfo pr = nth_error values 1
    /\ Part000.Prisma.client pr = nth_error values 0.
Proof.
  rewrite Part000_prisma_unfold; intros H.
  assert (G : (let* imported :=
                 Part000.importDatamodelInfoAndClient
                   loader w projectDir outDir
                   (Part000.InputPrisma.client (part000Overrides input))
                   (Part000.InputPrisma.datamodelInfoPath
                      (part000Overrides input)) in
               Ok (Some {| Part000.Prisma.datamodelInfo := nth_error imported 1;
                           Part000.Prisma.client := nth_error imported 0 |}))
              = Ok (Some pr)).
  { destruct input as [given |]; [exact H |].
    destruct (hasPrismaConfigFile w projectDir); [exact H | discriminate H]. }
  apply bind_Ok_inv in G; destruct G as [values [Hv G]].
  injection G as <-; exists values; auto.
Qed.

Lemma Part000_raw_form_resolves {Export : Type}
    (loader : list Part000.FileToTranspile -> string -> string
              -> result (list Export)) (w : World)
    (config : InputConfig.t (Part000.InputPrismaConfig Export))
    (projectDir : string) (outDir : option string)
    (c : Config.t (Part000.Prisma.t Export)) :
  isAbsolute projectDir = true ->
  Part000.normalizeConfig loader w config projectDir outDir = Ok c ->
  pathsBelowRoot projectDir c = true ->
  Config.prisma c = None ->
  Part000.normalizeConfig loader w (part000RawForm projectDir c) projectDir
                          outDir = Ok c.
Proof.
  intros A H B P.
  apply Part000_normalizeConfig_Ok_inv in H.
  destruct H as (Hc & Hr & He & Ho & Hp).
  destruct (pathsBelowRoot_inv _ _ B) as (Bc & Br & Be & Bt & Bs).
  destruct c as [cp rp ep out pr].
  cbn [Config.contextPath Config.resolversPath Config.ejectFilePath
       Config.output Config.prisma] in *.
  subst pr out.
  assert (F : hasPrismaConfigFile w projectDir = false).
  { apply Part000_prisma_Ok_presence in Hp.
    destruct (hasPrismaConfigFile w projectDir); [| reflexivity].
    exfalso; apply (proj2 Hp); [right |]; reflexivity. }
  unfold Part000.normalizeConfig, part000RawForm.
  cbn [InputConfig.contextPath InputConfig.resolversPath
       InputConfig.ejectFilePath InputConfig.output InputConfig.prisma
       Config.contextPath Config.resolversPath Config.ejectFilePath
       Config.output Config.prisma option_map].
  rewrite (contextPath_raw_form _ _ _ _ A Hc Bc).
  rewrite (resolversPath_raw_form _ _ _ _ A Hr Br).
  rewrite (ejectFilePath_raw_form _ _ _ _ A He Be).
  rewrite (output_raw_form _ _ _ A Bt Bs).
  unfold Part000.prisma; rewrite F; reflexivity.
Qed.

Lemma Part000_import_raw_client {Export : Type}
    (loader : list Part000.FileToTranspile -> string -> string
              -> result (list Export)) (w : World)
    (projectDir buildPath : string) (client : option Export)
    (datamodelInfo : option string) (values : list Export) :
  Part000.importDatamodelInfoAndClient loader w projectDir buildPath client
                                       datamodelInfo = Ok values ->
  inputOrDefaultPath projectDir datamodelInfo Part000.DEFAULT_META_SCHEMA_PATH
  = inputOrDefaultPath projectDir None Part000.DEFAULT_META_SCHEMA_PATH ->
  client <> None
  \/ loadsDatamodelInfoAlike
       loader projectDir buildPath
       (inputOrDefaultPath projectDir None Part000.DEFAULT_META_SCHEMA_PATH) ->
  exists values',
    Part000.importDatamodelInfoAndClient loader w projectDir buildPath
                                         (nth_error values 0) None
    = Ok values'
    /\ nth_error values' 0 = nth_error values 0
    /\ nth_error values' 1 = nth_error values 1.
Proof.
  intros H D L.
  apply Part000_import_Ok_inv in H; destruct H as [X H]; rewrite D in X, H.
  assert (Inline : forall given imported,
    loader [{| Part000.filePath :=
                 inputOrDefaultPath projectDir None
                                    Part000.DEFAULT_META_SCHEMA_PATH;
               Part000.exportName := "default" |}]
           projectDir buildPath = Ok imported ->
    Part000.importDatamodelInfoAndClient loader w projectDir buildPath
                                         (Some given) None
    = Ok (given :: imported)).
  { intros given imported I.
    assert (N : Some given <> None) by discriminate.
    rewrite (proj2 (Part000_datamodelInfo_required
                      loader w projectDir buildPath (Some given) None
                      (or_introl N)) X).
    change (join projectDir
              (inputOrDefaultValue None Part000.DEFAULT_META_SCHEMA_PATH))
      with (inputOrDefaultPath projectDir None
                               Part000.DEFAULT_META_SCHEMA_PATH).
    rewrite I; reflexivity. }
  destruct client as [given |].
  - destruct H as (imported & I & ->); cbn [nth_error].
    exists (given :: imported); split; [exact (Inline _ _ I) | auto].
  - destruct H as [Y I].
    destruct values as [| v0 rest]; cbn [nth_error].
    + exists []; split; [| auto].
      rewrite (proj2 (Part000_datamodelInfo_required
                        loader w projectDir buildPath None None
                        (or_intror Y)) X).
      exact I.
    + destruct L as [L | L]; [congruence |].
      destruct (L _ I) as (imported & I' & E).
      exists (v0 :: imported); split; [exact (Inline _ _ I') | auto].
Qed.

Lemma loadEach_loadsDatamodelInfoAlike {Export : Type}
    (load : Part000.FileToTranspile -> string -> string -> result Export)
    (projectDir buildPath datamodelInfoPath : string) :
  loadsDatamodelInfoAlike (loadEach load) projectDir buildPath
                          datamodelInfoPath.
Proof.
  intros values H; cbn [loadEach] in H |- *.
  destruct (load _ projectDir buildPath) as [client | m]; [| discriminate H].
  cbn [bind] in H.
  destruct (load _ projectDir buildPath) as [info | m]; [| discriminate H].
  injection H as <-; eexists; split; reflexivity.
Qed.

Lemma Part000_raw_form_resolves_enabled {Export : Type}
    (loader : list Part000.FileToTranspile -> string -> string
              -> result (list Export)) (w : World)
    (config : InputConfig.t (Part000.InputPrismaConfig Export))
    (projectDir : string) (outDir : option string)
    (c : Config.t (Part000.Prisma.t Export)) :
  isAbsolute projectDir = true ->
  Part000.normalizeConfig loader w config projectDir outDir = Ok c ->
  pathsBelowRoot projectDir c = true ->
  Config.prisma c <> None ->
  inputOrDefaultPath projectDir
    (Part000.InputPrisma.datamodelInfoPath
       (part000Overrides (InputConfig.prisma config)))
    Part000.DEFAULT_META_SCHEMA_PATH
  = inputOrDefaultPath projectDir None Part000.DEFAULT_META_SCHEMA_PATH ->
  Part000.InputPrisma.client (part000Overrides (InputConfig.prisma config))
    <> None
  \/ loadsDatamodelInfoAlike
       loader projectDir
       (OutputFilesConfig.buildPath (output projectDir None outDir))
       (inputOrDefaultPath projectDir None Part000.DEFAULT_META_SCHEMA_PATH) ->
  Part000.normalizeConfig loader w (part000RawForm projectDir c) projectDir
                          outDir = Ok c.
Proof.
  intros A H B P D L.
  apply Part000_normalizeConfig_Ok_inv in H.
  destruct H as (Hc & Hr & He & Ho & Hp).
  destruct (pathsBelowRoot_inv _ _ B) as (Bc & Br & Be & Bt & Bs).
  destruct c as [cp rp ep out pr].
  cbn [Config.contextPath Config.resolversPath Config.ejectFilePath
       Config.output Config.prisma] in *.
  subst out.
  destruct pr as [pr |]; [clear P | congruence].
  apply Part000_prisma_Some_inv in Hp.
  destruct Hp as (values & Hv & Ed & Ec).
  destruct (Part000_import_raw_client _ _ _ _ _ _ _ Hv D L)
    as (values' & Hv' & E0 & E1).
  unfold Part000.normalizeConfig, part000RawForm.
  cbn [InputConfig.contextPath InputConfig.resolversPath
       InputConfig.ejectFilePath InputConfig.output InputConfig.prisma
       Config.contextPath Config.resolversPath Config.ejectFilePath
       Config.output Config.prisma option_map].
  rewrite (contextPath_raw_form _ _ _ _ A Hc Bc).
  rewrite (resolversPath_raw_form _ _ _ _ A Hr Br).
  rewrite (ejectFilePath_raw_form _ _ _ _ A He Be).
  rewrite (output_raw_form _ _ _ A Bt Bs).
  cbn [bind].
  assert (R : Part000.prisma loader w projectDir
                (Some (Part000.PrismaObject
                         {| Part000.InputPrisma.datamodelInfoPath := None;
                            Part000.InputPrisma.client :=
                              Part000.Prisma.client pr |}))
                (OutputFilesConfig.buildPath
                   (output projectDir (InputConfig.output config) outDir))
              = Ok (Some pr)).
  { rewrite Part000_prisma_unfold.
    cbn [part000Overrides Part000.InputPrisma.client
         Part000.InputPrisma.datamodelInfoPath].
    rewrite Ec, Hv'; cbn [bind].
    rewrite E0, E1, <- Ed, <- Ec; destruct pr; reflexivity. }
  rewrite R; reflexivity.
Qed.

Lemma YogaDefaults_raw_form_resolves {Schema : Type}
    (loader : string -> string -> result Schema) (w : World)
    (config : InputConfig.t (YogaDefaults.InputPrismaConfig Schema))
    (projectDir : string) (outDir : option string)
    (c : Config.t (YogaDefaults.Prisma.t Schema)) :
  isAbsolute projectDir = true ->
  YogaDefaults.normalizeConfig loader w config projectDir outDir = Ok c ->
  pathsBelowRoot projectDir c = true ->
  match Config.prisma c with
  | Some pr => belowRoot projectDir (YogaDefaults.Prisma.prismaClientPath pr)
  | None => true
  end = true ->
  YogaDefaults.normalizeConfig loader w (yogaDefaultsRawForm projectDir c)
                               projectDir outDir = Ok c.
Proof.
  intros A H B P.
  apply YogaDefaults_normalizeConfig_Ok_inv in H.
  destruct H as (Hc & Hr & He & Ho & Hp).
  destruct (pathsBelowRoot_inv _ _ B) as (Bc & Br & Be & Bt & Bs).
  destruct c as [cp rp ep out pr].
  cbn [Config.contextPath Config.resolversPath Config.ejectFilePath
       Config.output Config.prisma] in *.
  subst out.
  unfold YogaDefaults.normalizeConfig, yogaDefaultsRawForm.
  cbn [InputConfig.contextPath InputConfig.resolversPath
       InputConfig.ejectFilePath InputConfig.output InputConfig.prisma
       Config.contextPath Config.resolversPath Config.ejectFilePath
       Config.output Config.prisma].
  rewrite (contextPath_raw_form _ _ _ _ A Hc Bc).
  rewrite (resolversPath_raw_form _ _ _ _ A Hr Br).
  rewrite (ejectFilePath_raw_form _ _ _ _ A He Be).
  rewrite (output_raw_form _ _ _ A Bt Bs).
  cbn [bind].
  destruct pr as [pr |]; cbn [option_map].
  - apply YogaDefaults_prisma_Some_inv, yogaDefaultsEnabled_Ok_inv in Hp.
    destruct Hp as (pr' & Epr & Q & X & N & _); injection Epr as <-.
    rewrite YogaDefaults_prisma_unfold.
    cbn [yogaDefaultsOverrides].
    unfold yogaDefaultsEnabled.
    cbn [YogaDefaults.InputPrisma.prismaClientPath
         YogaDefaults.InputPrisma.nexusPrismaSchema
         YogaDefaults.InputPrisma.contextClientName bind].
    assert (J : inputOrDefaultPath projectDir
                  (Some (minusRoot projectDir
                           (YogaDefaults.Prisma.prismaClientPath pr)))
                  DEFAULTS.prisma_prismaClientPath
                = YogaDefaults.Prisma.prismaClientPath pr).
    { apply inputOrDefaultPath_minusRoot; [exact A | exact P |].
      rewrite Q; apply inputOrDefaultPath_normalized, A. }
    rewrite J, (requiredPath_present w _ _ X); cbn [bind].
    assert (M : inputOrDefaultValue
                  (Some (YogaDefaults.Prisma.contextClientName pr))
                  DEFAULTS.prisma_contextClientName
                = YogaDefaults.Prisma.contextClientName pr).
    { apply (inputOrDefaultValue_truthy _ _ _ eq_refl).
      rewrite N; apply inputOrDefaultValue_not_empty; discriminate. }
    rewrite M; destruct pr; reflexivity.
  - assert (F : hasPrismaConfigFile w projectDir = false).
    { apply YogaDefaults_prisma_Ok_presence in Hp.
      destruct (hasPrismaConfigFile w projectDir); [| reflexivity].
      exfalso; apply (proj2 Hp); [right |]; reflexivity. }
    rewrite YogaDefaults_prisma_unfold, F; reflexivity.
Qed.

(** C8 as stated fails, on unnamed/part_000 with project root [/proj]:
    (1) with [prisma: { datamodelInfoPath: './src/generated/datamodel-info.ts' }]
    resolution succeeds, but the resolved configuration keeps the loaded
    datamodel info and not its path, so its raw form falls back to the
    default path, which does not exist, and resolving it throws;
    (2) with [resolversPath: '.'] the resolved path is the project root
    itself, what is left of it is the empty string, which counts as absent,
    and resolving the raw form looks for the default directory and
    throws;
    (3) with [prisma: true] and a loader whose exports depend on what else
    is loaded in the same call, the raw form carries the loaded client
    inline, the datamodel info is then loaded alone, and the second
    result has another datamodel info than the first. *)
Lemma raw_form_resolution_differs :
  (exists c,
     Part000.normalizeConfig loadNamed
       (diskOf ["/proj/src/graphql/"; "./yoga/prisma-client/index.ts";
                "/proj/src/generated/datamodel-info.ts"] "/proj")
       {| InputConfig.contextPath := None;
          InputConfig.resolversPath := None;
          InputConfig.ejectFilePath := None;
          InputConfig.output := None;
          InputConfig.prisma :=
            Some (Part000.PrismaObject
                    {| Part000.InputPrisma.datamodelInfoPath :=
                         Some "./src/generated/datamodel-info.ts";
                       Part000.InputPrisma.client := None |}) |}
       "/proj" None = Ok c
     /\ Part000.normalizeConfig loadNamed
          (diskOf ["/proj/src/graphql/"; "./yoga/prisma-client/index.ts";
                   "/proj/src/generated/datamodel-info.ts"] "/proj")
          (part000RawForm "/proj" c) "/proj" None
        = Throw "Could not find a valid `prisma.datamodelInfo` at /proj/yoga/nexus-prisma/datamodel-info.ts")
  /\ (exists c,
        Part000.normalizeConfig loadNamed (diskOf ["/proj"] "/proj")
          {| InputConfig.contextPath := None;
             InputConfig.resolversPath := Some ".";
             InputConfig.ejectFilePath := None;
             InputConfig.output := None;
             InputConfig.prisma := None |}
          "/proj" None = Ok c
        /\ Config.resolversPath c = "/proj"
        /\ Part000.normalizeConfig loadNamed (diskOf ["/proj"] "/proj")
             (part000RawForm "/proj" c) "/proj" None
           = Throw "Could not find a valid `resolversPath` at /proj/src/graphql/")
  /\ (exists c c',
        Part000.normalizeConfig loadMarkingSingles
          (diskOf ["/proj/src/graphql/"; "./yoga/prisma-client/index.ts";
                   "/proj/yoga/nexus-prisma/datamodel-info.ts"] "/proj")
          {| InputConfig.contextPath := None;
             InputConfig.resolversPath := None;
             InputConfig.ejectFilePath := None;
             InputConfig.output := None;
             InputConfig.prisma := Some Part000.PrismaTrue |}
          "/proj" None = Ok c
        /\ Part000.normalizeConfig loadMarkingSingles
             (diskOf ["/proj/src/graphql/"; "./yoga/prisma-client/index.ts";
                      "/proj/yoga/nexus-prisma/datamodel-info.ts"] "/proj")
             (part000RawForm "/proj" c) "/proj" None = Ok c'
        /\ option_map Part000.Prisma.datamodelInfo (Config.prisma c)
           = Some (Some "/proj/yoga/nexus-prisma/datamodel-info.ts#together")
        /\ option_map Part000.Prisma.datamodelInfo (Config.prisma c')
           = Some (Some "/proj/yoga/nexus-prisma/datamodel-info.ts#alone")).
Proof.
  split; [| split].
  - eexists; split; [vm_compute; reflexivity | reflexivity].
  - eexists; split; [vm_compute; reflexivity |]; split; reflexivity.
  - eexists; eexists; split; [vm_compute; reflexivity |].
    split; [vm_compute; reflexivity |]; split; reflexivity.
Qed.

(** C8, amended: for an absolute project root, resolution is idempotent on
    a successfully resolved configuration whose joined paths ([contextPath]
    and [ejectFilePath] when present, [resolversPath],
    [output.typegenPath], [output.schemaPath], and [prisma.prismaClientPath]
    of yogaDefaults.ts) each are the project root followed by a non-empty
    remainder that starts at a ["/"]: resolving its raw form with the same
    project root, [outDir], file system and loader returns the same
    configuration.  On yogaDefaults.ts this is so with or without the
    database integration.  On unnamed/part_000 it is so without the
    integration, and with it when the datamodel info was loaded from the
    default path (the resolved [prisma] keeps the loaded datamodel info,
    not its path) and either the client was given inline or the loader
    returns for the datamodel info alone what it returns for it when the
    client is loaded in the same call. *)
Theorem resolution_idempotent_below_root (w : World) (projectDir : string)
    (outDir : option string) :
  isAbsolute projectDir = true ->
  (forall Export loader config c,
     @Part000.normalizeConfig Export loader w config projectDir outDir
       = Ok c ->
     pathsBelowRoot projectDir c = true ->
     Config.prisma c = None
     \/ (inputOrDefaultPath projectDir
           (Part000.InputPrisma.datamodelInfoPath
              (part000Overrides (InputConfig.prisma config)))
           Part000.DEFAULT_META_SCHEMA_PATH
         = inputOrDefaultPath projectDir None Part000.DEFAULT_META_SCHEMA_PATH
         /\ (Part000.InputPrisma.client
               (part000Overrides (InputConfig.prisma config)) <> None
             \/ loadsDatamodelInfoAlike
                  loader projectDir
                  (OutputFilesConfig.buildPath (output projectDir None outDir))
                  (inputOrDefaultPath projectDir None
                                      Part000.DEFAULT_META_SCHEMA_PATH))) ->
     Part000.normalizeConfig loader w (part000RawForm projectDir c)
                             projectDir outDir = Ok c)
  /\ (forall Schema loader config c,
        @YogaDefaults.normalizeConfig Schema loader w config projectDir outDir
          = Ok c ->
        pathsBelowRoot projectDir c = true ->
        match Config.prisma c with
        | Some pr =>
            belowRoot projectDir (YogaDefaults.Prisma.prismaClientPath pr)
        | None => true
        end = true ->
        YogaDefaults.normalizeConfig loader w (yogaDefaultsRawForm projectDir c)
                                     projectDir outDir = Ok c).
Proof.
  intros A; split.
  - intros Export loader config c H B P.
    destruct (Config.prisma c) as [pr |] eqn:E.
    + destruct P as [P | [D L]]; [discriminate P |].
      apply (Part000_raw_form_resolves_enabled loader w config projectDir
               outDir c A H B); [rewrite E; discriminate | exact D | exact L].
    + exact (Part000_raw_form_resolves loader w config projectDir outDir c
               A H B E).
  - intros Schema loader config c H B P.
    exact (YogaDefaults_raw_form_resolves loader w config projectDir outDir c
             A H B P).
Qed.

Lemma resolution_idempotent_below_root_witness :
  (exists c,
     Part000.normalizeConfig loadNamed
       (diskOf ["/proj/src/graphql/"; "/proj/lib/context.ts"] "/proj")
       {| InputConfig.contextPath := Some "./lib/context.ts";
          InputConfig.resolversPath := None;
          InputConfig.ejectFilePath := None;
          InputConfig.output := None;
          InputConfig.prisma := None |} "/proj" (Some "/proj/build") = Ok c
     /\ Config.contextPath c = Some "/proj/lib/context.ts"
     /\ Part000.normalizeConfig loadNamed
          (diskOf ["/proj/src/graphql/"; "/proj/lib/context.ts"] "/proj")
          (part000RawForm "/proj" c) "/proj" (Some "/proj/build") = Ok c)
  /\ (exists c,
        Part000.normalizeConfig loadNamed
          (diskOf ["/proj/src/graphql/";
                   "/proj/yoga/nexus-prisma/datamodel-info.ts"] "/proj")
          {| InputConfig.contextPath := None;
             InputConfig.resolversPath := None;
             InputConfig.ejectFilePath := None;
             InputConfig.output := None;
             InputConfig.prisma :=
               Some (Part000.PrismaObject
                       {| Part000.InputPrisma.datamodelInfoPath := None;
                          Part000.InputPrisma.client :=
                            Some "inline client" |}) |} "/proj" None = Ok c
        /\ Config.prisma c <> None
        /\ Part000.normalizeConfig loadNamed
             (diskOf ["/proj/src/graphql/";
                      "/proj/yoga/nexus-prisma/datamodel-info.ts"] "/proj")
             (part000RawForm "/proj" c) "/proj" None = Ok c)
  /\ (exists c,
        Part000.normalizeConfig loadNamed
          (diskOf ["/proj/src/graphql/"; "./yoga/prisma-client/index.ts";
                   "/proj/yoga/nexus-prisma/datamodel-info.ts"] "/proj")
          {| InputConfig.contextPath := None;
             InputConfig.resolversPath := None;
             InputConfig.ejectFilePath := None;
             InputConfig.output := None;
             InputConfig.prisma := Some Part000.PrismaTrue |} "/proj" None
        = Ok c
        /\ Config.prisma c <> None
        /\ Part000.normalizeConfig loadNamed
             (diskOf ["/proj/src/graphql/"; "./yoga/prisma-client/index.ts";
                      "/proj/yoga/nexus-prisma/datamodel-info.ts"] "/proj")
             (part000RawForm "/proj" c) "/proj" None = Ok c).
Proof.
  split; [| split].
  - eexists; split; [vm_compute; reflexivity |].
    split; [reflexivity |].
    apply (proj1 (resolution_idempotent_below_root
                    (diskOf ["/proj/src/graphql/"; "/proj/lib/context.ts"]
                            "/proj") "/proj" (Some "/proj/build") eq_refl)
                 string loadNamed
                 {| InputConfig.contextPath := Some "./lib/context.ts";
                    InputConfig.resolversPath := None;
                    InputConfig.ejectFilePath := None;
                    InputConfig.output := None;
                    InputConfig.prisma := None |});
      [reflexivity | reflexivity | left; reflexivity].
  - eexists; split; [vm_compute; reflexivity |].
    split; [discriminate |].
    apply (proj1 (resolution_idempotent_below_root
                    (diskOf ["/proj/src/graphql/";
                             "/proj/yoga/nexus-prisma/datamodel-info.ts"]
                            "/proj") "/proj" None eq_refl)
                 string loadNamed
                 {| InputConfig.contextPath := None;
                    InputConfig.resolversPath := None;
                    InputConfig.ejectFilePath := None;
                    InputConfig.output := None;
                    InputConfig.prisma :=
                      Some (Part000.PrismaObject
                              {| Part000.InputPrisma.datamodelInfoPath := None;
                                 Part000.InputPrisma.client :=
                                   Some "inline client" |}) |});
      [reflexivity | reflexivity |].
    right; split; [reflexivity | left; discriminate].
  - eexists; split; [vm_compute; reflexivity |].
    split; [discriminate |].
    apply (proj1 (resolution_idempotent_below_root
                    (diskOf ["/proj/src/graphql/";
                             "./yoga/prisma-client/index.ts";
                             "/proj/yoga/nexus-prisma/datamodel-info.ts"]
                            "/proj") "/proj" None eq_refl)
                 string loadNamed
                 {| InputConfig.contextPath := None;
                    InputConfig.resolversPath := None;
                    InputConfig.ejectFilePath := None;
                    InputConfig.output := None;
                    InputConfig.prisma := Some Part000.PrismaTrue |});
      [reflexivity | reflexivity |].
    right; split; [reflexivity | right].
    intros values H; injection H as <-.
    eexists; split; reflexivity.
Defined.

(* ================================================================== *)
(** * Further properties of the code *)

(** ** The presence probe *)

(** [findPrismaConfigFile] prefers [prisma.yml] at the project root: when it
    exists it is the answer, whatever is under the working directory; the
    file at [prisma/prisma.yml] under the working directory is the answer
    only when the first is missing; the answer is [null] exactly when both
    are missing; and a path that is returned exists. *)
Theorem findPrismaConfigFile_prefers_project_root (w : World)
    (projectDir : string) :
  (existsSync w (join projectDir "prisma.yml") = true ->
   findPrismaConfigFile w projectDir = Some (join projectDir "prisma.yml"))
  /\ (existsSync w (join projectDir "prisma.yml") = false ->
      existsSync w (joinAll [cwd w; "prisma"; "prisma.yml"]) = true ->
      findPrismaConfigFile w projectDir
      = Some (joinAll [cwd w; "prisma"; "prisma.yml"]))
  /\ (findPrismaConfigFile w projectDir = None
      <-> existsSync w (join projectDir "prisma.yml") = false
          /\ existsSync w (joinAll [cwd w; "prisma"; "prisma.yml"]) = false)
  /\ (forall found, findPrismaConfigFile w projectDir = Some found ->
        existsSync w found = true).
Proof.
  unfold findPrismaConfigFile.
  change (joinAll [projectDir; "prisma.yml"])
    with (join projectDir "prisma.yml").
  destruct (existsSync w (join projectDir "prisma.yml")) eqn:A;
    destruct (existsSync w (joinAll [cwd w; "prisma"; "prisma.yml"])) eqn:B;
    repeat split; try discriminate; try reflexivity;
    try (intros [? ?]; discriminate);
    try (intros found H; injection H as <-; assumption).
Qed.

Lemma findPrismaConfigFile_prefers_project_root_witness :
  findPrismaConfigFile
    (diskOf ["/proj/prisma.yml"; "/work/prisma/prisma.yml"] "/work") "/proj"
  = Some "/proj/prisma.yml"
  /\ findPrismaConfigFile (diskOf ["/work/prisma/prisma.yml"] "/work") "/proj"
     = Some "/work/prisma/prisma.yml".
Proof.
  split.
  - apply (proj1 (findPrismaConfigFile_prefers_project_root
                    (diskOf ["/proj/prisma.yml"; "/work/prisma/prisma.yml"]
                            "/work") "/proj")); reflexivity.
  - apply (proj1 (proj2 (findPrismaConfigFile_prefers_project_root
                           (diskOf ["/work/prisma/prisma.yml"] "/work")
                           "/proj"))); reflexivity.
Defined.

(** ** Every checked path of a resolved configuration exists *)

Lemma optional_field_result (w : World) (projectDir : string)
    (input : option string) (defaultValue msg : string) (r : option string) :
  optional w (inputOrDefaultPath projectDir input defaultValue) input msg
    = Ok r ->
  (forall path, r = Some path -> existsSync w path = true)
  /\ (r = None ->
      (input = None \/ input = Some "")
      /\ existsSync w (join projectDir defaultValue) = false).
Proof.
  intros H; apply optional_Ok_inv in H.
  destruct H as [[-> X] | (-> & X & T)]; split.
  - intros path E; injection E as <-; exact X.
  - discriminate.
  - discriminate.
  - intros _; apply truthy_false_iff in T; split; [exact T |].
    unfold inputOrDefaultPath in X.
    rewrite (inputOrDefaultValue_falsy input defaultValue T) in X; exact X.
Qed.


(** In a successfully resolved configuration, of either revision, every
    path that has an existence policy exists on disk: [resolversPath],
    [contextPath] and [ejectFilePath] when present, and
    [prisma.prismaClientPath] of yogaDefaults.ts; and an optional field is
    absent only when the user gave no (non-empty) value for it and its
    default path does not exist. *)
Theorem resolved_checked_paths_exist (w : World) (projectDir : string)
    (outDir : option string) :
  (forall Schema loader config c,
     @YogaDefaults.normalizeConfig Schema loader w config projectDir outDir
       = Ok c ->
     existsSync w (Config.resolversPath c) = true
     /\ (forall path, Config.contextPath c = Some path ->
           existsSync w path = true)
     /\ (Config.contextPath c = None ->
         (InputConfig.contextPath config = None
          \/ InputConfig.contextPath config = Some "")
         /\ existsSync w (join projectDir DEFAULTS.contextPath) = false)
     /\ (forall path, Config.ejectFilePath c = Some path ->
           existsSync w path = true)
     /\ (Config.ejectFilePath c = None ->
         (InputConfig.ejectFilePath config = None
          \/ InputConfig.ejectFilePath config = Some "")
         /\ existsSync w (join projectDir DEFAULTS.ejectFilePath) = false)
     /\ (forall pr, Config.prisma c = Some pr ->
           existsSync w (YogaDefaults.Prisma.prismaClientPath pr) = true))
  /\ (forall Export loader config c,
        @Part000.normalizeConfig Export loader w config projectDir outDir
          = Ok c ->
        existsSync w (Config.resolversPath c) = true
        /\ (forall path, Config.contextPath c = Some path ->
              existsSync w path = true)
        /\ (Config.contextPath c = None ->
            (InputConfig.contextPath config = None
             \/ InputConfig.contextPath config = Some "")
            /\ existsSync w (join projectDir DEFAULTS.contextPath) = false)
        /\ (forall path, Config.ejectFilePath c = Some path ->
              existsSync w path = true)
        /\ (Config.ejectFilePath c = None ->
            (InputConfig.ejectFilePath config = None
             \/ InputConfig.ejectFilePath config = Some "")
            /\ existsSync w (join projectDir DEFAULTS.ejectFilePath) = false)).
Proof.
  assert (Shared : forall P (c : Config.t P) cpIn rpIn epIn,
    contextPath w projectDir cpIn = Ok (Config.contextPath c) ->
    resolversPath w projectDir rpIn = Ok (Config.resolversPath c) ->
    ejectFilePath w projectDir epIn = Ok (Config.ejectFilePath c) ->
    existsSync w (Config.resolversPath c) = true
    /\ (forall path, Config.contextPath c = Some path ->
          existsSync w path = true)
    /\ (Config.contextPath c = None ->
        (cpIn = None \/ cpIn = Some "")
        /\ existsSync w (join projectDir DEFAULTS.contextPath) = false)
    /\ (forall path, Config.ejectFilePath c = Some path ->
          existsSync w path = true)
    /\ (Config.ejectFilePath c = None ->
        (epIn = None \/ epIn = Some "")
        /\ existsSync w (join projectDir DEFAULTS.ejectFilePath) = false)).
  { intros P c cpIn rpIn epIn Hc Hr He.
    apply requiredPath_Ok_inv in Hr; destruct Hr as [Er Xr].
    destruct (optional_field_result _ _ _ _ _ _ Hc) as [C1 C2].
    destruct (optional_field_result _ _ _ _ _ _ He) as [E1 E2].
    rewrite Er; auto 6. }
  split.
  - intros Schema loader config c H.
    apply YogaDefaults_normalizeConfig_Ok_inv in H.
    destruct H as (Hc & Hr & He & _ & Hp).
    destruct (Shared _ c _ _ _ Hc Hr He) as (S1 & S2 & S3 & S4 & S5).
    repeat (split; [assumption |]).
    intros pr E; rewrite E in Hp.
    apply YogaDefaults_prisma_Some_inv, yogaDefaultsEnabled_Ok_inv in Hp.
    destruct Hp as (pr' & Epr & _ & X & _); injection Epr as <-; exact X.
  - intros Export loader config c H.
    apply Part000_normalizeConfig_Ok_inv in H.
    destruct H as (Hc & Hr & He & _ & _).
    exact (Shared _ c _ _ _ Hc Hr He).
Qed.

Lemma resolved_checked_paths_exist_witness :
  existsSync (diskOf ["/proj/src/graphql/"; "/proj/src/index.ts"] "/proj")
             "/proj/src/graphql/" = true
  /\ existsSync (diskOf ["/proj/src/graphql/"; "/proj/src/index.ts"] "/proj")
                "/proj/src/index.ts" = true.
Proof.
  pose proof (proj2 (resolved_checked_paths_exist
                       (diskOf ["/proj/src/graphql/"; "/proj/src/index.ts"]
                               "/proj") "/proj" None)
                    string loadNamed (InputConfig.empty _) _ eq_refl)
    as (R & _ & _ & E & _).
  split; [exact R | exact (E "/proj/src/index.ts" eq_refl)].
Defined.

(** ** Where an error of [normalizeConfig] comes from *)

Lemma bind_Throw_inv {A B : Type} (r : result A) (k : A -> result B)
    (m : string) :
  bind r k = Throw m -> r = Throw m \/ exists a, r = Ok a /\ k a = Throw m.
Proof.
  destruct r as [a | m']; simpl; intros H.
  - right; exists a; auto.
  - left; injection H as ->; reflexivity.
Qed.

Lemma optional_Throw_inv (w : World) (path : string) (input : option string)
    (msg m : string) :
  optional w path input msg = Throw m ->
  m = msg /\ existsSync w path = false /\ truthy input = true.
Proof.
  unfold optional; destruct (existsSync w path); simpl; [discriminate |].
  destruct (truthy input); [| discriminate].
  intros H; injection H as <-; auto.
Qed.

Lemma requiredPath_Throw_inv (w : World) (path msg m : string) :
  requiredPath w path msg = Throw m -> m = msg /\ existsSync w path = false.
Proof.
  unfold requiredPath; destruct (existsSync w path); simpl; [discriminate |].
  intros H; injection H as <-; auto.
Qed.

Lemma Part000_import_Throw_inv {Export : Type}
    (loader : list Part000.FileToTranspile -> string -> string
              -> result (list Export)) (w : World)
    (projectDir outDir : string) (client : option Export)
    (datamodelInfo : option string) (m : string) :
  Part000.importDatamodelInfoAndClient loader w projectDir outDir client
                                       datamodelInfo = Throw m ->
  (m = "" /\ client = None
   /\ existsSync w Part000.DEFAULT_PRISMA_CLIENT_PATH = false)
  \/ (m = Part000.datamodelInfoMessage
            (inputOrDefaultPath projectDir datamodelInfo
                                Part000.DEFAULT_META_SCHEMA_PATH)
      /\ existsSync w (inputOrDefaultPath projectDir datamodelInfo
                                          Part000.DEFAULT_META_SCHEMA_PATH)
         = false)
  \/ (exists files, loader files projectDir outDir = Throw m).
Proof.
  unfold Part000.importDatamodelInfoAndClient; intros H.
  apply bind_Throw_inv in H; destruct H as [H | [pushed [_ H]]].
  - destruct client as [given |]; [discriminate H |].
    apply bind_Throw_inv in H; destruct H as [H | [p [_ H]]];
      [| discriminate H].
    apply requiredPath_Throw_inv in H; destruct H as [-> X]; auto.
  - apply bind_Throw_inv in H; destruct H as [H | [path [_ H]]].
    + apply requiredPath_Throw_inv in H; destruct H as [-> X]; auto.
    + apply bind_Throw_inv in H; destruct H as [H | [imported [_ H]]];
        [| discriminate H].
      right; right; eexists; exact H.
Qed.

Lemma yogaDefaultsEnabled_Throw_inv {Schema : Type}
    (loader : string -> string -> result Schema) (w : World)
    (projectDir : string) (overrides : YogaDefaults.InputPrisma.t Schema)
    (m : string) :
  yogaDefaultsEnabled loader w projectDir overrides = Throw m ->
  (m = YogaDefaults.nexusPrismaSchemaMessage
   /\ YogaDefaults.InputPrisma.nexusPrismaSchema overrides = None
   /\ existsSync w YogaDefaults.DEFAULT_NEXUS_PRISMA_SCHEMA_PATH = false)
  \/ (loader projectDir YogaDefaults.DEFAULT_NEXUS_PRISMA_SCHEMA_PATH
        = Throw m
      /\ YogaDefaults.InputPrisma.nexusPrismaSchema overrides = None)
  \/ (m = YogaDefaults.prismaClientPathMessage
            (inputOrDefaultPath projectDir
               (YogaDefaults.InputPrisma.prismaClientPath overrides)
               DEFAULTS.prisma_prismaClientPath)
      /\ existsSync w (inputOrDefaultPath projectDir
                         (YogaDefaults.InputPrisma.prismaClientPath overrides)
                         DEFAULTS.prisma_prismaClientPath) = false).
Proof.
  unfold yogaDefaultsEnabled; intros H.
  apply bind_Throw_inv in H; destruct H as [H | [a [Ha H]]].
  - destruct (YogaDefaults.InputPrisma.nexusPrismaSchema overrides);
      [discriminate H |].
    apply bind_Throw_inv in H; destruct H as [H | [p [_ H]]];
      [| discriminate H].
    apply requiredPath_Throw_inv in H; destruct H as [-> X]; auto.
  - apply bind_Throw_inv in H; destruct H as [H | [b [_ H]]].
    + destruct (YogaDefaults.InputPrisma.nexusPrismaSchema overrides)
        as [schema |].
      * injection Ha as <-; discriminate H.
      * apply bind_Ok_inv in Ha; destruct Ha as [path [Hp Ha]].
        apply requiredPath_Ok_inv in Hp; destruct Hp as [-> _].
        injection Ha as <-; auto.
    + apply bind_Throw_inv in H; destruct H as [H | [p [_ H]]];
        [| discriminate H].
      apply requiredPath_Throw_inv in H; destruct H as [-> X]; auto.
Qed.

(** Every error of [normalizeConfig] is accounted for.  In unnamed/part_000
    the message is that of [contextPath], [resolversPath] or
    [ejectFilePath] with the joined path in it, or the empty message of the
    client check, or that of the datamodel info with its joined path, or
    one that the loader threw when called with the project directory and
    the resolved build path.  In yogaDefaults.ts it is one of the three
    field messages, or that of the schema descriptor, or that of the client
    path with its joined path, or one that the loader threw for the default
    descriptor. *)
Theorem normalizeConfig_error_provenance (w : World) (projectDir : string)
    (outDir : option string) (m : string) :
  (forall Export loader config,
     @Part000.normalizeConfig Export loader w config projectDir outDir
       = Throw m ->
     m = contextPathMessage
           (inputOrDefaultPath projectDir (InputConfig.contextPath config)
                               DEFAULTS.contextPath)
     \/ m = resolversPathMessage
              (inputOrDefaultPath projectDir (InputConfig.resolversPath config)
                                  DEFAULTS.resolversPath)
     \/ m = ejectFilePathMessage
              (inputOrDefaultPath projectDir (InputConfig.ejectFilePath config)
                                  DEFAULTS.ejectFilePath)
     \/ m = ""
     \/ m = Part000.datamodelInfoMessage
              (inputOrDefaultPath projectDir
                 (Part000.InputPrisma.datamodelInfoPath
                    (part000Overrides (InputConfig.prisma config)))
                 Part000.DEFAULT_META_SCHEMA_PATH)
     \/ (exists files,
           loader files projectDir
                  (OutputFilesConfig.buildPath
                     (output projectDir None outDir)) = Throw m))
  /\ (forall Schema loader config,
        @YogaDefaults.normalizeConfig Schema loader w config projectDir outDir
          = Throw m ->
        m = contextPathMessage
              (inputOrDefaultPath projectDir (InputConfig.contextPath config)
                                  DEFAULTS.contextPath)
        \/ m = resolversPathMessage
                 (inputOrDefaultPath projectDir
                    (InputConfig.resolversPath config) DEFAULTS.resolversPath)
        \/ m = ejectFilePathMessage
                 (inputOrDefaultPath projectDir
                    (InputConfig.ejectFilePath config) DEFAULTS.ejectFilePath)
        \/ m = YogaDefaults.nexusPrismaSchemaMessage
        \/ m = YogaDefaults.prismaClientPathMessage
                 (inputOrDefaultPath projectDir
                    (YogaDefaults.InputPrisma.prismaClientPath
                       (yogaDefaultsOverrides (InputConfig.prisma config)))
                    DEFAULTS.prisma_prismaClientPath)
        \/ loader projectDir YogaDefaults.DEFAULT_NEXUS_PRISMA_SCHEMA_PATH
           = Throw m).
Proof.
  split.
  - intros Export loader config H; unfold Part000.normalizeConfig in H.
    apply bind_Throw_inv in H; destruct H as [H | [cp [_ H]]].
    { apply optional_Throw_inv in H; destruct H as [-> _]; auto. }
    apply bind_Throw_inv in H; destruct H as [H | [rp [_ H]]].
    { apply requiredPath_Throw_inv in H; destruct H as [-> _]; auto. }
    apply bind_Throw_inv in H; destruct H as [H | [ep [_ H]]].
    { apply optional_Throw_inv in H; destruct H as [-> _]; auto. }
    apply bind_Throw_inv in H; destruct H as [H | [pr [_ H]]];
      [| discriminate H].
    rewrite Part000_prisma_unfold in H.
    assert (G : Part000.importDatamodelInfoAndClient
                  loader w projectDir
                  (OutputFilesConfig.buildPath
                     (output projectDir (InputConfig.output config) outDir))
                  (Part000.InputPrisma.client
                     (part000Overrides (InputConfig.prisma config)))
                  (Part000.InputPrisma.datamodelInfoPath
                     (part000Overrides (InputConfig.prisma config)))
                = Throw m).
    { destruct (InputConfig.prisma config) as [given |].
      - apply bind_Throw_inv in H; destruct H as [H | [v [_ H]]];
          [exact H | discriminate H].
      - destruct (hasPrismaConfigFile w projectDir); [| discriminate H].
        apply bind_Throw_inv in H; destruct H as [H | [v [_ H]]];
          [exact H | discriminate H]. }
    apply Part000_import_Throw_inv in G.
    destruct G as [(-> & _) | [(-> & _) | [files G]]]; auto 8.
    right; right; right; right; right; exists files; exact G.
  - intros Schema loader config H; unfold YogaDefaults.normalizeConfig in H.
    apply bind_Throw_inv in H; destruct H as [H | [cp [_ H]]].
    { apply optional_Throw_inv in H; destruct H as [-> _]; auto. }
    apply bind_Throw_inv in H; destruct H as [H | [rp [_ H]]].
    { apply requiredPath_Throw_inv in H; destruct H as [-> _]; auto. }
    apply bind_Throw_inv in H; destruct H as [H | [ep [_ H]]].
    { apply optional_Throw_inv in H; destruct H as [-> _]; auto. }
    apply bind_Throw_inv in H; destruct H as [H | [pr [_ H]]];
      [| discriminate H].
    rewrite YogaDefaults_prisma_unfold in H.
    assert (G : yogaDefaultsEnabled loader w projectDir
                  (yogaDefaultsOverrides (InputConfig.prisma config))
                = Throw m).
    { destruct (InputConfig.prisma config) as [given |]; [exact H |].
      destruct (hasPrismaConfigFile w projectDir);
        [exact H | discriminate H]. }
    apply yogaDefaultsEnabled_Throw_inv in G.
    destruct G as [(-> & _) | [(G & _) | (-> & _)]]; auto 8.
Qed.

Lemma normalizeConfig_error_provenance_witness :
  "Could not find a valid `resolversPath` at /proj/src/graphql/"
  = resolversPathMessage "/proj/src/graphql/".
Proof.
  destruct (proj1 (normalizeConfig_error_provenance
                     (diskOf [] "/proj") "/proj" None
                     "Could not find a valid `resolversPath` at /proj/src/graphql/")
                  string loadNamed (InputConfig.empty _) eq_refl)
    as [H | [H | [H | [H | [H | [files H]]]]]];
    try discriminate H.
  exact H.
Defined.

(** ** Resolution without the database integration *)

Lemma hasPrismaConfigFile_false (w : World) (projectDir : string) :
  existsSync w (join projectDir "prisma.yml") = false ->
  existsSync w (joinAll [cwd w; "prisma"; "prisma.yml"]) = false ->
  hasPrismaConfigFile w projectDir = false.
Proof.
  intros A B.
  destruct (hasPrismaConfigFile w projectDir) eqn:H; [| reflexivity].
  apply hasPrismaConfigFile_true_iff in H.
  change (joinAll [projectDir; "prisma.yml"])
    with (join projectDir "prisma.yml") in H.
  destruct H as [H | H]; congruence.
Qed.

(** With no [prisma] in the input and no [prisma.yml] on disk, either
    revision of [normalizeConfig] succeeds exactly when the resolvers
    directory exists and each optional path the user named exists; the
    result then has the joined paths ([contextPath] and [ejectFilePath]
    present exactly when their files exist), the [output] as computed, and
    no [prisma]; the loader plays no part. *)
Theorem resolution_without_database_integration (w : World)
    (projectDir : string) (outDir : option string)
    (cp rp ep : option string) (out : option InputOutputFilesConfig.t) :
  existsSync w (join projectDir "prisma.yml") = false ->
  existsSync w (joinAll [cwd w; "prisma"; "prisma.yml"]) = false ->
  let pathC := inputOrDefaultPath projectDir cp DEFAULTS.contextPath in
  let pathR := inputOrDefaultPath projectDir rp DEFAULTS.resolversPath in
  let pathE := inputOrDefaultPath projectDir ep DEFAULTS.ejectFilePath in
  let available :=
    (truthy cp = true -> existsSync w pathC = true)
    /\ existsSync w pathR = true
    /\ (truthy ep = true -> existsSync w pathE = true) in
  (forall Export loader,
     (available ->
      @Part000.normalizeConfig Export loader w
        {| InputConfig.contextPath := cp;
           InputConfig.resolversPath := rp;
           InputConfig.ejectFilePath := ep;
           InputConfig.output := out;
           InputConfig.prisma := None |} projectDir outDir
      = Ok {| Config.contextPath :=
                if existsSync w pathC then Some pathC else None;
              Config.resolversPath := pathR;
              Config.ejectFilePath :=
                if existsSync w pathE then Some pathE else None;
              Config.output := output projectDir out outDir;
              Config.prisma := None |})
     /\ (succeeded
           (@Part000.normalizeConfig Export loader w
              {| InputConfig.contextPath := cp;
                 InputConfig.resolversPath := rp;
                 InputConfig.ejectFilePath := ep;
                 InputConfig.output := out;
                 InputConfig.prisma := None |} projectDir outDir) = true ->
         available))
  /\ (forall Schema loader,
        (available ->
         @YogaDefaults.normalizeConfig Schema loader w
           {| InputConfig.contextPath := cp;
              InputConfig.resolversPath := rp;
              InputConfig.ejectFilePath := ep;
              InputConfig.output := out;
              InputConfig.prisma := None |} projectDir outDir
         = Ok {| Config.contextPath :=
                   if existsSync w pathC then Some pathC else None;
                 Config.resolversPath := pathR;
                 Config.ejectFilePath :=
                   if existsSync w pathE then Some pathE else None;
                 Config.output := output projectDir out outDir;
                 Config.prisma := None |})
        /\ (succeeded
              (@YogaDefaults.normalizeConfig Schema loader w
                 {| InputConfig.contextPath := cp;
                    InputConfig.resolversPath := rp;
                    InputConfig.ejectFilePath := ep;
                    InputConfig.output := out;
                    InputConfig.prisma := None |} projectDir outDir) = true ->
            available)).
Proof.
  intros A B pathC pathR pathE available.
  pose proof (hasPrismaConfigFile_false w projectDir A B) as F.
  assert (PP : forall Export loader o,
            @Part000.prisma Export loader w projectDir None o = Ok None)
    by (intros; unfold Part000.prisma; rewrite F; reflexivity).
  assert (PY : forall Schema loader,
            @YogaDefaults.prisma Schema loader w projectDir None = Ok None)
    by (intros; unfold YogaDefaults.prisma; rewrite F; reflexivity).
  split; intros T loader.
  - unfold Part000.normalizeConfig.
    cbn [InputConfig.contextPath InputConfig.resolversPath
         InputConfig.ejectFilePath InputConfig.output InputConfig.prisma].
    rewrite PP.
    unfold contextPath, resolversPath, ejectFilePath, optional, requiredPath.
    fold pathC pathR pathE.
    unfold available.
    destruct (existsSync w pathC), (existsSync w pathR), (existsSync w pathE),
      (truthy cp), (truthy ep); simpl;
      split; try reflexivity; try discriminate; auto;
      intros (X & Y & Z); try discriminate Y;
      try (discriminate (X eq_refl)); try (discriminate (Z eq_refl)).
  - unfold YogaDefaults.normalizeConfig.
    cbn [InputConfig.contextPath InputConfig.resolversPath
         InputConfig.ejectFilePath InputConfig.output InputConfig.prisma].
    rewrite PY.
    unfold contextPath, resolversPath, ejectFilePath, optional, requiredPath.
    fold pathC pathR pathE.
    unfold available.
    destruct (existsSync w pathC), (existsSync w pathR), (existsSync w pathE),
      (truthy cp), (truthy ep); simpl;
      split; try reflexivity; try discriminate; auto;
      intros (X & Y & Z); try discriminate Y;
      try (discriminate (X eq_refl)); try (discriminate (Z eq_refl)).
Qed.

Lemma resolution_without_database_integration_witness :
  Part000.normalizeConfig loadNamed
    (diskOf ["/proj/src/graphql/"; "/proj/src/index.ts"] "/proj")
    {| InputConfig.contextPath := None;
       InputConfig.resolversPath := None;
       InputConfig.ejectFilePath := Some "./src/index.ts";
       InputConfig.output := None;
       InputConfig.prisma := None |} "/proj" (Some "/proj/build")
  = Ok {| Config.contextPath := None;
          Config.resolversPath := "/proj/src/graphql/";
          Config.ejectFilePath := Some "/proj/src/index.ts";
          Config.output :=
            {| OutputFilesConfig.typegenPath := "/proj/yoga/nexus.ts";
               OutputFilesConfig.schemaPath := "/proj/src/schema.graphql";
               OutputFilesConfig.buildPath := "/proj/build" |};
          Config.prisma := None |}.
Proof.
  apply (proj1 (proj1 (resolution_without_database_integration
                         (diskOf ["/proj/src/graphql/"; "/proj/src/index.ts"]
                                 "/proj")
                         "/proj" (Some "/proj/build") None None
                         (Some "./src/index.ts") None eq_refl eq_refl)
                      string loadNamed)).
  split; [discriminate | split; [reflexivity | reflexivity]].
Defined.

(** ** [true], [{}] and an auto-detected integration are the same *)

(** In both revisions, [prisma: true] and [prisma: {}] resolve alike, and
    when a [prisma.yml] is found, a configuration without [prisma] resolves
    as with [prisma: true]. *)
Theorem prisma_true_empty_and_detected_agree (w : World)
    (projectDir : string) (outDir : option string)
    (cp rp ep : option string) (out : option InputOutputFilesConfig.t) :
  (forall Export loader,
     @Part000.normalizeConfig Export loader w
       {| InputConfig.contextPath := cp; InputConfig.resolversPath := rp;
          InputConfig.ejectFilePath := ep; InputConfig.output := out;
          InputConfig.prisma := Some Part000.PrismaTrue |} projectDir outDir
     = Part000.normalizeConfig loader w
       {| InputConfig.contextPath := cp; InputConfig.resolversPath := rp;
          InputConfig.ejectFilePath := ep; InputConfig.output := out;
          InputConfig.prisma :=
            Some (Part000.PrismaObject (Part000.InputPrisma.empty _)) |}
       projectDir outDir)
  /\ (forall Schema loader,
        @YogaDefaults.normalizeConfig Schema loader w
          {| InputConfig.contextPath := cp; InputConfig.resolversPath := rp;
             InputConfig.ejectFilePath := ep; InputConfig.output := out;
             InputConfig.prisma := Some YogaDefaults.PrismaTrue |}
          projectDir outDir
        = YogaDefaults.normalizeConfig loader w
          {| InputConfig.contextPath := cp; InputConfig.resolversPath := rp;
             InputConfig.ejectFilePath := ep; InputConfig.output := out;
             InputConfig.prisma :=
               Some (YogaDefaults.PrismaObject
                       (YogaDefaults.InputPrisma.empty _)) |}
          projectDir outDir)
  /\ (findPrismaConfigFile w projectDir <> None ->
      (forall Export loader,
         @Part000.normalizeConfig Export loader w
           {| InputConfig.contextPath := cp; InputConfig.resolversPath := rp;
              InputConfig.ejectFilePath := ep; InputConfig.output := out;
              InputConfig.prisma := None |} projectDir outDir
         = Part000.normalizeConfig loader w
           {| InputConfig.contextPath := cp; InputConfig.resolversPath := rp;
              InputConfig.ejectFilePath := ep; InputConfig.output := out;
              InputConfig.prisma := Some Part000.PrismaTrue |}
           projectDir outDir)
      /\ (forall Schema loader,
            @YogaDefaults.normalizeConfig Schema loader w
              {| InputConfig.contextPath := cp;
                 InputConfig.resolversPath := rp;
                 InputConfig.ejectFilePath := ep; InputConfig.output := out;
                 InputConfig.prisma := None |} projectDir outDir
            = YogaDefaults.normalizeConfig loader w
              {| InputConfig.contextPath := cp;
                 InputConfig.resolversPath := rp;
                 InputConfig.ejectFilePath := ep; InputConfig.output := out;
                 InputConfig.prisma := Some YogaDefaults.PrismaTrue |}
              projectDir outDir)).
Proof.
  split; [reflexivity | split; [reflexivity |]].
  intros N.
  assert (F : hasPrismaConfigFile w projectDir = true).
  { unfold hasPrismaConfigFile.
    destruct (findPrismaConfigFile w projectDir) as [found |] eqn:E;
      [| congruence].
    unfold findPrismaConfigFile in E; simpl.
    destruct (existsSync w (joinAll [projectDir; "prisma.yml"]));
      [injection E as <-; apply joinAll_nonEmpty |].
    destruct (existsSync w (joinAll [cwd w; "prisma"; "prisma.yml"]));
      [injection E as <-; apply joinAll_nonEmpty | discriminate E]. }
  split; intros T loader.
  - unfold Part000.normalizeConfig; cbn [InputConfig.prisma].
    rewrite !Part000_prisma_unfold, F; reflexivity.
  - unfold YogaDefaults.normalizeConfig; cbn [InputConfig.prisma].
    rewrite !YogaDefaults_prisma_unfold, F; reflexivity.
Qed.

Lemma prisma_true_empty_and_detected_agree_witness :
  Part000.normalizeConfig loadNamed
    (diskOf ["/proj/src/graphql/"; "/proj/prisma.yml";
             "./yoga/prisma-client/index.ts";
             "/proj/yoga/nexus-prisma/datamodel-info.ts"] "/proj")
    (InputConfig.empty _) "/proj" None
  = Part000.normalizeConfig loadNamed
    (diskOf ["/proj/src/graphql/"; "/proj/prisma.yml";
             "./yoga/prisma-client/index.ts";
             "/proj/yoga/nexus-prisma/datamodel-info.ts"] "/proj")
    {| InputConfig.contextPath := None; InputConfig.resolversPath := None;
       InputConfig.ejectFilePath := None; InputConfig.output := None;
       InputConfig.prisma := Some Part000.PrismaTrue |} "/proj" None.
Proof.
  apply (proj1 (proj2 (proj2 (prisma_true_empty_and_detected_agree
                                (diskOf ["/proj/src/graphql/";
                                         "/proj/prisma.yml";
                                         "./yoga/prisma-client/index.ts";
                                         "/proj/yoga/nexus-prisma/datamodel-info.ts"]
                                        "/proj")
                                "/proj" None None None None None))
                      ltac:(discriminate))).
Defined.

(** ** The outcomes of [prisma] once the integration is enabled *)

(** unnamed/part_000, with [prisma] given ([true] or an object).  Without
    an inline client and without [./yoga/prisma-client/index.ts], [prisma]
    throws before anything else; otherwise, when the joined datamodel info
    path does not exist, it throws that path's message; in both cases the
    loader is not called.  Otherwise the loader is called once: with an
    inline client for the datamodel info alone, and the resolved client is
    the inline one and the datamodel info the first value loaded; without
    one for the client's [prisma] export and then the datamodel info's
    [default] export, and the resolved client and datamodel info are the
    first and second value loaded.  The number of values the loader returns
    is not checked: a missing value leaves its component undefined. *)
Theorem part000_prisma_outcomes {Export : Type}
    (loader : list Part000.FileToTranspile -> string -> string
              -> result (list Export)) (w : World)
    (projectDir outDir : string) (given : Part000.InputPrismaConfig Export) :
  let overrides := part000Overrides (Some given) in
  let datamodelInfoPath :=
    join projectDir
         (inputOrDefaultValue (Part000.InputPrisma.datamodelInfoPath overrides)
                              Part000.DEFAULT_META_SCHEMA_PATH) in
  let clientFile := {| Part000.filePath := Part000.DEFAULT_PRISMA_CLIENT_PATH;
                       Part000.exportName := "prisma" |} in
  let datamodelInfoFile := {| Part000.filePath := datamodelInfoPath;
                              Part000.exportName := "default" |} in
  (Part000.InputPrisma.client overrides = None ->
   existsSync w Part000.DEFAULT_PRISMA_CLIENT_PATH = false ->
   Part000.prisma loader w projectDir (Some given) outDir = Throw "")
  /\ (Part000.InputPrisma.client overrides <> None
      \/ existsSync w Part000.DEFAULT_PRISMA_CLIENT_PATH = true ->
      existsSync w datamodelInfoPath = false ->
      Part000.prisma loader w projectDir (Some given) outDir
      = Throw (Part000.datamodelInfoMessage datamodelInfoPath))
  /\ (forall client,
        Part000.InputPrisma.client overrides = Some client ->
        existsSync w datamodelInfoPath = true ->
        Part000.prisma loader w projectDir (Some given) outDir
        = let* imported := loader [datamodelInfoFile] projectDir outDir in
          Ok (Some {| Part000.Prisma.datamodelInfo := nth_error imported 0;
                      Part000.Prisma.client := Some client |}))
  /\ (Part000.InputPrisma.client overrides = None ->
      existsSync w Part000.DEFAULT_PRISMA_CLIENT_PATH = true ->
      existsSync w datamodelInfoPath = true ->
      Part000.prisma loader w projectDir (Some given) outDir
      = let* imported :=
          loader [clientFile; datamodelInfoFile] projectDir outDir in
        Ok (Some {| Part000.Prisma.datamodelInfo := nth_error imported 1;
                    Part000.Prisma.client := nth_error imported 0 |})).
Proof.
  intros overrides datamodelInfoPath clientFile datamodelInfoFile.
  assert (E : Part000.prisma loader w projectDir (Some given) outDir
              = let* imported :=
                  Part000.importDatamodelInfoAndClient
                    loader w projectDir outDir
                    (Part000.InputPrisma.client overrides)
                    (Part000.InputPrisma.datamodelInfoPath overrides) in
                Ok (Some {| Part000.Prisma.datamodelInfo :=
                              nth_error imported 1;
                            Part000.Prisma.client := nth_error imported 0 |}))
    by (rewrite Part000_prisma_unfold; reflexivity).
  rewrite E; clear E.
  split; [| split; [| split]].
  - intros C X; rewrite C.
    rewrite (Part000_import_client_missing loader w projectDir outDir _ X).
    reflexivity.
  - intros C X.
    rewrite (proj1 (Part000_datamodelInfo_required
                      loader w projectDir outDir
                      (Part000.InputPrisma.client overrides)
                      (Part000.InputPrisma.datamodelInfoPath overrides) C) X).
    reflexivity.
  - intros client C X.
    assert (N : Part000.InputPrisma.client overrides <> None)
      by (rewrite C; discriminate).
    rewrite (proj2 (Part000_datamodelInfo_required
                      loader w projectDir outDir
                      (Part000.InputPrisma.client overrides)
                      (Part000.InputPrisma.datamodelInfoPath overrides)
                      (or_introl N)) X).
    rewrite C; fold datamodelInfoPath datamodelInfoFile.
    destruct (loader [datamodelInfoFile] projectDir outDir); reflexivity.
  - intros C Y X.
    rewrite (proj2 (Part000_datamodelInfo_required
                      loader w projectDir outDir
                      (Part000.InputPrisma.client overrides)
                      (Part000.InputPrisma.datamodelInfoPath overrides)
                      (or_intror Y)) X).
    rewrite C; reflexivity.
Qed.

Lemma part000_prisma_outcomes_witness :
  Part000.prisma loadNamed
    (diskOf ["/proj/generated/datamodel-info.ts"] "/proj") "/proj"
    (Some (Part000.PrismaObject
             {| Part000.InputPrisma.datamodelInfoPath :=
                  Some "./generated/datamodel-info.ts";
                Part000.InputPrisma.client := Some "inline client" |}))
    "/proj/dist"
  = Ok (Some {| Part000.Prisma.datamodelInfo :=
                  Some "/proj/generated/datamodel-info.ts#default";
                Part000.Prisma.client := Some "inline client" |})
  /\ Part000.prisma (fun _ _ _ => Ok ([] : list string))
       (diskOf ["./yoga/prisma-client/index.ts";
                "/proj/yoga/nexus-prisma/datamodel-info.ts"] "/proj") "/proj"
       (Some Part000.PrismaTrue) "/proj/dist"
     = Ok (Some {| Part000.Prisma.datamodelInfo := None;
                   Part000.Prisma.client := None |}).
Proof.
  split.
  - apply (proj1 (proj2 (proj2 (part000_prisma_outcomes
             loadNamed (diskOf ["/proj/generated/datamodel-info.ts"] "/proj")
             "/proj" "/proj/dist"
             (Part000.PrismaObject
                {| Part000.InputPrisma.datamodelInfoPath :=
                     Some "./generated/datamodel-info.ts";
                   Part000.InputPrisma.client := Some "inline client" |}))))
           "inline client" eq_refl eq_refl).
  - apply (proj2 (proj2 (proj2 (part000_prisma_outcomes
             (fun _ _ _ => Ok ([] : list string))
             (diskOf ["./yoga/prisma-client/index.ts";
                      "/proj/yoga/nexus-prisma/datamodel-info.ts"] "/proj")
             "/proj" "/proj/dist" Part000.PrismaTrue)))
           eq_refl eq_refl eq_refl).
Defined.

(** yogaDefaults.ts, with [prisma] given ([true] or an object).  The
    schema comes first: an inline [nexusPrismaSchema] is taken as it is;
    without one the descriptor constant must exist, else its message is
    thrown, and the loader is called for it, and its error is thrown as it
    is; only then is the joined client path checked.  So a missing
    descriptor or a failing load is reported even when the client path is
    missing too, and on success the result holds the joined client path,
    the schema, and the client name. *)
Theorem yogaDefaults_prisma_outcomes {Schema : Type}
    (loader : string -> string -> result Schema) (w : World)
    (projectDir : string) (given : YogaDefaults.InputPrismaConfig Schema) :
  let overrides := yogaDefaultsOverrides (Some given) in
  let clientPath :=
    join projectDir
         (inputOrDefaultValue
            (YogaDefaults.InputPrisma.prismaClientPath overrides)
            DEFAULTS.prisma_prismaClientPath) in
  let resolved (schema : Schema) :=
    if existsSync w clientPath then
      Ok (Some {| YogaDefaults.Prisma.prismaClientPath := clientPath;
                  YogaDefaults.Prisma.nexusPrismaSchema := schema;
                  YogaDefaults.Prisma.contextClientName :=
                    inputOrDefaultValue
                      (YogaDefaults.InputPrisma.contextClientName overrides)
                      DEFAULTS.prisma_contextClientName |})
    else Throw (YogaDefaults.prismaClientPathMessage clientPath) in
  (forall schema,
     YogaDefaults.InputPrisma.nexusPrismaSchema overrides = Some schema ->
     YogaDefaults.prisma loader w projectDir (Some given) = resolved schema)
  /\ (YogaDefaults.InputPrisma.nexusPrismaSchema overrides = None ->
      existsSync w YogaDefaults.DEFAULT_NEXUS_PRISMA_SCHEMA_PATH = false ->
      YogaDefaults.prisma loader w projectDir (Some given)
      = Throw YogaDefaults.nexusPrismaSchemaMessage)
  /\ (forall m,
        YogaDefaults.InputPrisma.nexusPrismaSchema overrides = None ->
        existsSync w YogaDefaults.DEFAULT_NEXUS_PRISMA_SCHEMA_PATH = true ->
        loader projectDir YogaDefaults.DEFAULT_NEXUS_PRISMA_SCHEMA_PATH
          = Throw m ->
        YogaDefaults.prisma loader w projectDir (Some given) = Throw m)
  /\ (forall schema,
        YogaDefaults.InputPrisma.nexusPrismaSchema overrides = None ->
        existsSync w YogaDefaults.DEFAULT_NEXUS_PRISMA_SCHEMA_PATH = true ->
        loader projectDir YogaDefaults.DEFAULT_NEXUS_PRISMA_SCHEMA_PATH
          = Ok schema ->
        YogaDefaults.prisma loader w projectDir (Some given)
        = resolved schema).
Proof.
  intros overrides clientPath resolved.
  assert (E : YogaDefaults.prisma loader w projectDir (Some given)
              = yogaDefaultsEnabled loader w projectDir overrides)
    by (rewrite YogaDefaults_prisma_unfold; reflexivity).
  rewrite E; clear E; unfold yogaDefaultsEnabled, inputOrDefaultPath.
  fold clientPath.
  assert (R : forall schema,
            (let* checkedClientPath :=
               requiredPath w clientPath
                 (YogaDefaults.prismaClientPathMessage clientPath) in
             Ok (Some {| YogaDefaults.Prisma.prismaClientPath :=
                           checkedClientPath;
                         YogaDefaults.Prisma.nexusPrismaSchema := schema;
                         YogaDefaults.Prisma.contextClientName :=
                           inputOrDefaultValue
                             (YogaDefaults.InputPrisma.contextClientName
                                overrides)
                             DEFAULTS.prisma_contextClientName |}))
            = resolved schema).
  { intros schema; unfold resolved, requiredPath.
    destruct (existsSync w clientPath); reflexivity. }
  split; [| split; [| split]].
  - intros schema S; rewrite S; apply R.
  - intros S X; rewrite S, (requiredPath_missing w _ _ X); reflexivity.
  - intros m S X L; rewrite S, (requiredPath_present w _ _ X); simpl.
    rewrite L; reflexivity.
  - intros schema S X L; rewrite S, (requiredPath_present w _ _ X); simpl.
    rewrite L; apply R.
Qed.

Lemma yogaDefaults_prisma_outcomes_witness :
  YogaDefaults.prisma loadDefaultNamed
    (diskOf ["/proj/lib/client.ts"] "/proj") "/proj"
    (Some (YogaDefaults.PrismaObject
             {| YogaDefaults.InputPrisma.prismaClientPath :=
                  Some "./lib/client.ts";
                YogaDefaults.InputPrisma.nexusPrismaSchema :=
                  Some "inline schema";
                YogaDefaults.InputPrisma.contextClientName := Some "" |}))
  = Ok (Some {| YogaDefaults.Prisma.prismaClientPath := "/proj/lib/client.ts";
                YogaDefaults.Prisma.nexusPrismaSchema := "inline schema";
                YogaDefaults.Prisma.contextClientName := "prisma" |})
  /\ YogaDefaults.prisma loadDefaultNamed (diskOf [] "/proj") "/proj"
       (Some YogaDefaults.PrismaTrue)
     = Throw "Could not find a valid `prisma.nexusPrismaSchema` at ./yoga/nexus-prisma/nexus-prisma.ts".
Proof.
  split.
  - apply (proj1 (yogaDefaults_prisma_outcomes
                    loadDefaultNamed (diskOf ["/proj/lib/client.ts"] "/proj")
                    "/proj"
                    (YogaDefaults.PrismaObject
                       {| YogaDefaults.InputPrisma.prismaClientPath :=
                            Some "./lib/client.ts";
                          YogaDefaults.InputPrisma.nexusPrismaSchema :=
                            Some "inline schema";
                          YogaDefaults.InputPrisma.contextClientName :=
                            Some "" |}))
                 "inline schema" eq_refl).
  - apply (proj1 (proj2 (yogaDefaults_prisma_outcomes
                           loadDefaultNamed (diskOf [] "/proj") "/proj"
                           YogaDefaults.PrismaTrue))
                 eq_refl eq_refl).
Defined.

(** yogaDefaults.ts: the client name of a resolved [prisma] is never the
    empty string; it is the user's [contextClientName] when that is a
    non-empty string, and [prisma] otherwise. *)
Theorem yogaDefaults_contextClientName (w : World) (projectDir : string)
    (outDir : option string) {Schema : Type}
    (loader : string -> string -> result Schema)
    (config : InputConfig.t (YogaDefaults.InputPrismaConfig Schema))
    (c : Config.t (YogaDefaults.Prisma.t Schema))
    (pr : YogaDefaults.Prisma.t Schema) :
  YogaDefaults.normalizeConfig loader w config projectDir outDir = Ok c ->
  Config.prisma c = Some pr ->
  YogaDefaults.Prisma.contextClientName pr <> ""
  /\ (forall name,
        YogaDefaults.InputPrisma.contextClientName
          (yogaDefaultsOverrides (InputConfig.prisma config)) = Some name ->
        name <> "" ->
        YogaDefaults.Prisma.contextClientName pr = name)
  /\ (YogaDefaults.InputPrisma.contextClientName
        (yogaDefaultsOverrides (InputConfig.prisma config)) = None
      \/ YogaDefaults.InputPrisma.contextClientName
           (yogaDefaultsOverrides (InputConfig.prisma config)) = Some "" ->
      YogaDefaults.Prisma.contextClientName pr = "prisma").
Proof.
  intros H E.
  apply YogaDefaults_normalizeConfig_Ok_inv in H.
  destruct H as (_ & _ & _ & _ & Hp); rewrite E in Hp.
  apply YogaDefaults_prisma_Some_inv, yogaDefaultsEnabled_Ok_inv in Hp.
  destruct Hp as (pr' & Epr & _ & _ & N & _); injection Epr as <-.
  rewrite N; split; [| split].
  - apply inputOrDefaultValue_not_empty; discriminate.
  - intros name I M; exact (inputOrDefaultValue_truthy _ _ _ I M).
  - intros I; exact (inputOrDefaultValue_falsy _ _ I).
Qed.

Lemma yogaDefaults_contextClientName_witness :
  exists c pr,
    YogaDefaults.normalizeConfig loadDefaultNamed
      (diskOf ["/proj/src/graphql/"; "/proj/yoga/prisma-client/index.ts";
               "./yoga/nexus-prisma/nexus-prisma.ts"] "/proj")
      {| InputConfig.contextPath := None;
         InputConfig.resolversPath := None;
         InputConfig.ejectFilePath := None;
         InputConfig.output := None;
         InputConfig.prisma :=
           Some (YogaDefaults.PrismaObject
                   {| YogaDefaults.InputPrisma.prismaClientPath := None;
                      YogaDefaults.InputPrisma.nexusPrismaSchema := None;
                      YogaDefaults.InputPrisma.contextClientName :=
                        Some "db" |}) |} "/proj" None = Ok c
    /\ Config.prisma c = Some pr
    /\ YogaDefaults.Prisma.contextClientName pr = "db".
Proof.
  eexists; eexists; split; [vm_compute; reflexivity |].
  split; [reflexivity |].
  apply (proj1 (proj2 (yogaDefaults_contextClientName
                         (diskOf ["/proj/src/graphql/";
                                  "/proj/yoga/prisma-client/index.ts";
                                  "./yoga/nexus-prisma/nexus-prisma.ts"]
                                 "/proj")
                         "/proj" None loadDefaultNamed
                         {| InputConfig.contextPath := None;
                            InputConfig.resolversPath := None;
                            InputConfig.ejectFilePath := None;
                            InputConfig.output := None;
                            InputConfig.prisma :=
                              Some (YogaDefaults.PrismaObject
                                      {| YogaDefaults.InputPrisma.prismaClientPath := None;
                                         YogaDefaults.InputPrisma.nexusPrismaSchema := None;
                                         YogaDefaults.InputPrisma.contextClientName :=
                                           Some "db" |}) |}
                         _ _ eq_refl eq_refl)) "db");
    [reflexivity | discriminate].
Defined.

(** ** What the loaders are called with *)

(** [normalizeConfig] of unnamed/part_000 calls the loader only with the
    project directory and the resolved build path (the given [outDir], or
    the project directory joined with [./dist]); that of yogaDefaults.ts
    only with the project directory and the default descriptor path:
    replacing the loader by one that ignores these arguments and uses those
    values changes nothing. *)
Theorem loaders_are_called_with_project_and_build_path (w : World)
    (projectDir : string) (outDir : option string) :
  (forall Export loader config,
     @Part000.normalizeConfig Export loader w config projectDir outDir
     = Part000.normalizeConfig
         (fun files _ _ =>
            loader files projectDir
                   (OutputFilesConfig.buildPath
                      (output projectDir None outDir)))
         w config projectDir outDir)
  /\ (forall Schema loader config,
        @YogaDefaults.normalizeConfig Schema loader w config projectDir outDir
        = YogaDefaults.normalizeConfig
            (fun _ _ =>
               loader projectDir YogaDefaults.DEFAULT_NEXUS_PRISMA_SCHEMA_PATH)
            w config projectDir outDir).
Proof.
  split.
  - intros Export loader config; unfold Part000.normalizeConfig.
    destruct (contextPath w projectDir _); [| reflexivity].
    destruct (resolversPath w projectDir _); [| reflexivity].
    destruct (ejectFilePath w projectDir _); [| reflexivity].
    cbn [bind]; rewrite !Part000_prisma_unfold.
    unfold Part000.importDatamodelInfoAndClient.
    destruct (InputConfig.prisma config) as [given |];
      [| destruct (hasPrismaConfigFile w projectDir); [| reflexivity]];
      (destruct (Part000.InputPrisma.client _);
       [| destruct (requiredPath w Part000.DEFAULT_PRISMA_CLIENT_PATH "");
          [| reflexivity]];
       cbn [bind fst snd];
       (destruct (requiredPath w _ (Part000.datamodelInfoMessage _));
        [| reflexivity]);
       reflexivity).
  - intros Schema loader config; unfold YogaDefaults.normalizeConfig.
    destruct (contextPath w projectDir _); [| reflexivity].
    destruct (resolversPath w projectDir _); [| reflexivity].
    destruct (ejectFilePath w projectDir _); [| reflexivity].
    cbn [bind]; rewrite !YogaDefaults_prisma_unfold.
    assert (E : forall overrides,
              yogaDefaultsEnabled loader w projectDir overrides
              = yogaDefaultsEnabled
                  (fun _ _ =>
                     loader projectDir
                            YogaDefaults.DEFAULT_NEXUS_PRISMA_SCHEMA_PATH)
                  w projectDir overrides).
    { intros overrides; unfold yogaDefaultsEnabled.
      destruct (YogaDefaults.InputPrisma.nexusPrismaSchema overrides);
        [reflexivity |].
      destruct (requiredPath w YogaDefaults.DEFAULT_NEXUS_PRISMA_SCHEMA_PATH
                             YogaDefaults.nexusPrismaSchemaMessage)
        as [path | m] eqn:R; [| reflexivity].
      apply requiredPath_Ok_inv in R; destruct R as [-> _]; reflexivity. }
    destruct (InputConfig.prisma config) as [given |];
      [| destruct (hasPrismaConfigFile w projectDir); [| reflexivity]];
      rewrite <- E; reflexivity.
Qed.

(** ** config.ts: the datamodel info path reported to the caller *)

Lemma getDatamodelInfoPath_is_input_or_default {Export : Type}
    (prismaConfig : option (Part000.InputPrismaConfig Export)) :
  ConfigTs.getDatamodelInfoPath prismaConfig
  = inputOrDefaultValue
      (Part000.InputPrisma.datamodelInfoPath (part000Overrides prismaConfig))
      Part000.DEFAULT_META_SCHEMA_PATH.
Proof.
  destruct prismaConfig as [[| overrides] |]; try reflexivity.
  simpl; destruct (Part000.InputPrisma.datamodelInfoPath overrides) as [p |];
    [| reflexivity].
  simpl; destruct (nonEmpty p); reflexivity.
Qed.

(** [getDatamodelInfoPath] of config.ts names the file that [prisma] of
    unnamed/part_000 loads the datamodel info from: it is never empty,
    joined with the project directory it is the path that
    [importDatamodelInfoAndClient] checks, and so it exists on disk
    whenever [normalizeConfig] returned a configuration with [prisma]. *)
Theorem getDatamodelInfoPath_names_the_loaded_file {Export : Type}
    (loader : list Part000.FileToTranspile -> string -> string
              -> result (list Export)) (w : World)
    (config : InputConfig.t (Part000.InputPrismaConfig Export))
    (projectDir : string) (outDir : option string) :
  ConfigTs.getDatamodelInfoPath (InputConfig.prisma config) <> ""
  /\ join projectDir (ConfigTs.getDatamodelInfoPath (InputConfig.prisma config))
     = inputOrDefaultPath projectDir
         (Part000.InputPrisma.datamodelInfoPath
            (part000Overrides (InputConfig.prisma config)))
         Part000.DEFAULT_META_SCHEMA_PATH
  /\ (forall c,
        Part000.normalizeConfig loader w config projectDir outDir = Ok c ->
        Config.prisma c <> None ->
        existsSync w
          (join projectDir
                (ConfigTs.getDatamodelInfoPath (InputConfig.prisma config)))
        = true).
Proof.
  rewrite getDatamodelInfoPath_is_input_or_default.
  split; [apply inputOrDefaultValue_not_empty; discriminate |].
  split; [reflexivity |].
  intros c H N.
  apply Part000_normalizeConfig_Ok_inv in H.
  destruct H as (_ & _ & _ & _ & Hp).
  destruct (Config.prisma c) as [pr |]; [| congruence].
  apply Part000_prisma_Some_inv in Hp; destruct Hp as (values & Hv & _).
  apply Part000_import_Ok_inv in Hv; destruct Hv as [X _]; exact X.
Qed.

Lemma getDatamodelInfoPath_names_the_loaded_file_witness :
  existsSync
    (diskOf ["/proj/src/graphql/"; "./yoga/prisma-client/index.ts";
             "/proj/generated/datamodel-info.ts"] "/proj")
    (join "/proj"
          (ConfigTs.getDatamodelInfoPath
             (Some (Part000.PrismaObject
                      {| Part000.InputPrisma.datamodelInfoPath :=
                           Some "./generated/datamodel-info.ts";
                         Part000.InputPrisma.client := @None string |}))))
  = true.
Proof.
  apply (proj2 (proj2 (getDatamodelInfoPath_names_the_loaded_file
                         loadNamed
                         (diskOf ["/proj/src/graphql/";
                                  "./yoga/prisma-client/index.ts";
                                  "/proj/generated/datamodel-info.ts"] "/proj")
                         {| InputConfig.contextPath := None;
                            InputConfig.resolversPath := None;
                            InputConfig.ejectFilePath := None;
                            InputConfig.output := None;
                            InputConfig.prisma :=
                              Some (Part000.PrismaObject
                                      {| Part000.InputPrisma.datamodelInfoPath :=
                                           Some "./generated/datamodel-info.ts";
                                         Part000.InputPrisma.client := None |})
                         |} "/proj" None)) _ eq_refl).
  discriminate.
Defined.

(** ** The two revisions side by side *)

(** For the same [contextPath], [resolversPath], [ejectFilePath] and
    [output] inputs, project directory, [outDir] and file system, the two
    revisions of [normalizeConfig] fail on these fields with the same
    message, and when both succeed their results agree on every field but
    [prisma]. *)
Theorem revisions_agree_outside_prisma (w : World) (projectDir : string)
    (outDir : option string) {Schema Export : Type}
    (loaderY : string -> string -> result Schema)
    (loaderP : list Part000.FileToTranspile -> string -> string
               -> result (list Export))
    (cp rp ep : option string) (out : option InputOutputFilesConfig.t)
    (prismaY : option (YogaDefaults.InputPrismaConfig Schema))
    (prismaP : option (Part000.InputPrismaConfig Export)) :
  let configY :=
    {| InputConfig.contextPath := cp; InputConfig.resolversPath := rp;
       InputConfig.ejectFilePath := ep; InputConfig.output := out;
       InputConfig.prisma := prismaY |} in
  let configP :=
    {| InputConfig.contextPath := cp; InputConfig.resolversPath := rp;
       InputConfig.ejectFilePath := ep; InputConfig.output := out;
       InputConfig.prisma := prismaP |} in
  (forall cY cP,
     YogaDefaults.normalizeConfig loaderY w configY projectDir outDir = Ok cY ->
     Part000.normalizeConfig loaderP w configP projectDir outDir = Ok cP ->
     Config.contextPath cY = Config.contextPath cP
     /\ Config.resolversPath cY = Config.resolversPath cP
     /\ Config.ejectFilePath cY = Config.ejectFilePath cP
     /\ Config.output cY = Config.output cP)
  /\ (forall m,
        contextPath w projectDir cp = Throw m
        \/ resolversPath w projectDir rp = Throw m
        \/ ejectFilePath w projectDir ep = Throw m ->
        exists m',
          YogaDefaults.normalizeConfig loaderY w configY projectDir outDir
            = Throw m'
          /\ Part000.normalizeConfig loaderP w configP projectDir outDir
             = Throw m').
Proof.
  intros configY configP; split.
  - intros cY cP HY HP.
    apply YogaDefaults_normalizeConfig_Ok_inv in HY.
    apply Part000_normalizeConfig_Ok_inv in HP.
    destruct HY as (Yc & Yr & Ye & Yo & _), HP as (Pc & Pr & Pe & Po & _).
    cbn [configY configP InputConfig.contextPath InputConfig.resolversPath
         InputConfig.ejectFilePath InputConfig.output] in *.
    rewrite Yc in Pc; rewrite Yr in Pr; rewrite Ye in Pe; rewrite Yo in Po.
    injection Pc as ->; injection Pr as ->; injection Pe as ->; auto.
  - intros m H.
    unfold YogaDefaults.normalizeConfig, Part000.normalizeConfig.
    cbn [configY configP InputConfig.contextPath InputConfig.resolversPath
         InputConfig.ejectFilePath].
    destruct (contextPath w projectDir cp) as [c | mc];
      [| exists mc; split; reflexivity].
    destruct (resolversPath w projectDir rp) as [r | mr];
      [| exists mr; split; reflexivity].
    destruct (ejectFilePath w projectDir ep) as [e | me];
      [| exists me; split; reflexivity].
    destruct H as [H | [H | H]]; discriminate H.
Qed.

Lemma revisions_agree_outside_prisma_witness :
  exists cY cP,
    YogaDefaults.normalizeConfig loadDefaultNamed
      (diskOf ["/proj/src/graphql/"; "/proj/src/context.ts"] "/proj")
      (InputConfig.empty _) "/proj" None = Ok cY
    /\ Part000.normalizeConfig loadNamed
         (diskOf ["/proj/src/graphql/"; "/proj/src/context.ts"] "/proj")
         (InputConfig.empty _) "/proj" None = Ok cP
    /\ Config.contextPath cY = Config.contextPath cP
    /\ Config.output cY = Config.output cP.
Proof.
  eexists; eexists; split; [vm_compute; reflexivity |].
  split; [vm_compute; reflexivity |].
  pose proof (proj1 (revisions_agree_outside_prisma
                       (diskOf ["/proj/src/graphql/"; "/proj/src/context.ts"]
                               "/proj") "/proj" None
                       loadDefaultNamed loadNamed None None None None
                       None None) _ _ eq_refl eq_refl) as (C & _ & _ & O).
  split; [exact C | exact O].
Defined.

(** ** config.ts: [parseTsConfig] and [importYogaConfig] *)

Section ImporterProperties.
Variable Export : Type.
Variable ParsedCommandLine : Type.
Variable optionsRootDir : ParsedCommandLine -> option string.
Variable optionsOutDir : ParsedCommandLine -> option string.
Variable findConfigFile : string -> string -> option string.
Variable parseJsonConfigFileContent :
  string -> string -> result ParsedCommandLine.
Variable dirname : string -> string.
Variable importFile :
  string -> string -> result (InputConfig.t (Part000.InputPrismaConfig Export)).
Variable transpileAndImport :
  list Part000.FileToTranspile -> string -> string -> result (list Export).
Variable w : World.

Lemma findTsConfigPath_Ok_inv (found : string) :
  ConfigTs.findTsConfigPath findConfigFile w = Ok found ->
  findConfigFile (cwd w) "tsconfig.json" = Some found /\ found <> "".
Proof.
  unfold ConfigTs.findTsConfigPath.
  destruct (findConfigFile (cwd w) "tsconfig.json") as [p |]; [| discriminate].
  destruct (nonEmpty p) eqn:N; [| discriminate].
  intros H; injection H as <-; split; [reflexivity |].
  apply nonEmpty_true_iff, N.
Qed.

Lemma parseTsConfig_Ok_inv (tsConfigPath : string)
    (tsConfig : ParsedCommandLine) :
  ConfigTs.parseTsConfig optionsRootDir optionsOutDir
    parseJsonConfigFileContent dirname tsConfigPath = Ok tsConfig ->
  parseJsonConfigFileContent tsConfigPath (dirname tsConfigPath) = Ok tsConfig
  /\ (exists root, optionsRootDir tsConfig = Some root /\ root <> "")
  /\ (exists dir, optionsOutDir tsConfig = Some dir /\ dir <> "").
Proof.
  unfold ConfigTs.parseTsConfig; intros H.
  apply bind_Ok_inv in H; destruct H as [ts [P H]].
  destruct (truthy (optionsRootDir ts)) eqn:R; [| discriminate H].
  destruct (truthy (optionsOutDir ts)) eqn:O; [| discriminate H].
  injection H as <-.
  apply truthy_true_iff in R, O; auto.
Qed.

(** A [tsconfig.json] that [parseTsConfig] accepts has a non-empty
    [rootDir] and a non-empty [outDir], and with that [outDir] the build
    path that [output] computes is the [outDir] itself, for every project
    directory and every [output] input: behind [parseTsConfig] the
    [./dist] default is never used. *)
Theorem parseTsConfig_fixes_the_build_path (tsConfigPath : string)
    (tsConfig : ParsedCommandLine) :
  ConfigTs.parseTsConfig optionsRootDir optionsOutDir
    parseJsonConfigFileContent dirname tsConfigPath = Ok tsConfig ->
  (exists root, optionsRootDir tsConfig = Some root /\ root <> "")
  /\ (exists dir,
        optionsOutDir tsConfig = Some dir /\ dir <> ""
        /\ forall projectDir input,
             OutputFilesConfig.buildPath
               (output projectDir input (optionsOutDir tsConfig)) = dir).
Proof.
  intros H; apply parseTsConfig_Ok_inv in H.
  destruct H as (_ & R & dir & O & N); split; [exact R |].
  exists dir; repeat split; auto.
  intros projectDir input; unfold output; cbn [OutputFilesConfig.buildPath].
  exact (inputOrDefaultValue_truthy _ _ _ O N).
Qed.

Lemma parseTsConfig_Ok_intro (tsConfigPath : string)
    (tsConfig : ParsedCommandLine) :
  parseJsonConfigFileContent tsConfigPath (dirname tsConfigPath)
    = Ok tsConfig ->
  truthy (optionsRootDir tsConfig) = true ->
  truthy (optionsOutDir tsConfig) = true ->
  ConfigTs.parseTsConfig optionsRootDir optionsOutDir
    parseJsonConfigFileContent dirname tsConfigPath = Ok tsConfig.
Proof.
  intros P R O; unfold ConfigTs.parseTsConfig; rewrite P; simpl.
  rewrite R, O; reflexivity.
Qed.

Lemma findTsConfigPath_Ok_intro (path : string) :
  findConfigFile (cwd w) "tsconfig.json" = Some path -> path <> "" ->
  ConfigTs.findTsConfigPath findConfigFile w = Ok path.
Proof.
  intros F N; unfold ConfigTs.findTsConfigPath; rewrite F.
  apply nonEmpty_true_iff in N; rewrite N; reflexivity.
Qed.

(** What a successful [importYogaConfig] returns: the [tsconfig.json] found
    from the working directory, its directory as the project directory, a
    parsed configuration with non-empty [rootDir] and [outDir], and as
    [yogaConfig] the promise of [normalizeConfig] on the input
    configuration with that project directory and [outDir].  With a
    [yoga.config.ts] the input is its [default] export and
    [datamodelInfoPath] is [getDatamodelInfoPath] of the input, whatever
    resolution gives; without one the input is [{}] and [datamodelInfoPath]
    is always undefined, for [prisma] is read off the promise that was not
    awaited. *)
Theorem importYogaConfig_success
    (r : ConfigTs.Imported.t ParsedCommandLine
           (InputConfig.t (Part000.InputPrismaConfig Export))
           (ConfigTs.Promise (Config.t (Part000.Prisma.t Export)))) :
  ConfigTs.importYogaConfig optionsRootDir optionsOutDir findConfigFile
    parseJsonConfigFileContent dirname importFile transpileAndImport w = Ok r ->
  findConfigFile (cwd w) "tsconfig.json" = Some (ConfigTs.Imported.tsConfigPath r)
  /\ ConfigTs.Imported.tsConfigPath r <> ""
  /\ ConfigTs.Imported.projectDir r = dirname (ConfigTs.Imported.tsConfigPath r)
  /\ parseJsonConfigFileContent (ConfigTs.Imported.tsConfigPath r)
                                (ConfigTs.Imported.projectDir r)
     = Ok (ConfigTs.Imported.tsConfig r)
  /\ ConfigTs.Imported.rootDir r
     = optionsRootDir (ConfigTs.Imported.tsConfig r)
  /\ (exists root, ConfigTs.Imported.rootDir r = Some root /\ root <> "")
  /\ (exists dir,
        optionsOutDir (ConfigTs.Imported.tsConfig r) = Some dir /\ dir <> "")
  /\ ConfigTs.Imported.yogaConfig r
     = Part000.normalizeConfig transpileAndImport w
         (ConfigTs.Imported.inputConfig r) (ConfigTs.Imported.projectDir r)
         (optionsOutDir (ConfigTs.Imported.tsConfig r))
  /\ match ConfigTs.Imported.yogaConfigPath r with
     | Some found =>
         found <> ""
         /\ findConfigFile (cwd w) "yoga.config.ts" = Some found
         /\ importFile found "default" = Ok (ConfigTs.Imported.inputConfig r)
         /\ ConfigTs.Imported.datamodelInfoPath r
            = Some (ConfigTs.getDatamodelInfoPath
                      (InputConfig.prisma (ConfigTs.Imported.inputConfig r)))
     | None =>
         truthy (findConfigFile (cwd w) "yoga.config.ts") = false
         /\ ConfigTs.Imported.inputConfig r = InputConfig.empty _
         /\ ConfigTs.Imported.datamodelInfoPath r = None
     end.
Proof.
  unfold ConfigTs.importYogaConfig; intros H.
  apply bind_Ok_inv in H; destruct H as [path [Hpath H]].
  apply findTsConfigPath_Ok_inv in Hpath; destruct Hpath as [F N].
  apply bind_Ok_inv in H; destruct H as [ts [Hts H]].
  apply parseTsConfig_Ok_inv in Hts; destruct Hts as (P & R & O).
  destruct (findConfigFile (cwd w) "yoga.config.ts") as [found |] eqn:Y.
  - destruct (nonEmpty found) eqn:NE; simpl in H.
    + apply bind_Ok_inv in H; destruct H as [ic [Hic H]].
      injection H as <-; simpl; repeat split; auto.
      apply nonEmpty_true_iff, NE.
    + injection H as <-; simpl; rewrite NE; repeat split; auto.
  - injection H as <-; simpl; repeat split; auto.
Qed.

(** [importYogaConfig] throws exactly in these cases, in the order the
    steps are taken: no [tsconfig.json] is found from the working
    directory; one is found and reading or parsing it throws; it is parsed
    and [rootDir] or [outDir] is missing or empty; it is parsed with both,
    a [yoga.config.ts] is found and importing it throws.  It never throws
    because resolution fails: with a usable [tsconfig.json] and no
    [yoga.config.ts] it returns, whatever [normalizeConfig] does, and the
    error stays in the promise. *)
Theorem importYogaConfig_error_provenance (m : string) :
  (ConfigTs.importYogaConfig optionsRootDir optionsOutDir findConfigFile
     parseJsonConfigFileContent dirname importFile transpileAndImport w
   = Throw m
   <-> (m = ConfigTs.tsConfigNotFound
        /\ truthy (findConfigFile (cwd w) "tsconfig.json") = false)
       \/ (exists path,
             findConfigFile (cwd w) "tsconfig.json" = Some path
             /\ path <> ""
             /\ (parseJsonConfigFileContent path (dirname path) = Throw m
                 \/ (exists ts,
                       parseJsonConfigFileContent path (dirname path) = Ok ts
                       /\ ((m = ConfigTs.rootDirOutDirRequired
                            /\ (truthy (optionsRootDir ts) = false
                                \/ truthy (optionsOutDir ts) = false))
                           \/ (truthy (optionsRootDir ts) = true
                               /\ truthy (optionsOutDir ts) = true
                               /\ exists found,
                                    findConfigFile (cwd w) "yoga.config.ts"
                                      = Some found
                                    /\ found <> ""
                                    /\ importFile found "default"
                                       = Throw m))))))
  /\ (forall path ts,
        findConfigFile (cwd w) "tsconfig.json" = Some path -> path <> "" ->
        parseJsonConfigFileContent path (dirname path) = Ok ts ->
        truthy (optionsRootDir ts) = true ->
        truthy (optionsOutDir ts) = true ->
        truthy (findConfigFile (cwd w) "yoga.config.ts") = false ->
        exists r,
          ConfigTs.importYogaConfig optionsRootDir optionsOutDir findConfigFile
            parseJsonConfigFileContent dirname importFile transpileAndImport w
          = Ok r
          /\ ConfigTs.Imported.yogaConfig r
             = Part000.normalizeConfig transpileAndImport w
                 (InputConfig.empty _) (dirname path) (optionsOutDir ts)).
Proof.
  split; [split |].
  - unfold ConfigTs.importYogaConfig; intros H.
    apply bind_Throw_inv in H; destruct H as [H | [path [Hpath H]]].
    { left; unfold ConfigTs.findTsConfigPath in H.
      destruct (findConfigFile (cwd w) "tsconfig.json") as [p |]; simpl.
      - destruct (nonEmpty p); [discriminate H |].
        injection H as <-; auto.
      - injection H as <-; auto. }
    right; exists path.
    apply findTsConfigPath_Ok_inv in Hpath; destruct Hpath as [F N].
    split; [exact F | split; [exact N |]].
    apply bind_Throw_inv in H; destruct H as [H | [ts [Hts H]]].
    { unfold ConfigTs.parseTsConfig in H.
      apply bind_Throw_inv in H; destruct H as [H | [ts [P H]]]; [auto |].
      right; exists ts; split; [exact P | left].
      destruct (truthy (optionsRootDir ts)) eqn:R;
        [destruct (truthy (optionsOutDir ts)) eqn:O; [discriminate H |] |];
        simpl in H; injection H as <-; auto. }
    pose proof Hts as Hts'.
    apply parseTsConfig_Ok_inv in Hts; destruct Hts as (P & R & O).
    right; exists ts; split; [exact P | right].
    assert (TR : truthy (optionsRootDir ts) = true)
      by (apply truthy_true_iff; exact R).
    assert (TO : truthy (optionsOutDir ts) = true)
      by (apply truthy_true_iff; exact O).
    split; [exact TR | split; [exact TO |]].
    destruct (findConfigFile (cwd w) "yoga.config.ts") as [found |] eqn:Y;
      [| discriminate H].
    destruct (nonEmpty found) eqn:NE; simpl in H; [| discriminate H].
    apply bind_Throw_inv in H; destruct H as [H | [ic [_ H]]];
      [| discriminate H].
    exists found; repeat split; auto.
    apply nonEmpty_true_iff, NE.
  - unfold ConfigTs.importYogaConfig.
    intros [[-> T] | (path & F & N & [P | (ts & P & [[-> D] | (R & O & found & Y & NE & I)])])].
    + unfold ConfigTs.findTsConfigPath.
      destruct (findConfigFile (cwd w) "tsconfig.json") as [p |];
        simpl in T |- *; [| reflexivity].
      rewrite T; reflexivity.
    + rewrite (findTsConfigPath_Ok_intro path F N); cbn [bind].
      unfold ConfigTs.parseTsConfig; rewrite P; reflexivity.
    + rewrite (findTsConfigPath_Ok_intro path F N); cbn [bind].
      unfold ConfigTs.parseTsConfig; rewrite P; cbn [bind].
      destruct D as [D | D]; rewrite D; simpl;
        [reflexivity | rewrite orb_true_r; reflexivity].
    + rewrite (findTsConfigPath_Ok_intro path F N); cbn [bind].
      rewrite (parseTsConfig_Ok_intro path ts P R O); cbn [bind].
      rewrite Y; apply nonEmpty_true_iff in NE; rewrite NE; simpl.
      rewrite I; reflexivity.
  - intros path ts F N P R O Y.
    unfold ConfigTs.importYogaConfig.
    rewrite (findTsConfigPath_Ok_intro path F N); cbn [bind].
    rewrite (parseTsConfig_Ok_intro path ts P R O); cbn [bind].
    destruct (findConfigFile (cwd w) "yoga.config.ts") as [found |].
    + simpl in Y; rewrite Y; simpl; eexists; split; reflexivity.
    + eexists; split; reflexivity.
Qed.
End ImporterProperties.

Lemma parseTsConfig_fixes_the_build_path_witness :
  OutputFilesConfig.buildPath
    (output "/proj" None
       (tsOutDir {| tsRootDir := Some "/proj/src";
                    tsOutDir := Some "/proj/build" |}))
  = "/proj/build".
Proof.
  destruct (parseTsConfig_fixes_the_build_path
              TsOptions tsRootDir tsOutDir
              (fun _ _ => Ok {| tsRootDir := Some "/proj/src";
                                tsOutDir := Some "/proj/build" |})
              dirnameInProj "/proj/tsconfig.json"
              {| tsRootDir := Some "/proj/src";
                 tsOutDir := Some "/proj/build" |} eq_refl)
    as (_ & dir & O & _ & B).
  injection O as <-; exact (B "/proj" None).
Defined.

Lemma importYogaConfig_success_witness :
  exists r,
    ConfigTs.importYogaConfig tsRootDir tsOutDir
      (findInProj ["tsconfig.json"])
      (fun _ _ => Ok {| tsRootDir := Some "/proj/src";
                        tsOutDir := Some "/proj/build" |})
      dirnameInProj
      (fun _ _ => Ok (InputConfig.empty (Part000.InputPrismaConfig string)))
      loadNamed
      (diskOf ["/proj/src/graphql/"; "/proj/prisma.yml";
               "./yoga/prisma-client/index.ts";
               "/proj/yoga/nexus-prisma/datamodel-info.ts"] "/proj/src")
    = Ok r
    /\ succeeded (ConfigTs.Imported.yogaConfig r) = true
    /\ ConfigTs.Imported.datamodelInfoPath r = None.
Proof.
  eexists; split; [vm_compute; reflexivity |].
  split; [reflexivity |].
  pose proof (importYogaConfig_success
                string TsOptions tsRootDir tsOutDir
                (findInProj ["tsconfig.json"])
                (fun _ _ => Ok {| tsRootDir := Some "/proj/src";
                                  tsOutDir := Some "/proj/build" |})
                dirnameInProj
                (fun _ _ =>
                   Ok (InputConfig.empty (Part000.InputPrismaConfig string)))
                loadNamed
                (diskOf ["/proj/src/graphql/"; "/proj/prisma.yml";
                         "./yoga/prisma-client/index.ts";
                         "/proj/yoga/nexus-prisma/datamodel-info.ts"]
                        "/proj/src") _ eq_refl)
    as (_ & _ & _ & _ & _ & _ & _ & _ & M).
  exact (proj2 (proj2 M)).
Defined.

Lemma importYogaConfig_error_provenance_witness :
  truthy (findInProj [] "/proj/src" "tsconfig.json") = false
  /\ exists r,
       ConfigTs.importYogaConfig tsRootDir tsOutDir
         (findInProj ["tsconfig.json"])
         (fun _ _ => Ok {| tsRootDir := Some "/proj/src";
                           tsOutDir := Some "/proj/build" |})
         dirnameInProj
         (fun _ _ => Ok (InputConfig.empty (Part000.InputPrismaConfig string)))
         loadNamed (diskOf [] "/proj/src") = Ok r
       /\ ConfigTs.Imported.yogaConfig r
          = Throw "Could not find a valid `resolversPath` at /proj/src/graphql/".
Proof.
  split.
  - destruct (proj1 (proj1 (importYogaConfig_error_provenance
                string TsOptions tsRootDir tsOutDir (findInProj [])
                (fun _ _ => Ok {| tsRootDir := None; tsOutDir := None |})
                dirnameInProj
                (fun _ _ =>
                   Ok (InputConfig.empty (Part000.InputPrismaConfig string)))
                loadNamed (diskOf [] "/proj/src")
                "Could not find a valid 'tsconfig.json'.")) eq_refl)
      as [[_ T] | (path & F & _)]; [exact T | discriminate F].
  - exact (proj2 (importYogaConfig_error_provenance
                    string TsOptions tsRootDir tsOutDir
                    (findInProj ["tsconfig.json"])
                    (fun _ _ => Ok {| tsRootDir := Some "/proj/src";
                                      tsOutDir := Some "/proj/build" |})
                    dirnameInProj
                    (fun _ _ =>
                       Ok (InputConfig.empty (Part000.InputPrismaConfig string)))
                    loadNamed (diskOf [] "/proj/src")
                    ConfigTs.tsConfigNotFound)
                 "/proj/tsconfig.json"
                 {| tsRootDir := Some "/proj/src";
                    tsOutDir := Some "/proj/build" |}
                 eq_refl ltac:(discriminate) eq_refl eq_refl eq_refl eq_refl).
Defined.

(** ** The paths that resolution looks at *)





